(** * NTPC smart dashboard: threshold evaluation and alert dispatch

    A shallow embedding of the backend's alert path:
    - the Twilio service that alertService.js imports as twilioService.js
      (class [TwilioService]: sendSMS, sendWhatsApp, sendAlert),
    - services/alertService.js ([checkThresholds] and the domain checks),
    - the server entry point (the callback it gives to [cron.schedule]),
    - routes/notifications.js (the send routes and their summaries),
    - the schemas of the Emission and Maintenance models.

    Conventions of the embedding.
    - A JavaScript number is an IEEE double.  A finite double is kept as the
      rational it stands for, a stored number that is absent is [None]
      ([undefined], which compares as NaN: every [<] and [>] is false), and
      the value of an arithmetic expression is an [xnum], which has the
      infinities and NaN.  Products, quotients and sums are rounded to the
      nearest double, ties to even ([Double.round]).  Module [Binary64] runs
      the same operations on the primitive floats of the kernel, and
      [Binary64Facts] checks that the two agree on a list of samples.
    - An [async] function is a computation in the monad [M]: it threads the
      state it mutates and either returns or throws.  A thrown exception keeps
      the state reached so far, as a JavaScript exception does.
    - Everything the program does to the outside (gateway calls, console
      output) is appended to a trace, oldest first.
    - Timestamps ([new Date()]) and the rendering of a message to text are left
      out; a message is kept as the data its template is filled with, and the
      text of [toFixed] as the sign and the integer whose digits it writes.
    - What Mongoose does with a schema is part of the model where a check
      depends on it: defaults are applied when a document is loaded, a save
      validates the required paths, and an array declared with a [type] key
      holds strings.
    - [checkThresholds] takes the load and ash checks as arbitrary
      computations; the two checks themselves, the test route, the status
      rules of the data generator and the prediction service are embedded
      after the sample data. *)

From Stdlib Require Import List String Bool Arith Lia ZArith QArith Qround Qpower
  Qabs Lqa.
From Stdlib Require Floats.PrimFloat Floats.FloatOps Floats.SpecFloat.
Import ListNotations.
Local Open Scope string_scope.
Local Open Scope list_scope.

Set Implicit Arguments.

(** ** JavaScript numbers

    A number is an IEEE double.  A finite double is kept as the rational it
    stands for; [Double.round] gives the double nearest to a rational, ties to
    the even mantissa, so the product of two doubles is the rounding of their
    exact product. *)

(* a stored number, or [undefined] *)
Definition num := option Q.

Module Num.

Definition Qgtb (a b : Q) : bool := negb (Qle_bool a b).

(* a > b *)
Definition gt (a b : num) : bool :=
  match a, b with
  | Some x, Some y => Qgtb x y
  | _, _ => false
  end.

(* a < b *)
Definition lt (a b : num) : bool := gt b a.

End Num.

(* the value of an arithmetic expression *)
Inductive xnum :=
| Finite (q : Q)
| PlusInfinity
| MinusInfinity
| NaN.

Module Double.

Definition pow2 (e : Z) : Q := Qpower 2 e.

(* the exponent of the last bit of the smallest doubles *)
Definition emin : Z := (-1074)%Z.

(* floor (log2 x), for x > 0: the difference of the two logarithms is it, or
   one more than it *)
Definition binade (x : Q) : Z :=
  let k := (Z.log2 (Qnum x) - Z.log2 (Zpos (Qden x)))%Z in
  if Qle_bool (pow2 k) x then k else (k - 1)%Z.

(* the exponent of the last of the 53 bits of a double as large as x *)
Definition last_bit (x : Q) : Z := Z.max (binade x - 52) emin.

(* the nearest integer, a tie going to the even one *)
Definition nearest_even (q : Q) : Z :=
  let f := Qfloor q in
  match Qcompare (q - inject_Z f) (1 # 2) with
  | Lt => f
  | Gt => (f + 1)%Z
  | Eq => if Z.even f then f else (f + 1)%Z
  end.

Definition nearest_pos (x : Q) : Q :=
  let e := last_bit x in
  inject_Z (nearest_even (x / pow2 e)) * pow2 e.

(* the nearest number with a mantissa of 53 bits *)
Definition nearest (x : Q) : Q :=
  match Qcompare x 0 with
  | Eq => 0
  | Gt => nearest_pos x
  | Lt => - nearest_pos (- x)
  end.

(* the double nearest to x: beyond the largest double it is an infinity *)
Definition round (x : Q) : xnum :=
  let r := nearest x in
  if Qle_bool (pow2 1024) r then PlusInfinity
  else if Qle_bool r (- pow2 1024) then MinusInfinity
  else Finite r.

(* the numbers m * 2^e with a mantissa of 53 bits and e >= emin *)
Definition on_grid (z : Q) : Prop :=
  exists m e : Z, (Z.abs m < 2 ^ 53)%Z /\ (emin <= e)%Z /\ z == inject_Z m * pow2 e.


Definition opposite (a : xnum) : xnum :=
  match a with
  | Finite q => Finite (- q)
  | PlusInfinity => MinusInfinity
  | MinusInfinity => PlusInfinity
  | NaN => NaN
  end.

(* an infinity times, or divided by, a finite q other than 0 *)
Definition scaled (infinity : xnum) (q : Q) : xnum :=
  if Num.Qgtb q 0 then infinity
  else if Num.Qgtb 0 q then opposite infinity
  else NaN.

(* a * b *)
Definition mul (a b : xnum) : xnum :=
  match a, b with
  | NaN, _ | _, NaN => NaN
  | Finite x, Finite y => round (x * y)
  | Finite x, _ => scaled b x
  | _, Finite y => scaled a y
  | PlusInfinity, PlusInfinity | MinusInfinity, MinusInfinity => PlusInfinity
  | _, _ => MinusInfinity
  end.

(* a / b; the zero of a stored number is +0 *)
Definition div (a b : xnum) : xnum :=
  match a, b with
  | NaN, _ | _, NaN => NaN
  | Finite x, Finite y =>
      if Qeq_bool y 0 then scaled PlusInfinity x else round (x / y)
  | Finite _, _ => Finite 0
  | _, Finite y => if Qeq_bool y 0 then a else scaled a y
  | _, _ => NaN
  end.

End Double.

Module XNum.

(* a stored number in an expression: [undefined] is NaN there *)
Definition of_num (a : num) : xnum :=
  match a with
  | Some x => Finite x
  | None => NaN
  end.

(* a > b *)
Definition gt (a b : xnum) : bool :=
  match a, b with
  | NaN, _ | _, NaN => false
  | Finite x, Finite y => Num.Qgtb x y
  | PlusInfinity, PlusInfinity => false
  | PlusInfinity, _ => true
  | _, PlusInfinity => false
  | MinusInfinity, _ => false
  | Finite _, MinusInfinity => true
  end.

(* Math.max(a, b) *)
Definition max (a b : xnum) : xnum :=
  match a, b with
  | NaN, _ | _, NaN => NaN
  | _, _ => if gt a b then a else b
  end.

(* a <= b, as a proposition: NaN is below and above nothing *)
Definition le (a b : xnum) : Prop :=
  match a, b with
  | NaN, _ | _, NaN => False
  | MinusInfinity, _ => True
  | _, PlusInfinity => True
  | Finite x, Finite y => (x <= y)%Q
  | _, _ => False
  end.

End XNum.

(** ** Computations that mutate state and may throw *)

Definition Exn := string.

Inductive Outcome (A : Type) : Type :=
| Returned (a : A)
| Thrown (e : Exn).

Arguments Returned {A} a.
Arguments Thrown {A} e.

Definition M (S A : Type) : Type := S -> Outcome A * S.

Definition ret {S A} (a : A) : M S A := fun s => (Returned a, s).

Definition bind {S A B} (m : M S A) (k : A -> M S B) : M S B :=
  fun s =>
    match m s with
    | (Returned a, s') => k a s'
    | (Thrown e, s') => (Thrown e, s')
    end.

Definition throw {S A} (e : Exn) : M S A := fun s => (Thrown e, s).

(* try { body } catch (error) { handler error } *)
Definition try_catch {S A} (body : M S A) (handler : Exn -> M S A) : M S A :=
  fun s =>
    match body s with
    | (Returned a, s') => (Returned a, s')
    | (Thrown e, s') => handler e s'
    end.

Definition modify {S} (f : S -> S) : M S unit := fun s => (Returned tt, f s).

Definition gets {S A} (f : S -> A) : M S A := fun s => (Returned (f s), s).

Declare Scope js_scope.
Delimit Scope js_scope with js.
Notation "x <- c ;; k" := (bind c (fun x => k))
  (at level 61, c at next level, right associativity) : js_scope.
Notation "c ;; k" := (bind c (fun _ => k))
  (at level 61, right associativity) : js_scope.
Local Open Scope js_scope.

(* for (const x of l) { body x } *)
Fixpoint for_of {S B} (l : list B) (body : B -> M S unit) : M S unit :=
  match l with
  | [] => ret tt
  | x :: rest => body x ;; for_of rest body
  end.

(* when c is false the statement is skipped *)
Definition when {S} (c : bool) (m : M S unit) : M S unit :=
  if c then m else ret tt.

Definition returns {S A} (m : M S A) (s : S) : Prop :=
  exists a s', m s = (Returned a, s').

(** ** Messages, gateway calls and the trace *)

Inductive Level := Low | Medium | High.

Inductive Param := sox | nox | co2 | pm | co.

(* the comparisons of the emission check and the arithmetic of [Double], on
   the primitive floats *)
Module Binary64.

Import PrimFloat.

#[warnings="-inexact-float"]
Definition one_point_two : float := 1.2%float.

(* data.value > data.threshold *)
Definition exceeds (value threshold : float) : bool := ltb threshold value.

(* data.value > data.threshold * 1.2 ? 'High' : 'Medium' *)
Definition severity (value threshold : float) : Level :=
  if ltb (mul threshold one_point_two) value then High else Medium.

Definition alert (value threshold : float) : option Level :=
  if exceeds value threshold then Some (severity value threshold) else None.

(* what a float stands for *)
Definition value (f : float) : xnum :=
  match FloatOps.Prim2SF f with
  | SpecFloat.S754_zero _ => Finite 0
  | SpecFloat.S754_finite s m e =>
      Finite ((if s then - inject_Z (Zpos m) else inject_Z (Zpos m)) * Double.pow2 e)
  | SpecFloat.S754_infinity s => if s then MinusInfinity else PlusInfinity
  | SpecFloat.S754_nan => NaN
  end.

Definition rational (f : float) : Q :=
  match value f with
  | Finite x => x
  | _ => 0
  end.

Definition same (a b : xnum) : bool :=
  match a, b with
  | Finite x, Finite y => Qeq_bool x y
  | PlusInfinity, PlusInfinity | MinusInfinity, MinusInfinity | NaN, NaN => true
  | _, _ => false
  end.

(* the float operation and the rounded rational operation give the same *)
Definition agree (float_op : float -> float -> float) (op : Q -> Q -> Q)
    (p : float * float) : bool :=
  same (value (float_op (fst p) (snd p)))
       (Double.round (op (rational (fst p)) (rational (snd p)))).

#[warnings="-inexact-float"]
Definition samples : list (float * float) :=
  [(3, 1.2); (200, 1.2); (7, 1.2); (0.1, 1.2); (950, 0.8); (550, 1.2);
   (1e308, 1.2); (1e308, 10); (-3, 1.2); (-1e308, 10); (1e-320, 1.2);
   (5e-324, 0.5); (5e-324, 0.75); (1.5, 5e-324); (0.9, 100); (45000, 50000);
   (1995, 2100); (0.95, 100); (0.1, 0.2); (1, 3); (0.5031249999999999, 160);
   (120, 80.49999999999999); (1e16, 1); (9007199254740993, 1);
   (1.7976931348623157e308, 1.0000000000000002); (2.5, 3.3); (4.35, 100)]%float.

End Binary64.

Definition toUpperCase (p : Param) : string :=
  match p with
  | sox => "SOX" | nox => "NOX" | co2 => "CO2" | pm => "PM" | co => "CO"
  end.

(* one entry of criticalIssues in checkMaintenanceThresholds *)
Inductive Issue :=
| TemperatureIssue (value : num) (max : Q)
| VibrationIssue (value : num) (max : Q)
| PressureIssue (value : num) (max : Q)
| EfficiencyIssue (value : num) (min : Q).

(* 'Fly Ash' and 'Bottom Ash' *)
Inductive AshType := FlyAsh | BottomAsh.

(* The text of x.toFixed(fractionDigits), kept as what decides it.  Below
   10^21 the text is a minus sign when x < 0 and then the digits of the
   integer n for which n / 10^fractionDigits is nearest to |x|, the larger
   of two that are equally near, with a point before the last fractionDigits
   digits; from 10^21 on it is what ToString writes for |x|. *)
Inductive FixedText :=
| TextNaN
| TextInfinity
| TextMinusInfinity
| Digits (negative : bool) (n : Z) (fractionDigits : Z)
| ToString (negative : bool) (x : Q).

Definition toFixed (x : xnum) (fractionDigits : Z) : FixedText :=
  match x with
  | NaN => TextNaN
  | PlusInfinity => TextInfinity
  | MinusInfinity => TextMinusInfinity
  | Finite q =>
      let negative := Num.Qgtb 0 q in
      let x := Qabs q in
      if Qle_bool (inject_Z (10 ^ 21)) x then ToString negative x
      else Digits negative
             (Qfloor (x * inject_Z (10 ^ fractionDigits) + (1 # 2)))
             fractionDigits
  end.

(* A message: generateAlertMessage(alertType, data) for the four alert
   types, and the texts the notification routes build. *)
Inductive Message :=
| EmissionMessage (parameter : string) (value : num) (unit : string)
                  (threshold : Q) (location : string)
| MaintenanceMessage (equipment : string) (riskLevel : Level) (issue : list Issue)
| LoadMessage (currentLoad : num) (capacity : Q) (status : string)
| AshMessage (type : AshType) (level : FixedText) (action : string)
| Plain (body : string)
| Urgent (body : string)
| Broadcast (body : string)
| UrgentBroadcast (body : string).

(* the argument of client.messages.create *)
Record GatewayCall := {
  gc_body : Message;
  gc_from : option string;
  gc_to : string
}.

(* what the gateway answers on success *)
Record GatewayMessage := {
  sid : string;
  gm_status : string
}.

Inductive Line :=
| WarnCredentials
| MockSMS (to : string) (message : Message)
| MockWhatsApp (to : string) (message : Message)
| SMSFailed (e : Exn)
| WhatsAppFailed (e : Exn)
| EmissionAlertSent (p : Param) (value : num) (threshold : Q)
| MaintenanceAlertSent (equipment : string) (issues : nat)
| ErrorCheckingThresholds (e : Exn)
| CronJobError (e : Exn).

Inductive Effect :=
| NetCall (c : GatewayCall)
| Console (l : Line).

Definition Trace := list Effect.

(* a document being worked on, and what has been done to the outside *)
Record World (D : Type) := {
  doc : D;
  trace : Trace
}.

Definition emit {D} (e : Effect) : M (World D) unit :=
  modify (fun w => {| doc := doc w; trace := trace w ++ [e] |}).

Definition console {D} (l : Line) : M (World D) unit := emit (Console l).

Definition update_doc {D} (f : D -> D) : M (World D) unit :=
  modify (fun w => {| doc := f (doc w); trace := trace w |}).

(* run a computation on a document of its own; the caller keeps the trace *)
Definition with_doc {D D' A} (d : D') (m : M (World D') A) : M (World D) A :=
  fun w =>
    let (r, w') := m {| doc := d; trace := trace w |} in
    (r, {| doc := doc w; trace := trace w' |}).

Definition is_net (e : Effect) : bool :=
  match e with NetCall _ => true | Console _ => false end.

Definition net_calls (t : Trace) : list Effect := filter is_net t.

(** ** twilioService.js *)

(* The Twilio client: its answer to a call may depend on what happened
   before.  [inl e] is a rejected promise. *)
Definition Client := Trace -> GatewayCall -> Exn + GatewayMessage.

Record TwilioService := {
  accountSid : option string;
  authToken : option string;
  phoneNumber : option string;
  client : option Client
}.

(* truthiness of a string-or-undefined *)
Definition truthy (s : option string) : bool :=
  match s with
  | Some s => negb (s =? "")
  | None => false
  end.

(* constructor(): [twilio] is the factory of the twilio package *)
Definition newTwilioService (twilio : string -> string -> Client)
    (TWILIO_SID TWILIO_AUTH_TOKEN TWILIO_PHONE_NUMBER : option string)
  : TwilioService * list Line :=
  match TWILIO_SID, TWILIO_AUTH_TOKEN with
  | Some s, Some t =>
      if truthy TWILIO_SID && truthy TWILIO_AUTH_TOKEN
      then ({| accountSid := TWILIO_SID; authToken := TWILIO_AUTH_TOKEN;
               phoneNumber := TWILIO_PHONE_NUMBER; client := Some (twilio s t) |}, [])
      else ({| accountSid := TWILIO_SID; authToken := TWILIO_AUTH_TOKEN;
               phoneNumber := TWILIO_PHONE_NUMBER; client := None |}, [WarnCredentials])
  | _, _ =>
      ({| accountSid := TWILIO_SID; authToken := TWILIO_AUTH_TOKEN;
          phoneNumber := TWILIO_PHONE_NUMBER; client := None |}, [WarnCredentials])
  end.

(* the object returned by sendSMS / sendWhatsApp *)
Record SendResult := {
  success : bool;
  mock : bool;
  messageId : option string;
  status : option string;
  error : option string
}.

Definition mockResult : SendResult :=
  {| success := true; mock := true; messageId := None; status := None; error := None |}.

Definition sentResult (m : GatewayMessage) : SendResult :=
  {| success := true; mock := false; messageId := Some (sid m);
     status := Some (gm_status m); error := None |}.

Definition failedResult (e : Exn) : SendResult :=
  {| success := false; mock := false; messageId := None; status := None;
     error := Some e |}.

(* await this.client.messages.create(call) *)
Definition messages_create {D} (c : Client) (call : GatewayCall)
  : M (World D) GatewayMessage :=
  fun w =>
    let w' := {| doc := doc w; trace := trace w ++ [NetCall call] |} in
    match c (trace w) call with
    | inr m => (Returned m, w')
    | inl e => (Thrown e, w')
    end.

Definition whatsapp_address (s : option string) : option string :=
  match s with
  | Some s => Some ("whatsapp:" ++ s)%string
  | None => Some "whatsapp:undefined"
  end.

Section Twilio.

Variable this : TwilioService.
Variable D : Type.

Definition sendSMS (to : string) (message : Message) : M (World D) SendResult :=
  match client this with
  | None =>
      console (MockSMS to message) ;;
      ret mockResult
  | Some c =>
      try_catch
        (result <- messages_create c
                     {| gc_body := message; gc_from := phoneNumber this; gc_to := to |} ;;
         ret (sentResult result))
        (fun error =>
           console (SMSFailed error) ;;
           ret (failedResult error))
  end.

Definition sendWhatsApp (to : string) (message : Message) : M (World D) SendResult :=
  match client this with
  | None =>
      console (MockWhatsApp to message) ;;
      ret mockResult
  | Some c =>
      try_catch
        (result <- messages_create c
                     {| gc_body := message;
                        gc_from := whatsapp_address (phoneNumber this);
                        gc_to := ("whatsapp:" ++ to)%string |} ;;
         ret (sentResult result))
        (fun error =>
           console (WhatsAppFailed error) ;;
           ret (failedResult error))
  end.

End Twilio.

(** ** Users and the fan-out *)

Record Notifications := {
  email : bool;
  sms : bool;
  whatsapp : bool
}.

Record User := {
  _id : string;
  name : string;
  phone : option string;
  department : string;
  isActive : bool;
  notifications : Notifications
}.

(* one entry of the list sendAlert returns: the user, the type, ...result *)
Record AlertResult := {
  userId : string;
  r_name : string;
  r_phone : string;
  r_type : string;
  r_result : SendResult
}.

Section Fanout.

Variable this : TwilioService.
Variable D : Type.

(* the body of the loop of sendAlert, from the user it is at *)
Fixpoint sendAlert_from (users : list User) (message : Message) (type : string)
    (results : list AlertResult) : M (World D) (list AlertResult) :=
  match users with
  | [] => ret results
  | user :: rest =>
      match phone user with
      | None => sendAlert_from rest message type results
      | Some to =>
          if (to =? "")%string
             || (negb (sms (notifications user)) && (type =? "sms")%string)
             || (negb (whatsapp (notifications user)) && (type =? "whatsapp")%string)
          then sendAlert_from rest message type results
          else
            result <- (if (type =? "whatsapp")%string
                       then sendWhatsApp this (D:=D) to message
                       else sendSMS this (D:=D) to message) ;;
            sendAlert_from rest message type
              (results ++ [ {| userId := _id user; r_name := name user; r_phone := to;
                               r_type := type; r_result := result |} ])
      end
  end.

Definition sendAlert (users : list User) (message : Message) (type : string)
  : M (World D) (list AlertResult) :=
  sendAlert_from users message type [].

End Fanout.

(* the test of the continue statement in sendAlert *)
Definition skipped (user : User) (type : string) : bool :=
  negb (truthy (phone user))
  || (negb (sms (notifications user)) && (type =? "sms")%string)
  || (negb (whatsapp (notifications user)) && (type =? "whatsapp")%string).

(** ** The documents of models/Emission.js and models/Maintenance.js

    Both are Mongoose documents, as [findOne] loads them.  The five emission
    parameters, and [parameters], [thresholds] and [equipment] of a
    maintenance record, are nested paths of their schema: reading one always
    gives an object.  A field that was never stored reads as [undefined],
    unless the schema gives it a default: every threshold has one, so a loaded
    document always has its thresholds.  (A threshold stored as null compares
    and multiplies as 0; it is the number 0 here.) *)

Record Reading := {
  value : num;
  r_unit : string;
  threshold : Q
}.

Record ExceededThreshold := {
  x_parameter : string;
  x_value : num;
  x_threshold : Q;
  x_unit : string
}.

(* one entry of emission.alerts *)
Record EmissionAlert := {
  parameter : Param;
  message : ExceededThreshold;
  severity : Level
}.

Record Emission := {
  e_sox : Reading;
  e_nox : Reading;
  e_co2 : Reading;
  e_pm : Reading;
  e_co : Reading;
  location : option string;
  alerts : option (list EmissionAlert)
}.

(* emission[param] *)
Definition get (emission : Emission) (param : Param) : Reading :=
  match param with
  | sox => e_sox emission
  | nox => e_nox emission
  | co2 => e_co2 emission
  | pm => e_pm emission
  | co => e_co emission
  end.

(* the entries of emission.alerts, none when the field is unset *)
Definition alerts_of (emission : Emission) : list EmissionAlert :=
  match alerts emission with
  | Some l => l
  | None => []
  end.

(* if (!emission.alerts) emission.alerts = []; emission.alerts.push(entry) *)
Definition push_alert (entry : EmissionAlert) (emission : Emission) : Emission :=
  {| e_sox := e_sox emission; e_nox := e_nox emission; e_co2 := e_co2 emission;
     e_pm := e_pm emission; e_co := e_co emission; location := location emission;
     alerts := Some (alerts_of emission ++ [entry]) |}.

Record Equipment := {
  eq_id : string;
  eq_name : string;
  eq_type : string
}.

Record Parameters := {
  temperature : num;
  vibration : num;
  pressure : num;
  efficiency : num;
  runtime : num
}.

Record Range := {
  min : Q;
  max : Q
}.

Record Thresholds := {
  t_temperature : Range;
  t_vibration : Range;
  t_pressure : Range;
  t_efficiency : Range
}.

(* one entry of maintenance.anomalies, as the alert service writes it *)
Record Anomaly := {
  an_parameter : string
}.

Record Maintenance := {
  equipment : Equipment;
  parameters : Parameters;
  thresholds : Thresholds;
  anomalies : option (list Anomaly)
}.

Definition anomalies_of (maintenance : Maintenance) : list Anomaly :=
  match anomalies maintenance with
  | Some l => l
  | None => []
  end.

(* issue.split(':')[0] *)
Definition issue_parameter (issue : Issue) : string :=
  match issue with
  | TemperatureIssue _ _ => "Temperature"
  | VibrationIssue _ _ => "Vibration"
  | PressureIssue _ _ => "Pressure"
  | EfficiencyIssue _ _ => "Efficiency"
  end.

(* criticalIssues.forEach(issue => maintenance.anomalies.push(...)) *)
Definition push_anomalies (issues : list Issue) (maintenance : Maintenance) : Maintenance :=
  {| equipment := equipment maintenance; parameters := parameters maintenance;
     thresholds := thresholds maintenance;
     anomalies := Some (anomalies_of maintenance
                        ++ map (fun issue => {| an_parameter := issue_parameter issue |})
                               issues) |}.

(* await document.save(): [persist] says whether the store rejects the write *)
Definition save {D} (persist : World D -> option Exn) : M (World D) unit :=
  fun w =>
    match persist w with
    | None => (Returned tt, w)
    | Some e => (Thrown e, w)
    end.

(* models/Emission.js: value: { type: Number, required: true }, for each of
   the five parameters (location and plantId, required as well, have
   defaults) *)
Definition required_values_present (emission : Emission) : bool :=
  forallb (fun p => match value (get emission p) with
                    | Some _ => true
                    | None => false
                    end)
          [sox; nox; co2; pm; co].

Definition ValidationError : Exn := "ValidationError: Emission validation failed".

(* emission.save(): Mongoose validates the document against its schema before
   it writes, and a required path without a value rejects the save.  [write]
   says whether the store rejects the write. *)
Definition Emission_save (write : World Emission -> option Exn)
  : World Emission -> option Exn :=
  fun w => if required_values_present (doc w) then write w else Some ValidationError.

(** ** alertService.js: the domain checks *)

(* the literal 1.2: the double nearest to 12/10 *)
Definition one_point_two : Q := Double.nearest (12 # 10).

(* data.threshold * 1.2 *)
Definition threshold_times_1_2 (data : Reading) : xnum :=
  Double.mul (Finite (threshold data)) (Finite one_point_two).

(* the object pushed to emission.alerts *)
Definition alert_entry (param : Param) (data : Reading) : EmissionAlert :=
  {| parameter := param;
     message := {| x_parameter := toUpperCase param; x_value := value data;
                   x_threshold := threshold data; x_unit := r_unit data |};
     severity := if XNum.gt (XNum.of_num (value data)) (threshold_times_1_2 data)
                 then High else Medium |}.

Section AlertService.

Variable twilioService : TwilioService.
Variable persist_emission : World Emission -> option Exn.
Variable persist_maintenance : World Maintenance -> option Exn.

Definition generateAlertMessage_emission (param : Param) (data : Reading)
    (emission : Emission) : Message :=
  EmissionMessage (toUpperCase param) (value data) (r_unit data) (threshold data)
    (if truthy (location emission)
     then match location emission with Some l => l | None => "Main Stack" end
     else "Main Stack").

(* the body of the loop of checkEmissionThresholds *)
Definition checkEmissionParam (users : list User) (param : Param)
  : M (World Emission) unit :=
  data <- gets (fun w => get (doc w) param) ;;
  when (Num.gt (value data) (Some (threshold data)))
    (message <- gets (fun w => generateAlertMessage_emission param data (doc w)) ;;
     (* Send SMS alerts *)
     (let smsUsers := filter (fun u => sms (notifications u)) users in
      when (0 <? List.length smsUsers)%nat
        (sendAlert twilioService smsUsers message "sms" ;; ret tt)) ;;
     (* Send WhatsApp alerts *)
     (let whatsappUsers := filter (fun u => whatsapp (notifications u)) users in
      when (0 <? List.length whatsappUsers)%nat
        (sendAlert twilioService whatsappUsers message "whatsapp" ;; ret tt)) ;;
     (* Update emission with alert *)
     update_doc (push_alert (alert_entry param data)) ;;
     save persist_emission ;;
     console (EmissionAlertSent param (value data) (threshold data))).

Definition checkEmissionThresholds (users : list User) : M (World Emission) unit :=
  let parameters := [sox; nox; co2; pm; co] in
  for_of parameters (checkEmissionParam users).

(* the four tests that fill criticalIssues, in order *)
Definition criticalIssues_of (maintenance : Maintenance) : list Issue :=
  let parameters := parameters maintenance in
  let thresholds := thresholds maintenance in
  (if Num.gt (temperature parameters) (Some (max (t_temperature thresholds)))
   then [TemperatureIssue (temperature parameters) (max (t_temperature thresholds))]
   else [])
  ++ (if Num.gt (vibration parameters) (Some (max (t_vibration thresholds)))
      then [VibrationIssue (vibration parameters) (max (t_vibration thresholds))]
      else [])
  ++ (if Num.gt (pressure parameters) (Some (max (t_pressure thresholds)))
      then [PressureIssue (pressure parameters) (max (t_pressure thresholds))]
      else [])
  ++ (if Num.lt (efficiency parameters) (Some (min (t_efficiency thresholds)))
      then [EfficiencyIssue (efficiency parameters) (min (t_efficiency thresholds))]
      else []).

Definition generateAlertMessage_maintenance (maintenance : Maintenance)
    (criticalIssues : list Issue) : Message :=
  MaintenanceMessage (eq_name (equipment maintenance)) High criticalIssues.

(* The two fan-outs under Promise.all interleave at their awaits.  They are
   run here one after the other, in the order of the array: the results and
   the effects are the same, the effects of several recipients come in
   another order.  Nothing below depends on that order. *)
Definition checkMaintenanceThresholds (users : list User) : M (World Maintenance) unit :=
  criticalIssues <- gets (fun w => criticalIssues_of (doc w)) ;;
  when (0 <? List.length criticalIssues)%nat
    (message <- gets (fun w => generateAlertMessage_maintenance (doc w) criticalIssues) ;;
     (* Send alerts *)
     (let smsUsers := filter (fun u => sms (notifications u)) users in
      let whatsappUsers := filter (fun u => whatsapp (notifications u)) users in
      sendAlert twilioService smsUsers message "sms" ;;
      sendAlert twilioService whatsappUsers message "whatsapp" ;;
      ret tt) ;;
     (* Update maintenance record *)
     update_doc (push_anomalies criticalIssues) ;;
     save persist_maintenance ;;
     name <- gets (fun w => eq_name (equipment (doc w))) ;;
     console (MaintenanceAlertSent name (List.length criticalIssues))).

End AlertService.

(** ** alertService.js: checkThresholds, and the cron callback of server.js *)

(* User.find({ isActive: true, $or: [sms, whatsapp] }) *)
Definition alert_query (u : User) : bool :=
  isActive u && (sms (notifications u) || whatsapp (notifications u)).

Section Cycle.

Variables Load Ash : Type.

Variable twilioService : TwilioService.
Variable persist_emission : World Emission -> option Exn.
Variable persist_maintenance : World Maintenance -> option Exn.

(* The store: each query is a computation that may throw. *)
Variable Emission_findOne : M (World unit) (option Emission).
Variable Maintenance_findOne : M (World unit) (option Maintenance).
Variable Load_findOne : M (World unit) (option Load).
Variable Ash_findOne : M (World unit) (option Ash).
Variable User_find : (User -> bool) -> M (World unit) (list User).

Variable checkLoadThresholds : Load -> list User -> M (World unit) unit.
Variable checkAshThresholds : Ash -> list User -> M (World unit) unit.

(* mockDataService.js *)
Variable generateMockData : M (World unit) unit.

(* if (latest) { await check(latest, alertUsers) } *)
Definition if_found {A} (latest : option A) (check : A -> M (World unit) unit)
  : M (World unit) unit :=
  match latest with
  | Some d => check d
  | None => ret tt
  end.

Definition checkThresholds : M (World unit) unit :=
  try_catch
    ((* Get the latest data from each collection *)
     latestEmission <- Emission_findOne ;;
     latestMaintenance <- Maintenance_findOne ;;
     latestLoad <- Load_findOne ;;
     latestAsh <- Ash_findOne ;;
     (* Get users who should receive alerts *)
     alertUsers <- User_find alert_query ;;
     if_found latestEmission (fun emission =>
       with_doc emission
         (checkEmissionThresholds twilioService persist_emission alertUsers)) ;;
     if_found latestMaintenance (fun maintenance =>
       with_doc maintenance
         (checkMaintenanceThresholds twilioService persist_maintenance alertUsers)) ;;
     if_found latestLoad (fun load => checkLoadThresholds load alertUsers) ;;
     if_found latestAsh (fun ash => checkAshThresholds ash alertUsers))
    (fun error => console (ErrorCheckingThresholds error)).

(* the function given to cron.schedule *)
Definition cron_callback : M (World unit) unit :=
  try_catch
    (generateMockData ;;
     checkThresholds)
    (fun error => console (CronJobError error)).

(* [n] ticks one after the other, each callback finished before the next
   tick; an exception that left a callback would end the sequence *)
Fixpoint ticks (n : nat) : M (World unit) unit :=
  match n with
  | O => ret tt
  | S k => cron_callback ;; ticks k
  end.

(** *** Ticks that overlap

    The server gives cron.schedule the expression and the callback, and no
    option: node-cron calls the callback at every tick, whatever the earlier
    calls are doing.  An invocation of the callback is suspended at its two
    awaits, so an invocation in flight is at one of two places; the awaits
    inside generateMockData and checkThresholds are not separated. *)

Inductive Place := AtGenerateMockData | AtCheckThresholds.

Record Scheduler := {
  world : World unit;
  in_flight : list Place
}.

Inductive Event :=
| Tick
| Resume (i : nat).

(* what is left of an invocation after its next await, run on the world *)
Definition advance (p : Place) (w : World unit) : option Place * World unit :=
  match p with
  | AtGenerateMockData =>
      match generateMockData w with
      | (Returned _, w') => (Some AtCheckThresholds, w')
      | (Thrown error, w') => (None, snd (console (CronJobError error) w'))
      end
  | AtCheckThresholds =>
      match checkThresholds w with
      | (Returned _, w') => (None, w')
      | (Thrown error, w') => (None, snd (console (CronJobError error) w'))
      end
  end.

Fixpoint resume_at (i : nat) (l : list Place) (w : World unit)
  : list Place * World unit :=
  match l, i with
  | [], _ => ([], w)
  | p :: rest, O =>
      match advance p w with
      | (Some p', w') => (p' :: rest, w')
      | (None, w') => (rest, w')
      end
  | p :: rest, S j =>
      let (rest', w') := resume_at j rest w in (p :: rest', w')
  end.

Definition step (s : Scheduler) (e : Event) : Scheduler :=
  match e with
  | Tick => {| world := world s; in_flight := in_flight s ++ [AtGenerateMockData] |}
  | Resume i =>
      let (l, w) := resume_at i (in_flight s) (world s) in
      {| world := w; in_flight := l |}
  end.

Definition run_events (s : Scheduler) (es : list Event) : Scheduler :=
  fold_left step es s.

(* the state the spec calls Running *)
Definition is_running (s : Scheduler) : bool :=
  negb (Nat.eqb (List.length (in_flight s)) 0).

End Cycle.

(* what an invocation leaves in the list: its next place, or nothing *)
Definition rest_of (r : option Place) : list Place :=
  match r with
  | Some p' => [p']
  | None => []
  end.

(** ** routes/notifications.js *)

(* summary of /send-sms and /send-whatsapp *)
Record Summary := {
  attempted : nat;
  successful : nat;
  failed : nat
}.

(* summary of /broadcast (its departments, type and urgent fields echo the
   request and are left out) *)
Record BroadcastSummary := {
  totalUsers : nat;
  b_attempted : nat;
  b_successful : nat;
  b_failed : nat
}.

Inductive Response :=
| Status400 (message : string)
| Status404 (message : string)
| Status500 (error : Exn)
| Sent (message : string) (results : list AlertResult) (summary : Summary)
| BroadcastSent (results : list AlertResult) (summary : BroadcastSummary).

(* results.filter(r => r.success).length *)
Definition count_success (results : list AlertResult) : nat :=
  List.length (filter (fun r => success (r_result r)) results).

(* results.filter(r => !r.success).length *)
Definition count_not_success (results : list AlertResult) : nat :=
  List.length (filter (fun r => negb (success (r_result r))) results).

Definition summary_of (users : list User) (results : list AlertResult) : Summary :=
  {| attempted := List.length users;
     successful := count_success results;
     failed := count_not_success results |}.

Definition broadcast_summary_of (users : list User) (results : list AlertResult)
  : BroadcastSummary :=
  {| totalUsers := List.length users;
     b_attempted := List.length results;
     b_successful := count_success results;
     b_failed := count_not_success results |}.

(* r => ({ ...r, type }) *)
Definition with_type (type : string) (r : AlertResult) : AlertResult :=
  {| userId := userId r; r_name := r_name r; r_phone := r_phone r;
     r_type := type; r_result := r_result r |}.

Section Routes.

Variable twilioService : TwilioService.
Variable User_find : (User -> bool) -> M (World unit) (list User).

(* the handler shared by /send-sms ('sms') and /send-whatsapp ('whatsapp'),
   which differ in the opt-in flag of the query, the type and the texts *)
Definition send_to_users (opted : Notifications -> bool) (type sent : string)
    (userIds : list string) (message : string) (urgent : bool)
  : M (World unit) Response :=
  try_catch
    (if Nat.eqb (List.length userIds) 0
     then ret (Status400 "User IDs array required")
     else if (message =? "")%string
     then ret (Status400 "Message content required")
     else
       (* Get users *)
       users <- User_find (fun u => existsb (String.eqb (_id u)) userIds
                                    && isActive u && opted (notifications u)) ;;
       if Nat.eqb (List.length users) 0
       then ret (Status404 "No eligible users found")
       else
         (* Add urgency prefix if needed *)
         let finalMessage := if urgent then Urgent message else Plain message in
         results <- sendAlert twilioService users finalMessage type ;;
         ret (Sent sent results (summary_of users results)))
    (fun error => ret (Status500 error)).

Definition send_sms := send_to_users sms "sms" "SMS notifications sent".

Definition send_whatsapp :=
  send_to_users whatsapp "whatsapp" "WhatsApp notifications sent".

Definition broadcast (message : string) (type : string) (urgent : bool)
    (departments : list string) : M (World unit) Response :=
  try_catch
    (if (message =? "")%string
     then ret (Status400 "Message content required")
     else
       (* Get all eligible users, filtered by departments if specified *)
       users <- User_find (fun u =>
                  isActive u
                  && (Nat.eqb (List.length departments) 0
                      || existsb (String.eqb (department u)) departments)) ;;
       if Nat.eqb (List.length users) 0
       then ret (Status404 "No eligible users found")
       else
         let finalMessage :=
           if urgent then UrgentBroadcast message else Broadcast message in
         (* Send SMS if requested *)
         smsResults <-
           (if (type =? "sms")%string || (type =? "both")%string
            then
              let smsUsers := filter (fun u => sms (notifications u)) users in
              if (0 <? List.length smsUsers)%nat
              then smsResults <- sendAlert twilioService smsUsers finalMessage "sms" ;;
                   ret (map (with_type "sms") smsResults)
              else ret []
            else ret []) ;;
         (* Send WhatsApp if requested *)
         whatsappResults <-
           (if (type =? "whatsapp")%string || (type =? "both")%string
            then
              let whatsappUsers := filter (fun u => whatsapp (notifications u)) users in
              if (0 <? List.length whatsappUsers)%nat
              then whatsappResults <-
                     sendAlert twilioService whatsappUsers finalMessage "whatsapp" ;;
                   ret (map (with_type "whatsapp") whatsappResults)
              else ret []
            else ret []) ;;
         let results := smsResults ++ whatsappResults in
         ret (BroadcastSent results (broadcast_summary_of users results)))
    (fun error => ret (Status500 error)).

End Routes.

(** ** The vocabulary of the specification *)

(* The outcome of one delivery, read off the object sendSMS / sendWhatsApp
   returns. *)
Inductive DeliveryOutcome :=
| Success
| Failed (reason : option string)
| Simulated.

Definition outcome_of (r : SendResult) : DeliveryOutcome :=
  if mock r then Simulated
  else if success r then Success
  else Failed (error r).

Definition is_simulated (r : AlertResult) : bool := mock (r_result r).

Definition is_live_success (r : AlertResult) : bool :=
  success (r_result r) && negb (mock (r_result r)).

Definition is_failure (r : AlertResult) : bool := negb (success (r_result r)).

Definition count {A} (p : A -> bool) (l : list A) : nat := List.length (filter p l).

Inductive Channel := SMS | WhatsApp.

Definition type_of (c : Channel) : string :=
  match c with SMS => "sms" | WhatsApp => "whatsapp" end.

Definition opted (c : Channel) (u : User) : bool :=
  match c with
  | SMS => sms (notifications u)
  | WhatsApp => whatsapp (notifications u)
  end.

(* Is this effect a delivery to [to] over channel [c]: the mocked delivery
   the service logs, or the call it makes to the gateway? *)
Definition delivers (c : Channel) (to : string) (e : Effect) : bool :=
  match e, c with
  | Console (MockSMS to' _), SMS => (to' =? to)%string
  | Console (MockWhatsApp to' _), WhatsApp => (to' =? to)%string
  | NetCall call, SMS => (gc_to call =? to)%string
  | NetCall call, WhatsApp => (gc_to call =? "whatsapp:" ++ to)%string
  | _, _ => false
  end.

Definition is_delivery (e : Effect) : bool :=
  match e with
  | Console (MockSMS _ _) | Console (MockWhatsApp _ _) | NetCall _ => true
  | _ => false
  end.

(* the message a delivery carries *)
Definition message_of (e : Effect) : option Message :=
  match e with
  | Console (MockSMS _ m) | Console (MockWhatsApp _ m) => Some m
  | NetCall call => Some (gc_body call)
  | _ => None
  end.

(* the deliveries among the effects *)
Definition deliveries (t : Trace) : list Effect := filter is_delivery t.

(* the channels over which the trace delivers to [to] *)
Definition channels_used (t : Trace) (to : string) : list Channel :=
  filter (fun c => existsb (delivers c to) t) [SMS; WhatsApp].

(* the channels a recipient has opted into *)
Definition channels_opted (u : User) : list Channel :=
  filter (fun c => opted c u) [SMS; WhatsApp].

(* the entries of an alert list that are about [p] *)
Definition Param_eqb (p q : Param) : bool :=
  match p, q with
  | sox, sox | nox, nox | co2, co2 | pm, pm | co, co => true
  | _, _ => false
  end.

Definition entries_for (p : Param) (l : list EmissionAlert) : list EmissionAlert :=
  filter (fun a => Param_eqb (parameter a) p) l.

(* the users sendAlert does not skip *)
Definition recipients (type : string) (users : list User) : list User :=
  filter (fun u => negb (skipped u type)) users.

(* data.value > data.threshold, for emission[p] *)
Definition breaches (emission : Emission) (p : Param) : bool :=
  Num.gt (value (get emission p)) (Some (threshold (get emission p))).

(* the entries one evaluation of the snapshot pushes when no save fails *)
Definition raised (emission : Emission) : list EmissionAlert :=
  map (fun p => alert_entry p (get emission p))
      (filter (breaches emission) [sox; nox; co2; pm; co]).

(* the number of deliveries the alert of one parameter makes *)
Definition notified (users : list User) : nat :=
  (List.length (recipients "sms" (filter (fun u => sms (notifications u)) users))
   + List.length (recipients "whatsapp"
                    (filter (fun u => whatsapp (notifications u)) users)))%nat.

(** ** What one send and one fan-out do, as relations *)

Definition channel_of (type : string) : Channel :=
  if (type =? "whatsapp")%string then WhatsApp else SMS.

(* the object given to client.messages.create by sendSMS / sendWhatsApp *)
Definition call_of (this : TwilioService) (c : Channel) (to : string)
    (message : Message) : GatewayCall :=
  match c with
  | SMS => {| gc_body := message; gc_from := phoneNumber this; gc_to := to |}
  | WhatsApp => {| gc_body := message;
                   gc_from := whatsapp_address (phoneNumber this);
                   gc_to := ("whatsapp:" ++ to)%string |}
  end.

Definition mock_line (c : Channel) (to : string) (message : Message) : Line :=
  match c with
  | SMS => MockSMS to message
  | WhatsApp => MockWhatsApp to message
  end.

Definition failed_line (c : Channel) (e : Exn) : Line :=
  match c with
  | SMS => SMSFailed e
  | WhatsApp => WhatsAppFailed e
  end.

(* the send sendAlert chooses for its type *)
Definition send (this : TwilioService) (D : Type) (c : Channel) (to : string)
    (message : Message) : M (World D) SendResult :=
  match c with
  | SMS => sendSMS this (D:=D) to message
  | WhatsApp => sendWhatsApp this (D:=D) to message
  end.

(* [sends this c to message t0 r d]: started after the trace [t0], the send
   returns [r] and appends [d] to the trace *)
Inductive sends (this : TwilioService) (c : Channel) (to : string)
    (message : Message) (t0 : Trace) : SendResult -> Trace -> Prop :=
| sends_mock :
    client this = None ->
    sends this c to message t0 mockResult [Console (mock_line c to message)]
| sends_live : forall cl m,
    client this = Some cl ->
    cl t0 (call_of this c to message) = inr m ->
    sends this c to message t0 (sentResult m) [NetCall (call_of this c to message)]
| sends_failed : forall cl e,
    client this = Some cl ->
    cl t0 (call_of this c to message) = inl e ->
    sends this c to message t0 (failedResult e)
      [NetCall (call_of this c to message); Console (failed_line c e)].

(* [fans_out this type message t0 users rs d]: started after the trace [t0],
   the loop of sendAlert over [users] pushes the entries [rs] and appends [d] *)
Inductive fans_out (this : TwilioService) (type : string) (message : Message)
  : Trace -> list User -> list AlertResult -> Trace -> Prop :=
| fans_nil : forall t0,
    fans_out this type message t0 [] [] []
| fans_skip : forall t0 user rest rs d,
    skipped user type = true ->
    fans_out this type message t0 rest rs d ->
    fans_out this type message t0 (user :: rest) rs d
| fans_send : forall t0 user to rest r d1 rs d2,
    skipped user type = false ->
    phone user = Some to ->
    sends this (channel_of type) to message t0 r d1 ->
    fans_out this type message (t0 ++ d1) rest rs d2 ->
    fans_out this type message t0 (user :: rest)
      ({| userId := _id user; r_name := name user; r_phone := to;
          r_type := type; r_result := r |} :: rs)
      (d1 ++ d2).


(* the entry pushed for a user *)
Definition entry_for (type : string) (r : AlertResult) (u : User) : Prop :=
  userId r = _id u /\ r_name r = name u /\ phone u = Some (r_phone r)
  /\ r_type r = type.

(* the delivery made for a user *)
Definition delivery_for (type : string) (e : Effect) (u : User) : Prop :=
  exists to, phone u = Some to /\ delivers (channel_of type) to e = true.

(* the two fan-outs of an alert: SMS first, then WhatsApp *)
Definition dispatched (this : TwilioService) (users : list User) (message : Message)
    (t0 : Trace) (d : Trace) : Prop :=
  exists rs1 d1 rs2 d2,
    d = d1 ++ d2
    /\ fans_out this "sms" message t0
         (filter (fun u => sms (notifications u)) users) rs1 d1
    /\ fans_out this "whatsapp" message (t0 ++ d1)
         (filter (fun u => whatsapp (notifications u)) users) rs2 d2.


(* what the alert of parameter [p] on [emission] does to the outside when
   [u] is the only recipient *)
Definition notify_trace (this : TwilioService)
    (persist : World Emission -> option Exn) (u : User) (p : Param)
    (emission : Emission) : Trace :=
  trace (snd (checkEmissionParam this persist [u] p
                {| doc := emission; trace := [] |})).

Definition Channel_eqb (a b : Channel) : bool :=
  match a, b with
  | SMS, SMS | WhatsApp, WhatsApp => true
  | _, _ => false
  end.

(* the risk level a maintenance message carries *)
Definition riskLevel_of (m : Message) : option Level :=
  match m with
  | MaintenanceMessage _ level _ => Some level
  | _ => None
  end.

(** ** Sample data *)

Definition no_gateway : string -> string -> Client :=
  fun _ _ _ _ => inl "no gateway".

(* no credentials in the environment *)
Definition unconfigured : TwilioService :=
  fst (newTwilioService no_gateway None None None).

(* credentials, and a gateway that rejects every call *)
Definition gateway_down : TwilioService :=
  fst (newTwilioService (fun _ _ _ _ => inl "ETIMEDOUT")
         (Some "AC0001") (Some "secret") (Some "+15550100")).

(* credentials, and a gateway that accepts every call *)
Definition gateway_up : TwilioService :=
  fst (newTwilioService
         (fun _ _ _ _ => inr {| sid := "SM0001"; gm_status := "queued" |})
         (Some "AC0001") (Some "secret") (Some "+15550100")).

Definition never_rejects {D} : World D -> option Exn := fun _ => None.

Definition operator (id : string) (ph : option string) (bsms bwhatsapp : bool) : User :=
  {| _id := id; name := "Operator"; phone := ph; department := "Operations";
     isActive := true;
     notifications := {| email := true; sms := bsms; whatsapp := bwhatsapp |} |}.

Definition both_channels : User := operator "u1" (Some "+911") true true.
Definition sms_only : User := operator "u2" (Some "+912") true false.
Definition no_phone : User := operator "u3" None true false.

Definition reading (v t : Q) : Reading :=
  {| value := Some v; r_unit := "mg/Nm3"; threshold := t |}.

Definition emission_with (s : Reading) : Emission :=
  {| e_sox := s; e_nox := reading 250 300; e_co2 := reading 900 950;
     e_pm := reading 20 30; e_co := reading 50 100;
     location := Some "Main Stack"; alerts := Some [] |}.

(* sox 260 against 200: above 200 * 1.2 *)
Definition emission_260 : Emission := emission_with (reading 260 200).

(* sox 210 against 200: above 200, not above 200 * 1.2 *)
Definition emission_210 : Emission := emission_with (reading 210 200).


(* sox was never stored *)
Definition emission_no_sox : Emission :=
  emission_with {| value := None; r_unit := "mg/Nm3"; threshold := 200 |}.

(* sox was never stored; nox and pm exceed their thresholds *)
Definition emission_no_sox_nox_350 : Emission :=
  {| e_sox := {| value := None; r_unit := "mg/Nm3"; threshold := 200 |};
     e_nox := reading 350 300; e_co2 := reading 900 950;
     e_pm := reading 40 30; e_co := reading 50 100;
     location := Some "Main Stack"; alerts := Some [] |}.

Definition default_thresholds : Thresholds :=
  {| t_temperature := {| min := 0; max := 550 |};
     t_vibration := {| min := 0; max := 45 # 10 |};
     t_pressure := {| min := 0; max := 180 |};
     t_efficiency := {| min := 85; max := 100 |} |}.

(* temperature 600 against the maximum 550, the rest within range *)
Definition maintenance_600 : Maintenance :=
  {| equipment := {| eq_id := "boiler_1_001"; eq_name := "Boiler-1"; eq_type := "Boiler" |};
     parameters := {| temperature := Some 600; vibration := Some 3;
                      pressure := Some 150; efficiency := Some 90;
                      runtime := Some 7000 |};
     thresholds := default_thresholds;
     anomalies := Some [] |}.

(* a recipient directory held in memory: User.find(query) *)
Definition directory_of (users : list User) : (User -> bool) -> M (World unit) (list User) :=
  fun query => ret (filter query users).

(* a store whose latest emission is [emission_260], with one recipient and
   nothing in the other collections *)
Definition sample_step : Scheduler -> Event -> Scheduler :=
  step (Load:=unit) (Ash:=unit) unconfigured never_rejects never_rejects
    (ret (Some emission_260)) (ret None) (ret None) (ret None)
    (directory_of [both_channels])
    (fun _ _ => ret tt) (fun _ _ => ret tt) (ret tt).

Definition idle : Scheduler :=
  {| world := {| doc := tt; trace := [] |}; in_flight := [] |}.

(* a mocked delivery is reported as a success *)
Definition mock_ok (r : AlertResult) : Prop :=
  mock (r_result r) = true -> success (r_result r) = true.

(** ** alertService.js: the load and ash checks

    A percentage is a quotient, so it can be infinite or NaN: division by a
    zero capacity, or a level that was never stored.  The capacities have a
    default in their schema, so a loaded document always has them.

    models/Load.js and models/Ash.js declare [alerts] as an array of one
    object whose first key is [type: String].  Mongoose reads the key [type]
    of such an object as the type of the elements: [alerts] is an array of
    strings, and pushing onto it an object that has no [toString] of its own
    throws a CastError. *)

Inductive LoadSeverity := SevInfo | SevWarning | SevCritical.

Record Demand := {
  d_current : num;
  d_predicted : num;
  d_capacity : Q
}.

(* the object the load check pushes: its message is
   "Load at <loadPercentage.toFixed(1)>% of capacity" *)
Record LoadAlert := {
  la_type : string;
  la_percentage : FixedText;
  la_severity : LoadSeverity
}.

Record Load := {
  demand : Demand;
  l_alerts : list string
}.

Record Storage := {
  s_current : num;
  s_capacity : Q
}.

Record AshKind := {
  quantity : num;
  storage : Storage
}.

(* the object the ash check pushes: its message is
   "<criticalType> storage at <level.toFixed(1)>%" *)
Record AshAlert := {
  aa_type : string;
  aa_criticalType : AshType;
  aa_level : FixedText;
  aa_priority : Level
}.

Record Ash := {
  flyAsh : AshKind;
  bottomAsh : AshKind;
  a_alerts : list string
}.

(* the console.log that ends the load and the ash check *)
Inductive DomainLine :=
| LoadAlertSent (percentage : FixedText)
| AshAlertSent (criticalType : AshType) (level : FixedText).

(* a document with the lines its check has logged *)
Record Logged (D : Type) := {
  subject : D;
  logged : list DomainLine
}.

Definition domain_log {D} (l : DomainLine) : M (World (Logged D)) unit :=
  update_doc (fun d => {| subject := subject d; logged := logged d ++ [l] |}).

Definition CastError : Exn := "CastError: Cast to string failed".

(* if (!load.alerts) load.alerts = []; load.alerts.push(entry): the array is
   there, and the cast of the object to a string throws *)
Definition push_load_alert (entry : LoadAlert) : M (World (Logged Load)) unit :=
  throw CastError.

(* if (!ash.alerts) ash.alerts = []; ash.alerts.push(entry) *)
Definition push_ash_alert (entry : AshAlert) : M (World (Logged Ash)) unit :=
  throw CastError.

(* (current / capacity) * 100 *)
Definition percentage (current : num) (capacity : Q) : xnum :=
  Double.mul (Double.div (XNum.of_num current) (Finite capacity)) (Finite 100).

(* (load.demand.current / load.demand.capacity) * 100 *)
Definition loadPercentage (load : Load) : xnum :=
  percentage (d_current (demand load)) (d_capacity (demand load)).

(* (storage.current / storage.capacity) * 100 *)
Definition storagePercentage (kind : AshKind) : xnum :=
  percentage (s_current (storage kind)) (s_capacity (storage kind)).

(* flyAshPercentage > bottomAshPercentage ? 'Fly Ash' : 'Bottom Ash' *)
Definition criticalType (ash : Ash) : AshType :=
  if XNum.gt (storagePercentage (flyAsh ash)) (storagePercentage (bottomAsh ash))
  then FlyAsh else BottomAsh.

(* Math.max(flyAshPercentage, bottomAshPercentage) *)
Definition level (ash : Ash) : xnum :=
  XNum.max (storagePercentage (flyAsh ash)) (storagePercentage (bottomAsh ash)).

(* the test of checkAshThresholds *)
Definition over_90 (ash : Ash) : bool :=
  XNum.gt (storagePercentage (flyAsh ash)) (Finite 90)
  || XNum.gt (storagePercentage (bottomAsh ash)) (Finite 90).

Section LoadAndAsh.

Variable twilioService : TwilioService.
Variable persist_load : World (Logged Load) -> option Exn.
Variable persist_ash : World (Logged Ash) -> option Exn.

Definition checkLoadThresholds (users : list User) : M (World (Logged Load)) unit :=
  loadPercentage <- gets (fun w => loadPercentage (subject (doc w))) ;;
  when (XNum.gt loadPercentage (Finite 95))
    (message <- gets (fun w =>
                  LoadMessage (d_current (demand (subject (doc w))))
                    (d_capacity (demand (subject (doc w))))
                    "Critical - Near Capacity") ;;
     (* Send alerts *)
     (let smsUsers := filter (fun u => sms (notifications u)) users in
      let whatsappUsers := filter (fun u => whatsapp (notifications u)) users in
      sendAlert twilioService smsUsers message "sms" ;;
      sendAlert twilioService whatsappUsers message "whatsapp" ;;
      ret tt) ;;
     (* Update load record *)
     push_load_alert
       {| la_type := "Critical Load"; la_percentage := toFixed loadPercentage 1;
          la_severity := SevCritical |} ;;
     save persist_load ;;
     domain_log (LoadAlertSent (toFixed loadPercentage 1))).

Definition checkAshThresholds (users : list User) : M (World (Logged Ash)) unit :=
  flyAshPercentage <- gets (fun w => storagePercentage (flyAsh (subject (doc w)))) ;;
  bottomAshPercentage <- gets (fun w => storagePercentage (bottomAsh (subject (doc w)))) ;;
  when (XNum.gt flyAshPercentage (Finite 90) || XNum.gt bottomAshPercentage (Finite 90))
    (criticalType <- gets (fun w => criticalType (subject (doc w))) ;;
     level <- gets (fun w => level (subject (doc w))) ;;
     (let message :=
        AshMessage criticalType (toFixed level 1) "Immediate disposal required" in
      (* Send alerts *)
      let smsUsers := filter (fun u => sms (notifications u)) users in
      let whatsappUsers := filter (fun u => whatsapp (notifications u)) users in
      sendAlert twilioService smsUsers message "sms" ;;
      sendAlert twilioService whatsappUsers message "whatsapp" ;;
      ret tt) ;;
     (* Update ash record *)
     push_ash_alert
       {| aa_type := "Storage Full"; aa_criticalType := criticalType;
          aa_level := toFixed level 1; aa_priority := High |} ;;
     save persist_ash ;;
     domain_log (AshAlertSent criticalType (toFixed level 1))).

End LoadAndAsh.

(** ** routes/notifications.js: the test route *)

Inductive TestResponse :=
| TestBadRequest (message : string)
| TestSent (type : string) (result : SendResult) (phone : string) (success : bool)
| TestError (error : Exn).

(* POST /test: const { phone, type = 'sms' } = req.body; [testMessage] is
   the text the handler builds from the time of the request *)
Definition test_notification (twilioService : TwilioService) (testMessage : string)
    (phone : option string) (type : string) : M (World unit) TestResponse :=
  try_catch
    (match phone with
     | None => ret (TestBadRequest "Phone number required for test")
     | Some to =>
         if (to =? "")%string
         then ret (TestBadRequest "Phone number required for test")
         else
           result <- (if (type =? "whatsapp")%string
                      then sendWhatsApp twilioService (D:=unit) to (Plain testMessage)
                      else sendSMS twilioService (D:=unit) to (Plain testMessage)) ;;
           ret (TestSent type result to (success result))
     end)
    (fun error => ret (TestError error)).

(** ** mockDataService.js: what generateMockData builds

    The data are functions of the draws of Math.random, each in [0, 1), and of
    the hour of the day.  Of the load and ash data only the fields the status
    is computed from are kept (the generation, weather, composition,
    utilization and quality fields are further draws that nothing reads). *)

Module MockData.

Import Ascii.

(* a + b, a * b and a / b on the doubles of the generator, which stay below
   10^5 in absolute value: no result is beyond the largest double *)
Definition add (a b : Q) : Q := Double.nearest (a + b).
Definition mul (a b : Q) : Q := Double.nearest (a * b).
Definition div (a b : Q) : Q := Double.nearest (a / b).

(* the literal 0.8: the double nearest to 8/10 *)
Definition zero_point_eight : Q := Double.nearest (8 # 10).

(* Math.round(x): the nearest integer, halves upwards *)
Definition Math_round (x : Q) : Q := inject_Z (Qfloor (x + (1 # 2))).

(* Math.floor(x) *)
Definition Math_floor (x : Q) : Z := Qfloor x.

(* a draw of Math.random *)
Definition draw (r : Q) : Prop := (0 <= r /\ r < 1)%Q.

(** *** Emission *)

Inductive EmissionStatus := Normal | Warning | Critical.

Record Generated := {
  g_value : Q;
  g_threshold : Q
}.

Record EmissionData := {
  d_sox : Generated;
  d_nox : Generated;
  d_co2 : Generated;
  d_pm : Generated;
  d_co : Generated
}.

Definition emissionData (r_sox r_nox r_co2 r_pm r_co : Q) : EmissionData :=
  {| d_sox := {| g_value := Math_round (add 120 (mul r_sox 160)); g_threshold := 200 |};
     d_nox := {| g_value := Math_round (add 180 (mul r_nox 200)); g_threshold := 300 |};
     d_co2 := {| g_value := Math_round (add 850 (mul r_co2 150)); g_threshold := 950 |};
     d_pm := {| g_value := Math_round (add 15 (mul r_pm 25)); g_threshold := 30 |};
     d_co := {| g_value := Math_round (add 40 (mul r_co 80)); g_threshold := 100 |} |}.

(* Object.values(emissionData), before the status is added *)
Definition values (d : EmissionData) : list Generated :=
  [d_sox d; d_nox d; d_co2 d; d_pm d; d_co d].

Definition exceedsThreshold (d : EmissionData) : bool :=
  existsb (fun param => Num.Qgtb (g_value param) (g_threshold param)) (values d).

Definition emission_status (d : EmissionData) : EmissionStatus :=
  if exceedsThreshold d then Critical
  else if existsb (fun param =>
                     Num.Qgtb (g_value param) (mul (g_threshold param) zero_point_eight))
                  (values d)
       then Warning
       else Normal.

(* new Emission(emissionData): the units, the location and the empty alert
   list are the defaults of the schema *)
Definition hydrate (unit : string) (g : Generated) : Reading :=
  {| value := Some (g_value g); r_unit := unit; threshold := g_threshold g |}.

Definition new_Emission (d : EmissionData) : Emission :=
  {| e_sox := hydrate "mg/Nm³" (d_sox d);
     e_nox := hydrate "mg/Nm³" (d_nox d);
     e_co2 := hydrate "kg/MWh" (d_co2 d);
     e_pm := hydrate "mg/Nm³" (d_pm d);
     e_co := hydrate "mg/Nm³" (d_co d);
     location := Some "Main Stack";
     alerts := Some [] |}.

(** *** Maintenance *)

Inductive MaintenanceStatus := Operational | MWarning | MCritical.

Definition equipmentTypes : list string :=
  ["Boiler-1"; "Turbine-1"; "Generator-1"; "Condenser-1"].

(* c.toLowerCase() on one character *)
Definition lower (c : Ascii.ascii) : Ascii.ascii :=
  let n := Ascii.nat_of_ascii c in
  if (65 <=? n)%nat && (n <=? 90)%nat then Ascii.ascii_of_nat (n + 32) else c.

Fixpoint toLowerCase (s : string) : string :=
  match s with
  | EmptyString => EmptyString
  | String c s' => String (lower c) (toLowerCase s')
  end.

(* s.replace('-', '_'): the first occurrence only *)
Fixpoint replace_dash (s : string) : string :=
  match s with
  | EmptyString => EmptyString
  | String c s' =>
      if Ascii.eqb c "-"%char then String "_"%char s' else String c (replace_dash s')
  end.

(* s.split('-')[0] *)
Fixpoint before_dash (s : string) : string :=
  match s with
  | EmptyString => EmptyString
  | String c s' =>
      if Ascii.eqb c "-"%char then EmptyString else String c (before_dash s')
  end.

(* s.split('-')[1], for a name with a dash *)
Fixpoint after_dash (s : string) : string :=
  match s with
  | EmptyString => EmptyString
  | String c s' => if Ascii.eqb c "-"%char then before_dash s' else after_dash s'
  end.

Record MaintenanceData := {
  md_equipment : Equipment;
  md_location : string;
  md_parameters : Parameters;
  md_status : MaintenanceStatus
}.

Definition generated_parameters (r_t r_v r_p r_e r_h : Q) : Parameters :=
  {| temperature := Some (Math_round (add 400 (mul r_t 200)));
     vibration := Some (div (Math_round (mul (add 1 (mul r_v 5)) 10)) 10);
     pressure := Some (Math_round (add 120 (mul r_p 80)));
     efficiency := Some (Math_round (add 85 (mul r_e 12)));
     runtime := Some (Math_round (add 6000 (mul r_h 2000))) |}.

Definition maintenance_status (parameters : Parameters) : MaintenanceStatus :=
  let temperature := temperature parameters in
  let vibration := vibration parameters in
  let pressure := pressure parameters in
  let efficiency := efficiency parameters in
  let tempCritical := Num.gt temperature (Some 550) in
  let vibrationCritical := Num.gt vibration (Some (45 # 10)) in
  let pressureCritical := Num.gt pressure (Some 180) in
  let efficiencyLow := Num.lt efficiency (Some 85) in
  if tempCritical || vibrationCritical || pressureCritical || efficiencyLow
  then MCritical
  else if Num.gt temperature (Some 500) || Num.gt vibration (Some (35 # 10))
          || Num.gt pressure (Some 160) || Num.lt efficiency (Some 90)
       then MWarning
       else Operational.

Definition maintenanceData (r_eq r_t r_v r_p r_e r_h : Q) : MaintenanceData :=
  let equipment :=
    nth (Z.to_nat (Math_floor (mul r_eq 4))) equipmentTypes "undefined" in
  let parameters := generated_parameters r_t r_v r_p r_e r_h in
  {| md_equipment :=
       {| eq_id := (replace_dash (toLowerCase equipment) ++ "_001")%string;
          eq_name := equipment;
          eq_type := before_dash equipment |};
     md_location := ("Unit " ++ after_dash equipment)%string;
     md_parameters := parameters;
     md_status := maintenance_status parameters |}.

(* new Maintenance(maintenanceData): the thresholds are the defaults of the
   schema *)
Definition new_Maintenance (d : MaintenanceData) : Maintenance :=
  {| equipment := md_equipment d;
     parameters := md_parameters d;
     thresholds := default_thresholds;
     anomalies := Some [] |}.

(** *** Load *)

Inductive LoadStatus := LNormal | HighDemand | CriticalLoad.

Definition peakHours : list nat := [9; 10; 11; 18; 19; 20]%nat.

Definition baseLoad (hour : nat) (r : Q) : Q :=
  if existsb (Nat.eqb hour) peakHours
  then add 1900 (mul r 250) else add 1400 (mul r 400).

Definition generated_demand (hour : nat) (r : Q) : Demand :=
  {| d_current := Some (Math_round (baseLoad hour r));
     d_predicted := None;
     d_capacity := 2100 |}.

Definition new_Load (demand : Demand) : Load :=
  {| demand := demand; l_alerts := [] |}.

Definition load_status (demand : Demand) : LoadStatus :=
  let loadPercentage := percentage (d_current demand) (d_capacity demand) in
  if XNum.gt loadPercentage (Finite 95) then CriticalLoad
  else if XNum.gt loadPercentage (Finite 85) then HighDemand
  else LNormal.

(** *** Ash *)

Inductive AshStatus := ANormal | HighStorage | ACritical.

Definition generated_ash (r_fq r_bq r_fly r_bottom : Q) : Ash :=
  {| flyAsh := {| quantity := Some (Math_round (add 800 (mul r_fq 400)));
                  storage := {| s_current :=
                                  Some (Math_round (add 25000 (mul r_fly 20000)));
                                s_capacity := 50000 |} |};
     bottomAsh := {| quantity := Some (Math_round (add 200 (mul r_bq 100)));
                     storage := {| s_current :=
                                     Some (Math_round (add 8000 (mul r_bottom 5000)));
                                   s_capacity := 15000 |} |};
     a_alerts := [] |}.

Definition ash_status (ash : Ash) : AshStatus :=
  let flyAshStorage := storagePercentage (flyAsh ash) in
  let bottomAshStorage := storagePercentage (bottomAsh ash) in
  if XNum.gt flyAshStorage (Finite 90) || XNum.gt bottomAshStorage (Finite 90)
  then ACritical
  else if XNum.gt flyAshStorage (Finite 75) || XNum.gt bottomAshStorage (Finite 75)
       then HighStorage
       else ANormal.

End MockData.

(** ** geminiService.js

    The service talks to another outside world than the alert path: its
    state is the list of the requests posted so far and its console. *)

Module Gemini.

Import Ascii.

Inductive Line :=
| WarnNoKey
| ApiError (e : Exn)
| ParseError (e : Exn).

(* axios.post(url, { contents: [{ parts: [{ text: prompt }] }] }, ...) *)
Record Request := {
  url : string;
  prompt : string
}.

Record World := {
  posted : list Request;
  console : list Line
}.

Definition log (l : Line) : M World unit :=
  modify (fun w => {| posted := posted w; console := console w ++ [l] |}).

Record GeminiService := {
  apiKey : option string;
  baseUrl : string
}.

(* the rest of the text from its first opening brace on *)
Fixpoint from_open (s : string) : option string :=
  match s with
  | EmptyString => None
  | String c s' => if Ascii.eqb c "{"%char then Some s else from_open s'
  end.

(* the longest prefix of the text that ends with a closing brace *)
Fixpoint upto_close (s : string) : option string :=
  match s with
  | EmptyString => None
  | String c s' =>
      match upto_close s' with
      | Some t => Some (String c t)
      | None => if Ascii.eqb c "}"%char then Some (String c EmptyString) else None
      end
  end.

(* response.match(/\{[\s\S]*\}/): the match runs from the first opening brace
   to the last closing brace after it; jsonMatch[0] when there is one *)
Definition match_object (response : string) : option string :=
  match from_open response with
  | Some (String c rest) =>
      match upto_close rest with
      | Some t => Some (String c t)
      | None => None
      end
  | _ => None
  end.

Fixpoint has_char (c : ascii) (s : string) : bool :=
  match s with
  | EmptyString => false
  | String c' s' => Ascii.eqb c' c || has_char c s'
  end.

Section Service.

Variable this : GeminiService.

(* what a prediction is, the data it is asked for, and the pieces that are
   text templates, random draws or another party *)
Variables Prediction Data : Type.
Variable buildPrompt : Data -> string -> string.
Variable getMockPrediction : string -> World -> Prediction.
Variable JSON_parse : string -> Exn + Prediction.

(* axios.post: [inl e] is a rejected promise (an error status, a timeout);
   [inr text] is response.data?.candidates?.[0]?.content?.parts?.[0]?.text,
   undefined when the answer has no such part *)
Variable axios_post : list Request -> Request -> Exn + option string.

Definition mockPrediction (type : string) : M World Prediction :=
  gets (getMockPrediction type).

Definition post (request : Request) : M World (option string) :=
  fun w =>
    let w' := {| posted := posted w ++ [request]; console := console w |} in
    match axios_post (posted w) request with
    | inr text => (Returned text, w')
    | inl e => (Thrown e, w')
    end.

Definition parsePrediction (response : option string) (type : string)
  : M World Prediction :=
  parsed <- try_catch
              (match response with
               | None => throw "TypeError: response is undefined"
               | Some text =>
                   match match_object text with
                   | Some jsonMatch =>
                       match JSON_parse jsonMatch with
                       | inr prediction => ret (Some prediction)
                       | inl e => throw e
                       end
                   | None => ret None
                   end
               end)
              (fun error => log (ParseError error) ;; ret None) ;;
  match parsed with
  | Some prediction => ret prediction
  | None => mockPrediction type
  end.

Definition generatePrediction (data : Data) (type : string) : M World Prediction :=
  if truthy (apiKey this)
  then
    try_catch
      (let prompt := buildPrompt data type in
       prediction <- post {| url := (baseUrl this ++ "?key="
                                     ++ match apiKey this with
                                        | Some k => k
                                        | None => ""
                                        end)%string;
                             prompt := prompt |} ;;
       parsePrediction prediction type)
      (fun error => log (ApiError error) ;; mockPrediction type)
  else
    log WarnNoKey ;;
    mockPrediction type.

End Service.

End Gemini.

(** ** More sample data *)

Definition load_with (current : num) (capacity : Q) : Logged Load :=
  {| subject := {| demand := {| d_current := current; d_predicted := None;
                                d_capacity := capacity |};
                   l_alerts := [] |};
     logged := [] |}.

Definition ash_with (fly_current : num) (fly_capacity : Q)
    (bottom_current : num) (bottom_capacity : Q) : Logged Ash :=
  {| subject := {| flyAsh := {| quantity := Some 1000;
                                storage := {| s_current := fly_current;
                                              s_capacity := fly_capacity |} |};
                   bottomAsh := {| quantity := Some 250;
                                   storage := {| s_current := bottom_current;
                                                 s_capacity := bottom_capacity |} |};
                   a_alerts := [] |};
     logged := [] |}.

(** * Properties *)

(** ** Numbers *)

Lemma Qgtb_lt (a b : Q) : Num.Qgtb a b = true <-> (b < a)%Q.
Proof.
  unfold Num.Qgtb. rewrite negb_true_iff. split; intro H.
  - apply Qnot_le_lt. intro Hle. apply Qle_bool_iff in Hle. congruence.
  - destruct (Qle_bool a b) eqn:E; [|reflexivity].
    apply Qle_bool_iff in E. exfalso. exact (Qlt_not_le _ _ H E).
Qed.

Lemma Qgtb_le (a b : Q) : Num.Qgtb a b = false <-> (a <= b)%Q.
Proof. unfold Num.Qgtb. rewrite negb_false_iff. apply Qle_bool_iff. Qed.

(** ** Rounding to the nearest double *)

Unset Implicit Arguments.

Module DoubleFacts.

Import Double.
Local Open Scope Q_scope.


Lemma pow2_pos e : 0 < pow2 e.
Proof. apply Qpower_0_lt. reflexivity. Qed.

Lemma pow2_add a b : pow2 (a + b) == pow2 a * pow2 b.
Proof. apply Qpower_plus. discriminate. Qed.

Lemma pow2_le a b : (a <= b)%Z -> pow2 a <= pow2 b.
Proof. intro H. apply Qpower_le_compat_l; [exact H | discriminate]. Qed.

Lemma pow2_lt a b : (a < b)%Z -> pow2 a < pow2 b.
Proof. intro H. apply Qpower_lt_compat_l; [exact H | reflexivity]. Qed.

Lemma pow2_Z n : (0 <= n)%Z -> pow2 n == inject_Z (2 ^ n).
Proof. intro H. unfold pow2. rewrite (Zpower_Qpower 2 n H). reflexivity. Qed.

Lemma binade_spec x : 0 < x -> pow2 (binade x) <= x /\ x < pow2 (binade x + 1).
Proof.
  intro Hx. destruct x as [n d].
  assert (Hn : (0 < n)%Z).
  { unfold Qlt in Hx. cbn in Hx. lia. }
  pose proof (Z.log2_spec n Hn) as [Hn1 Hn2].
  pose proof (Z.log2_spec (Zpos d) (Pos2Z.is_pos d)) as [Hd1 Hd2].
  pose proof (Z.log2_nonneg n) as Ln.
  pose proof (Z.log2_nonneg (Zpos d)) as Ld.
  set (ln := Z.log2 n) in *. set (ld := Z.log2 (Zpos d)) in *.
  assert (Hx' : (n # d) * inject_Z (Zpos d) == inject_Z n).
  { unfold Qeq, Qmult, inject_Z. cbn. rewrite Pos.mul_1_r. ring. }
  assert (Dpos : 0 < inject_Z (Zpos d)) by (unfold Qlt; cbn; lia).
  assert (Hlow : pow2 (ln - ld - 1) < n # d).
  { apply (Qmult_lt_r _ _ _ Dpos). rewrite Hx'.
    apply Qlt_le_trans with (pow2 (ln - ld - 1) * pow2 (ld + 1)).
    - apply Qmult_lt_l; [apply pow2_pos |].
      rewrite pow2_Z by lia. rewrite <- Zlt_Qlt. unfold Z.succ in Hd2. exact Hd2.
    - rewrite <- pow2_add. replace (ln - ld - 1 + (ld + 1))%Z with ln by ring.
      rewrite pow2_Z by lia. rewrite <- Zle_Qle. exact Hn1. }
  assert (Hhigh : n # d < pow2 (ln - ld + 1)).
  { apply (Qmult_lt_r _ _ _ Dpos). rewrite Hx'.
    apply Qlt_le_trans with (pow2 (ln - ld + 1) * pow2 ld).
    - rewrite <- pow2_add. replace (ln - ld + 1 + ld)%Z with (ln + 1)%Z by ring.
      rewrite pow2_Z by lia. rewrite <- Zlt_Qlt. unfold Z.succ in Hn2. exact Hn2.
    - apply Qmult_le_l; [apply pow2_pos |].
      rewrite pow2_Z by lia. rewrite <- Zle_Qle. exact Hd1. }
  unfold binade. cbn [Qnum Qden]. fold ln ld.
  destruct (Qle_bool (pow2 (ln - ld)) (n # d)) eqn:E.
  - apply Qle_bool_iff in E. split; [exact E | exact Hhigh].
  - split.
    + apply Qlt_le_weak. exact Hlow.
    + replace (ln - ld - 1 + 1)%Z with (ln - ld)%Z by ring.
      apply Qnot_le_lt. intro H. apply Qle_bool_iff in H. congruence.
Qed.

(* the binade of a number is determined by its place among the powers of 2 *)
Lemma binade_unique x b :
  pow2 b <= x -> x < pow2 (b + 1) -> binade x = b.
Proof.
  intros H1 H2.
  assert (Hx : 0 < x) by (apply Qlt_le_trans with (pow2 b); [apply pow2_pos | exact H1]).
  destruct (binade_spec x Hx) as [B1 B2].
  destruct (Z.lt_trichotomy (binade x) b) as [L | [E | G]]; [| exact E |]; exfalso.
  - assert (pow2 (binade x + 1) <= pow2 b) by (apply pow2_le; lia).
    apply (Qlt_irrefl x). eapply Qlt_le_trans; [exact B2 |]. eapply Qle_trans; eassumption.
  - assert (pow2 (b + 1) <= pow2 (binade x)) by (apply pow2_le; lia).
    apply (Qlt_irrefl x). eapply Qlt_le_trans; [exact H2 |]. eapply Qle_trans; eassumption.
Qed.

Lemma nearest_even_floor q :
  (Qfloor q <= nearest_even q <= Qfloor q + 1)%Z.
Proof.
  unfold nearest_even.
  destruct (Qcompare _ _); [destruct (Z.even _) | |]; lia.
Qed.

(* an integer at or above q is at or above the nearest integer to q *)
Lemma nearest_even_le q z : q <= inject_Z z -> (nearest_even q <= z)%Z.
Proof.
  intro H.
  pose proof (Qfloor_le q) as F1. pose proof (Qlt_floor q) as F2.
  assert (Hf : (Qfloor q <= z)%Z).
  { rewrite <- (Qfloor_Z z). apply Qfloor_resp_le. exact H. }
  destruct (Z.eq_dec (Qfloor q) z) as [E | N].
  - unfold nearest_even.
    assert (Hq : q == inject_Z z).
    { apply Qle_antisym; [exact H |]. rewrite <- E. exact F1. }
    assert (C : (q - inject_Z (Qfloor q) ?= 1 # 2) = Lt).
    { rewrite <- Qlt_alt. rewrite E, Hq. unfold Qminus. rewrite Qplus_opp_r. reflexivity. }
    rewrite C. lia.
  - pose proof (nearest_even_floor q). lia.
Qed.

Lemma nearest_even_ge q z : inject_Z z <= q -> (z <= nearest_even q)%Z.
Proof.
  intro H.
  assert (Hf : (z <= Qfloor q)%Z).
  { rewrite <- (Qfloor_Z z). apply Qfloor_resp_le. exact H. }
  pose proof (nearest_even_floor q). lia.
Qed.

Lemma nearest_even_mono q1 q2 : q1 <= q2 -> (nearest_even q1 <= nearest_even q2)%Z.
Proof.
  intro H.
  pose proof (Qfloor_resp_le _ _ H) as F.
  pose proof (nearest_even_floor q1) as N1. pose proof (nearest_even_floor q2) as N2.
  destruct (Z.eq_dec (Qfloor q1) (Qfloor q2)) as [E | N]; [| lia].
  unfold nearest_even. rewrite E.
  assert (Hr : q1 - inject_Z (Qfloor q2) <= q2 - inject_Z (Qfloor q2)).
  { lra. }
  destruct (Qcompare (q1 - inject_Z (Qfloor q2)) (1 # 2)) eqn:C1;
    destruct (Qcompare (q2 - inject_Z (Qfloor q2)) (1 # 2)) eqn:C2;
    try (destruct (Z.even (Qfloor q2))); try lia; exfalso;
    try (apply Qeq_alt in C1); try (apply Qeq_alt in C2);
    try (rewrite <- Qlt_alt in C1); try (rewrite <- Qlt_alt in C2);
    try (rewrite <- Qgt_alt in C1); try (rewrite <- Qgt_alt in C2); lra.
Qed.


Lemma nearest_pos_nonneg x : 0 < x -> 0 <= nearest_pos x.
Proof.
  intro Hx. unfold nearest_pos.
  apply Qmult_le_0_compat; [| apply Qlt_le_weak, pow2_pos].
  change 0 with (inject_Z 0). rewrite <- Zle_Qle. apply nearest_even_ge.
  apply Qle_shift_div_l; [apply pow2_pos |]. rewrite Qmult_0_l. apply Qlt_le_weak, Hx.
Qed.

(* in a binade above the smallest, the last bit is 52 places below the first *)
Lemma last_bit_above x : (emin < last_bit x)%Z -> last_bit x = (binade x - 52)%Z.
Proof. unfold last_bit. lia. Qed.

Lemma last_bit_emin x : (emin <= last_bit x)%Z.
Proof. unfold last_bit. lia. Qed.

Lemma grid_point_below m e e' :
  (0 < m)%Z -> (m < 2 ^ 53)%Z -> (e < e')%Z ->
  inject_Z m * pow2 e < pow2 (e' + 52).
Proof.
  intros Hm0 Hm He.
  apply Qlt_le_trans with (pow2 53 * pow2 e).
  - apply Qmult_lt_r; [apply pow2_pos |].
    rewrite pow2_Z by lia. rewrite <- Zlt_Qlt. exact Hm.
  - rewrite <- pow2_add. apply pow2_le. lia.
Qed.

(* a grid point m * 2^ez is an integer multiple of 2^e when e <= ez *)
Lemma grid_point_multiple m ez e :
  (e <= ez)%Z -> inject_Z m * pow2 ez == inject_Z (m * 2 ^ (ez - e)) * pow2 e.
Proof.
  intro H. rewrite inject_Z_mult, <- (pow2_Z (ez - e)) by lia.
  rewrite <- Qmult_assoc, <- pow2_add.
  replace (ez - e + e)%Z with ez by ring. reflexivity.
Qed.

Lemma above_first_bit x :
  0 < x -> (emin < last_bit x)%Z -> pow2 (last_bit x + 52) <= x.
Proof.
  intros Hx He. rewrite (last_bit_above x He).
  replace (binade x - 52 + 52)%Z with (binade x) by ring.
  apply (binade_spec x Hx).
Qed.

Lemma nearest_pos_ge x z :
  0 < x -> on_grid z -> z <= x -> z <= nearest_pos x.
Proof.
  intros Hx (m & ez & Hm & Hez & Hz) Hzx.
  destruct (Z_lt_le_dec 0 m) as [Hm0 | Hm0].
  2:{ apply Qle_trans with 0; [| apply nearest_pos_nonneg; exact Hx].
      rewrite Hz. rewrite <- (Qmult_0_l (pow2 ez)).
      apply Qmult_le_compat_r; [| apply Qlt_le_weak, pow2_pos].
      change 0 with (inject_Z 0). rewrite <- Zle_Qle. exact Hm0. }
  unfold nearest_pos. set (e := last_bit x).
  destruct (Z_le_gt_dec e ez) as [Hle | Hgt].
  - rewrite Hz, (grid_point_multiple m ez e Hle).
    apply Qmult_le_compat_r; [| apply Qlt_le_weak, pow2_pos].
    rewrite <- Zle_Qle. apply nearest_even_ge.
    apply Qle_shift_div_l; [apply pow2_pos |].
    rewrite <- (grid_point_multiple m ez e Hle), <- Hz. exact Hzx.
  - assert (He : (emin < last_bit x)%Z) by (fold e; lia).
    pose proof (above_first_bit x Hx He) as Hfirst. fold e in Hfirst.
    apply Qle_trans with (pow2 (e + 52)).
    + rewrite Hz. apply Qlt_le_weak. apply grid_point_below; lia.
    + rewrite (Z.add_comm e 52), pow2_add.
      apply Qmult_le_compat_r; [| apply Qlt_le_weak, pow2_pos].
      rewrite (pow2_Z 52) by lia. rewrite <- Zle_Qle. apply nearest_even_ge.
      rewrite <- (pow2_Z 52) by lia.
      apply Qle_shift_div_l; [apply pow2_pos |].
      rewrite <- pow2_add, (Z.add_comm 52 e). exact Hfirst.
Qed.

Lemma nearest_pos_le x z :
  0 < x -> on_grid z -> x <= z -> nearest_pos x <= z.
Proof.
  intros Hx (m & ez & Hm & Hez & Hz) Hxz.
  assert (Hm0 : (0 < m)%Z).
  { destruct (Z_lt_le_dec 0 m) as [H | H]; [exact H | exfalso].
    apply (Qlt_irrefl x). apply Qle_lt_trans with z; [exact Hxz |].
    apply Qle_lt_trans with 0; [| exact Hx].
    rewrite Hz. rewrite <- (Qmult_0_l (pow2 ez)).
    apply Qmult_le_compat_r; [| apply Qlt_le_weak, pow2_pos].
    change 0 with (inject_Z 0). rewrite <- Zle_Qle. exact H. }
  unfold nearest_pos. set (e := last_bit x).
  destruct (Z_le_gt_dec e ez) as [Hle | Hgt].
  - rewrite Hz, (grid_point_multiple m ez e Hle).
    apply Qmult_le_compat_r; [| apply Qlt_le_weak, pow2_pos].
    rewrite <- Zle_Qle. apply nearest_even_le.
    apply Qle_shift_div_r; [apply pow2_pos |].
    rewrite <- (grid_point_multiple m ez e Hle), <- Hz. exact Hxz.
  - exfalso.
    assert (He : (emin < last_bit x)%Z) by (fold e; lia).
    pose proof (above_first_bit x Hx He) as Hfirst. fold e in Hfirst.
    apply (Qlt_irrefl z). apply Qlt_le_trans with (pow2 (e + 52)).
    + rewrite Hz at 1. apply grid_point_below; lia.
    + apply Qle_trans with x; assumption.
Qed.

Lemma pow2_on_grid b : (emin <= b)%Z -> on_grid (pow2 b).
Proof.
  intro H. exists 1%Z, b. split; [reflexivity |]. split; [exact H |].
  rewrite Qmult_1_l. reflexivity.
Qed.

Lemma nearest_pos_mono x y : 0 < x -> x <= y -> nearest_pos x <= nearest_pos y.
Proof.
  intros Hx Hxy.
  assert (Hy : 0 < y) by (apply Qlt_le_trans with x; assumption).
  destruct (binade_spec x Hx) as [X1 X2]. destruct (binade_spec y Hy) as [Y1 Y2].
  assert (Hb : (binade x <= binade y)%Z).
  { destruct (Z_le_gt_dec (binade x) (binade y)) as [H | H]; [exact H | exfalso].
    assert (pow2 (binade y + 1) <= pow2 (binade x)) by (apply pow2_le; lia).
    apply (Qlt_irrefl y). eapply Qlt_le_trans; [exact Y2 |].
    eapply Qle_trans; [eassumption |]. eapply Qle_trans; eassumption. }
  destruct (Z.eq_dec (last_bit x) (last_bit y)) as [E | N].
  - unfold nearest_pos. rewrite E.
    apply Qmult_le_compat_r; [| apply Qlt_le_weak, pow2_pos].
    rewrite <- Zle_Qle. apply nearest_even_mono.
    apply Qmult_le_compat_r; [exact Hxy |].
    apply Qlt_le_weak, Qinv_lt_0_compat, pow2_pos.
  - assert (Hlt : (last_bit x < last_bit y)%Z) by (unfold last_bit in *; lia).
    assert (Hy' : (emin < last_bit y)%Z) by (pose proof (last_bit_emin x); lia).
    assert (Hbb : (binade x + 1 <= binade y)%Z) by (unfold last_bit in *; lia).
    assert (Hgrid : on_grid (pow2 (binade y))).
    { apply pow2_on_grid. unfold last_bit in Hy'. lia. }
    apply Qle_trans with (pow2 (binade y)).
    + apply nearest_pos_le; [exact Hx | exact Hgrid |].
      apply Qlt_le_weak. eapply Qlt_le_trans; [exact X2 |]. apply pow2_le. exact Hbb.
    + apply nearest_pos_ge; [exact Hy | exact Hgrid | exact Y1].
Qed.

Lemma on_grid_opp z : on_grid z -> on_grid (- z).
Proof.
  intros (m & e & Hm & He & Hz). exists (- m)%Z, e.
  split; [rewrite Z.abs_opp; exact Hm |]. split; [exact He |].
  rewrite Hz, inject_Z_opp. ring.
Qed.

Lemma on_grid_0 : on_grid 0.
Proof. exists 0%Z, 0%Z. repeat split; try reflexivity. unfold emin. lia. Qed.

Lemma nearest_sign x :
  (0 < x -> 0 <= nearest x) /\ (x < 0 -> nearest x <= 0) /\ (x == 0 -> nearest x == 0).
Proof.
  unfold nearest. destruct (Qcompare x 0) eqn:C.
  - apply Qeq_alt in C. repeat split; intros; try reflexivity; lra.
  - rewrite <- Qlt_alt in C. repeat split; intros; try lra.
    assert (H' : 0 < - x) by lra. pose proof (nearest_pos_nonneg (- x) H'). lra.
  - rewrite <- Qgt_alt in C. repeat split; intros; try lra.
    apply nearest_pos_nonneg. exact C.
Qed.

(* rounding never crosses a grid point *)
Theorem nearest_le x z : on_grid z -> x <= z -> nearest x <= z.
Proof.
  intros Hz Hxz. unfold nearest. destruct (Qcompare x 0) eqn:C.
  - apply Qeq_alt in C. lra.
  - rewrite <- Qlt_alt in C.
    assert (H' : 0 < - x) by lra.
    destruct (Qlt_le_dec z 0) as [Hneg | Hpos].
    + assert (- z <= nearest_pos (- x)).
      { apply nearest_pos_ge; [exact H' | apply on_grid_opp; exact Hz | lra]. }
      lra.
    + pose proof (nearest_pos_nonneg (- x) H'). lra.
  - rewrite <- Qgt_alt in C. apply nearest_pos_le; assumption.
Qed.

Theorem nearest_ge x z : on_grid z -> z <= x -> z <= nearest x.
Proof.
  intros Hz Hzx. unfold nearest. destruct (Qcompare x 0) eqn:C.
  - apply Qeq_alt in C. lra.
  - rewrite <- Qlt_alt in C.
    assert (H' : 0 < - x) by lra.
    assert (nearest_pos (- x) <= - z).
    { apply nearest_pos_le; [exact H' | apply on_grid_opp; exact Hz | lra]. }
    lra.
  - rewrite <- Qgt_alt in C. apply nearest_pos_ge; assumption.
Qed.

(* a grid point is its own nearest double *)
Theorem nearest_on_grid z : on_grid z -> nearest z == z.
Proof.
  intro Hz. apply Qle_antisym.
  - apply nearest_le; [exact Hz | apply Qle_refl].
  - apply nearest_ge; [exact Hz | apply Qle_refl].
Qed.

Theorem nearest_mono x y : x <= y -> nearest x <= nearest y.
Proof.
  intro Hxy.
  destruct (Qlt_le_dec 0 x) as [Hx | Hx].
  - assert (Hy : 0 < y) by lra.
    unfold nearest.
    rewrite (proj1 (Qgt_alt x 0) Hx), (proj1 (Qgt_alt y 0) Hy).
    apply nearest_pos_mono; assumption.
  - destruct (Qlt_le_dec y 0) as [Hy | Hy].
    + assert (Hx' : x < 0) by lra.
      unfold nearest.
      rewrite (proj1 (Qlt_alt x 0) Hx'), (proj1 (Qlt_alt y 0) Hy).
      assert (nearest_pos (- y) <= nearest_pos (- x)).
      { apply nearest_pos_mono; lra. }
      lra.
    + apply Qle_trans with 0.
      * apply nearest_le; [apply on_grid_0 | exact Hx].
      * apply nearest_ge; [apply on_grid_0 | exact Hy].
Qed.

Lemma on_grid_Z (n : Z) : (Z.abs n < 2 ^ 53)%Z -> on_grid (inject_Z n).
Proof.
  intro H. exists n, 0%Z. split; [exact H |]. split; [unfold emin; lia |].
  unfold pow2. cbn. rewrite Qmult_1_r. reflexivity.
Qed.



(* the rounding of a number between two doubles is finite, and between them *)
Lemma round_between lo hi x :
  on_grid lo -> on_grid hi -> lo <= x -> x <= hi ->
  - pow2 1024 < lo -> hi < pow2 1024 ->
  round x = Finite (nearest x) /\ lo <= nearest x /\ nearest x <= hi.
Proof.
  intros Hlo Hhi H1 H2 B1 B2.
  pose proof (nearest_ge x lo Hlo H1) as N1.
  pose proof (nearest_le x hi Hhi H2) as N2.
  split; [| split; assumption].
  unfold round.
  destruct (Qle_bool (pow2 1024) (nearest x)) eqn:E1.
  { apply Qle_bool_iff in E1. lra. }
  destruct (Qle_bool (nearest x) (- pow2 1024)) eqn:E2.
  { apply Qle_bool_iff in E2. lra. }
  reflexivity.
Qed.


(* rounding stays between two integers that are doubles *)
Lemma nearest_within x (lo hi : Z) :
  (Z.abs lo < 2 ^ 53)%Z -> (Z.abs hi < 2 ^ 53)%Z ->
  inject_Z lo <= x -> x <= inject_Z hi ->
  inject_Z lo <= nearest x /\ nearest x <= inject_Z hi.
Proof.
  intros Hlo Hhi H1 H2. split.
  - apply nearest_ge; [apply on_grid_Z; exact Hlo | exact H1].
  - apply nearest_le; [apply on_grid_Z; exact Hhi | exact H2].
Qed.

(* rounding keeps the order *)
Lemma round_mono x y : x <= y -> XNum.le (round x) (round y).
Proof.
  intro H. pose proof (nearest_mono x y H) as N.
  pose proof (pow2_pos 1024) as P.
  unfold round.
  destruct (Qle_bool (pow2 1024) (nearest x)) eqn:X1;
    destruct (Qle_bool (pow2 1024) (nearest y)) eqn:Y1;
    destruct (Qle_bool (nearest x) (- pow2 1024)) eqn:X2;
    destruct (Qle_bool (nearest y) (- pow2 1024)) eqn:Y2;
    cbn [XNum.le]; try exact I; try exact N;
    repeat match goal with
           | H : Qle_bool _ _ = true |- _ => apply Qle_bool_iff in H
           | H : Qle_bool ?a ?b = false |- _ =>
               assert (~ a <= b) by (rewrite <- Qle_bool_iff; congruence); clear H
           end; lra.
Qed.

Lemma round_not_NaN x : round x <> NaN.
Proof.
  unfold round.
  destruct (Qle_bool _ _); [discriminate |].
  destruct (Qle_bool _ _); discriminate.
Qed.

Lemma le_round_PlusInfinity x : XNum.le (round x) PlusInfinity.
Proof.
  pose proof (round_not_NaN x). destruct (round x); cbn; auto.
Qed.

Lemma le_MinusInfinity_round x : XNum.le MinusInfinity (round x).
Proof.
  pose proof (round_not_NaN x). destruct (round x); cbn; auto.
Qed.

(* a product with a positive double keeps the order *)
Lemma mul_pos_mono a b k :
  0 < k -> XNum.le a b -> XNum.le (mul a (Finite k)) (mul b (Finite k)).
Proof.
  intros Hk H.
  assert (G : Num.Qgtb k 0 = true) by (apply Qgtb_lt; exact Hk).
  assert (P : mul PlusInfinity (Finite k) = PlusInfinity).
  { cbn [mul]. unfold scaled. rewrite G. reflexivity. }
  assert (M : mul MinusInfinity (Finite k) = MinusInfinity).
  { cbn [mul]. unfold scaled. rewrite G. reflexivity. }
  destruct a as [x | | |], b as [y | | |]; cbn [XNum.le] in H; try contradiction;
    rewrite ?P, ?M.
  - change (XNum.le (round (x * k)) (round (y * k))).
    apply round_mono. apply Qmult_le_compat_r; [exact H | apply Qlt_le_weak, Hk].
  - change (XNum.le (round (x * k)) PlusInfinity). apply le_round_PlusInfinity.
  - exact I.
  - change (XNum.le MinusInfinity (round (y * k))). apply le_MinusInfinity_round.
  - exact I.
  - exact I.
Qed.

(* a quotient by a positive double keeps the order *)
Lemma div_pos_mono x y c :
  0 < c -> x <= y -> XNum.le (div (Finite x) (Finite c)) (div (Finite y) (Finite c)).
Proof.
  intros Hc H. cbn [div].
  destruct (Qeq_bool c 0) eqn:E.
  { apply Qeq_bool_iff in E. lra. }
  apply round_mono. apply Qmult_le_compat_r; [exact H |].
  apply Qlt_le_weak, Qinv_lt_0_compat, Hc.
Qed.

Lemma gt_below a b bound :
  XNum.le a b -> XNum.gt b (Finite bound) = false -> XNum.gt a (Finite bound) = false.
Proof.
  destruct a as [x | | |], b as [y | | |]; cbn [XNum.le XNum.gt];
    try contradiction; try discriminate; try reflexivity.
  intros H G. apply Qgtb_le in G. apply Qgtb_le. lra.
Qed.

Lemma gt_first_below v v' x :
  v <= v' -> XNum.gt (Finite v') x = false -> XNum.gt (Finite v) x = false.
Proof.
  destruct x as [y | | |]; cbn [XNum.gt]; try reflexivity; try discriminate.
  intros H G. apply Qgtb_le in G. apply Qgtb_le. lra.
Qed.

Lemma gt_above a b bound :
  XNum.le a b -> XNum.gt a (Finite bound) = true -> XNum.gt b (Finite bound) = true.
Proof.
  destruct a as [x | | |], b as [y | | |]; cbn [XNum.le XNum.gt];
    try contradiction; try discriminate; try reflexivity.
  intros H G. apply Qgtb_lt in G. apply Qgtb_lt. lra.
Qed.

End DoubleFacts.

Set Implicit Arguments.

(** ** The monad *)

Lemma bind_returned {S A B} (m : M S A) (k : A -> M S B) s a s' :
  m s = (Returned a, s') -> bind m k s = k a s'.
Proof. intro H. unfold bind. rewrite H. reflexivity. Qed.

Lemma bind_thrown {S A B} (m : M S A) (k : A -> M S B) s e s' :
  m s = (Thrown e, s') -> bind m k s = (Thrown e, s').
Proof. intro H. unfold bind. rewrite H. reflexivity. Qed.

(* a try whose handler cannot throw cannot throw *)
Lemma try_catch_returns {S A} (body : M S A) (handler : Exn -> M S A) s :
  (forall e s', returns (handler e) s') -> returns (try_catch body handler) s.
Proof.
  intro H. unfold returns, try_catch.
  destruct (body s) as [[a | e] s'].
  - exists a, s'. reflexivity.
  - apply H.
Qed.

Lemma console_returns {D} (l : Line) (w : World D) : returns (console l) w.
Proof. unfold returns. eexists. eexists. reflexivity. Qed.

(** ** One send *)

Section SendFacts.

Variable this : TwilioService.
Variable D : Type.

Lemma sendSMS_run to message (w : World D) :
  exists r d,
    sendSMS this to message w = (Returned r, {| doc := doc w; trace := trace w ++ d |})
    /\ sends this SMS to message (trace w) r d.
Proof.
  unfold sendSMS. destruct (client this) as [cl|] eqn:Hc.
  - unfold try_catch, bind, messages_create. cbn.
    destruct (cl (trace w) {| gc_body := message; gc_from := phoneNumber this; gc_to := to |})
      as [e | m] eqn:Hcall.
    + exists (failedResult e). eexists. split.
      * cbn. rewrite <- app_assoc. reflexivity.
      * eapply sends_failed; eauto.
    + exists (sentResult m). eexists. split.
      * reflexivity.
      * eapply sends_live; eauto.
  - exists mockResult. eexists. split.
    + reflexivity.
    + apply (sends_mock this SMS to message (trace w) Hc).
Qed.

Lemma sendWhatsApp_run to message (w : World D) :
  exists r d,
    sendWhatsApp this to message w
    = (Returned r, {| doc := doc w; trace := trace w ++ d |})
    /\ sends this WhatsApp to message (trace w) r d.
Proof.
  unfold sendWhatsApp. destruct (client this) as [cl|] eqn:Hc.
  - unfold try_catch, bind, messages_create. cbn -[String.append].
    destruct (cl (trace w) {| gc_body := message;
                              gc_from := whatsapp_address (phoneNumber this);
                              gc_to := ("whatsapp:" ++ to)%string |})
      as [e | m] eqn:Hcall.
    + exists (failedResult e). eexists. split.
      * cbn -[String.append]. rewrite <- app_assoc. reflexivity.
      * eapply sends_failed; eauto.
    + exists (sentResult m). eexists. split.
      * reflexivity.
      * eapply sends_live; eauto.
  - exists mockResult. eexists. split.
    + reflexivity.
    + apply (sends_mock this WhatsApp to message (trace w) Hc).
Qed.

Lemma send_run c to message (w : World D) :
  exists r d,
    send this (D:=D) c to message w = (Returned r, {| doc := doc w; trace := trace w ++ d |})
    /\ sends this c to message (trace w) r d.
Proof. destruct c; [apply sendSMS_run | apply sendWhatsApp_run]. Qed.

End SendFacts.

(* a send makes exactly one delivery, to the address it was given *)
Lemma sends_deliveries this c to message t0 r d :
  sends this c to message t0 r d ->
  exists e, deliveries d = [e] /\ delivers c to e = true.
Proof.
  intro H. destruct H; destruct c; cbn;
    eexists; (split; [reflexivity|]); cbn; apply String.eqb_refl.
Qed.

Lemma sends_unconfigured this c to message t0 r d :
  client this = None ->
  sends this c to message t0 r d ->
  r = mockResult /\ net_calls d = [].
Proof.
  intros Hc H. destruct H; try congruence. split; reflexivity.
Qed.

(* a result is a mocked success, a success of the gateway or a failure *)
Lemma sends_result this c to message t0 r d :
  sends this c to message t0 r d ->
  outcome_of r = Simulated
  \/ outcome_of r = Success
  \/ exists e, outcome_of r = Failed (Some e).
Proof.
  intro H. destruct H; [left | right; left | right; right; eexists]; reflexivity.
Qed.

Lemma sends_mock_success this c to message t0 r d :
  sends this c to message t0 r d ->
  mock r = true -> success r = true.
Proof. intro H. destruct H; cbn; congruence. Qed.

(** ** The fan-out *)

Lemma skipped_false_phone user type :
  skipped user type = false ->
  exists to, phone user = Some to /\ (to =? "")%string = false.
Proof.
  unfold skipped, truthy. destruct (phone user) as [to|]; cbn.
  - intro H. exists to. split; [reflexivity|].
    destruct (to =? "")%string; [discriminate H | reflexivity].
  - discriminate.
Qed.

Section FanoutFacts.

Variable this : TwilioService.
Variable D : Type.
Variable message : Message.
Variable type : string.

Lemma sendAlert_from_run users : forall acc (w : World D),
  exists rs d,
    sendAlert_from this users message type acc w
    = (Returned (acc ++ rs), {| doc := doc w; trace := trace w ++ d |})
    /\ fans_out this type message (trace w) users rs d.
Proof.
  induction users as [|user rest IH]; intros acc w.
  - exists [], []. cbn. rewrite !app_nil_r. destruct w. split; [reflexivity | constructor].
  - cbn [sendAlert_from].
    destruct (skipped user type) eqn:Hskip.
    + (* continue *)
      destruct (IH acc w) as (rs & d & Hrun & Hfan).
      exists rs, d. split; [| apply fans_skip; assumption].
      revert Hskip. unfold skipped, truthy.
      destruct (phone user) as [to|]; cbn; [| intros _; exact Hrun].
      destruct (to =? "")%string; cbn; intro H; [exact Hrun|].
      rewrite H. exact Hrun.
    + destruct (skipped_false_phone _ _ Hskip) as (to & Hphone & Hto).
      revert Hskip. unfold skipped, truthy. rewrite Hphone, Hto. cbn.
      intro Hflags. rewrite Hflags.
      destruct (send_run this (channel_of type) to message w) as (r & d1 & Hsend & Hs).
      assert (Hchoice :
        (if (type =? "whatsapp")%string
         then sendWhatsApp this (D:=D) to message
         else sendSMS this (D:=D) to message)
        = send this (D:=D) (channel_of type) to message).
      { unfold channel_of. destruct (type =? "whatsapp")%string; reflexivity. }
      rewrite Hchoice. rewrite (bind_returned _ _ _ Hsend).
      match goal with
      | |- context [sendAlert_from this rest message type ?acc' ?w'] =>
          destruct (IH acc' w') as (rs & d2 & Hrun & Hfan)
      end.
      cbn [doc trace] in Hrun, Hfan.
      eexists. exists (d1 ++ d2). split.
      * rewrite Hrun. rewrite <- !app_assoc. cbn [app]. reflexivity.
      * eapply fans_send; eauto.
        unfold skipped, truthy. rewrite Hphone, Hto. cbn. exact Hflags.
Qed.

Lemma sendAlert_run users (w : World D) :
  exists results d,
    sendAlert this users message type w
    = (Returned results, {| doc := doc w; trace := trace w ++ d |})
    /\ fans_out this type message (trace w) users results d.
Proof. apply (sendAlert_from_run users [] w). Qed.

End FanoutFacts.

Lemma deliveries_app (t1 t2 : Trace) :
  deliveries (t1 ++ t2) = deliveries t1 ++ deliveries t2.
Proof. apply filter_app. Qed.

Lemma net_calls_app (t1 t2 : Trace) :
  net_calls (t1 ++ t2) = net_calls t1 ++ net_calls t2.
Proof. apply filter_app. Qed.

Section FansOutFacts.

Variable this : TwilioService.
Variable type : string.
Variable message : Message.

Lemma fans_out_entries t0 users rs d :
  fans_out this type message t0 users rs d ->
  Forall2 (entry_for type) rs (recipients type users).
Proof.
  induction 1 as [t0 | t0 user rest rs d Hskip _ IH
                 | t0 user to rest r d1 rs d2 Hskip Hphone _ _ IH];
    unfold recipients in *; cbn [filter].
  - constructor.
  - rewrite Hskip. exact IH.
  - rewrite Hskip. cbn [negb]. constructor; [| exact IH].
    repeat split; cbn; auto.
Qed.

Lemma fans_out_deliveries t0 users rs d :
  fans_out this type message t0 users rs d ->
  Forall2 (delivery_for type) (deliveries d) (recipients type users).
Proof.
  induction 1 as [t0 | t0 user rest rs d Hskip _ IH
                 | t0 user to rest r d1 rs d2 Hskip Hphone Hs _ IH];
    unfold recipients in *; cbn [filter].
  - constructor.
  - rewrite Hskip. exact IH.
  - rewrite Hskip. cbn [negb]. rewrite deliveries_app.
    destruct (sends_deliveries Hs) as (e & He & Hd). rewrite He. cbn [app].
    constructor; [| exact IH]. exists to. split; assumption.
Qed.

Lemma fans_out_unconfigured t0 users rs d :
  client this = None ->
  fans_out this type message t0 users rs d ->
  net_calls d = [] /\ Forall (fun r => r_result r = mockResult) rs.
Proof.
  intros Hc. induction 1 as [t0 | t0 user rest rs d Hskip _ IH
                 | t0 user to rest r d1 rs d2 Hskip Hphone Hs _ IH].
  - split; constructor.
  - exact IH.
  - destruct (sends_unconfigured Hc Hs) as [Hr Hn]. destruct IH as [IH1 IH2].
    split.
    + rewrite net_calls_app, Hn, IH1. reflexivity.
    + constructor; [exact Hr | exact IH2].
Qed.

Lemma fans_out_mock_success t0 users rs d :
  fans_out this type message t0 users rs d ->
  Forall (fun r => mock (r_result r) = true -> success (r_result r) = true) rs.
Proof.
  induction 1 as [t0 | t0 user rest rs d Hskip _ IH
                 | t0 user to rest r d1 rs d2 Hskip Hphone Hs _ IH].
  - constructor.
  - exact IH.
  - constructor; [| exact IH]. cbn. exact (sends_mock_success Hs).
Qed.

End FansOutFacts.

Lemma recipients_length type users :
  (List.length (recipients type users) <= List.length users)%nat.
Proof. apply filter_length_le. Qed.

Lemma recipients_shorter type users u :
  In u users -> skipped u type = true ->
  (List.length (recipients type users) < List.length users)%nat.
Proof.
  unfold recipients. induction users as [|x rest IH]; cbn [In filter]; [tauto|].
  intros [-> | Hin] Hskip.
  - rewrite Hskip. cbn. apply Nat.lt_succ_r. apply filter_length_le.
  - specialize (IH Hin Hskip).
    destruct (negb (skipped x type)); cbn [List.length]; lia.
Qed.

Lemma recipients_all type users :
  forallb (fun u => negb (skipped u type)) users = true ->
  recipients type users = users.
Proof.
  unfold recipients. induction users as [|x rest IH]; cbn; [reflexivity|].
  intro H. apply andb_true_iff in H as [Hx Hrest]. rewrite Hx, (IH Hrest). reflexivity.
Qed.

(** ** Claims on the channel dispatcher and the fan-out *)

Lemma unconfigured_client twilio sid token pn :
  truthy sid && truthy token = false ->
  client (fst (newTwilioService twilio sid token pn)) = None.
Proof.
  unfold newTwilioService. intro H.
  destruct sid as [s|]; destruct token as [t|]; try reflexivity.
  rewrite H. reflexivity.
Qed.

(** C3. A send of the channel dispatcher (sendSMS or sendWhatsApp) never
    throws.  A service built without both credentials has no client; with no
    client the send returns the mocked success, whose outcome is Simulated,
    and adds no gateway call to the trace.  When the call to the gateway is
    rejected with [e], the send returns the failure object carrying [e]:
    outcome Failed with that reason. *)
Theorem send_simulated_failed_never_throws :
  forall (D : Type) (this : TwilioService) (c : Channel) (to : string)
         (message : Message) (w : World D),
    returns (send this (D:=D) c to message) w
    /\ (forall twilio sid token pn,
           truthy sid && truthy token = false ->
           client (fst (newTwilioService twilio sid token pn)) = None)
    /\ (client this = None ->
        exists w',
          send this c to message w = (Returned mockResult, w')
          /\ outcome_of mockResult = Simulated
          /\ net_calls (trace w') = net_calls (trace w))
    /\ (forall cl e,
           client this = Some cl ->
           cl (trace w) (call_of this c to message) = inl e ->
           exists w',
             send this c to message w = (Returned (failedResult e), w')
             /\ outcome_of (failedResult e) = Failed (Some e)).
Proof.
  intros D this c to message w.
  destruct (send_run this c to message w) as (r & d & Hrun & Hs).
  split; [| split; [| split]].
  - exists r. eexists. exact Hrun.
  - intros. apply unconfigured_client. assumption.
  - intro Hc. destruct (sends_unconfigured Hc Hs) as [-> Hn].
    eexists. split; [exact Hrun |]. split; [reflexivity |].
    cbn [trace]. rewrite net_calls_app, Hn, app_nil_r. reflexivity.
  - intros cl e Hc Hcall. destruct Hs as [Hnone | cl' m Hc' Hcall' | cl' e' Hc' Hcall'].
    + congruence.
    + rewrite Hc in Hc'. injection Hc' as <-. congruence.
    + rewrite Hc in Hc'. injection Hc' as <-.
      assert (e' = e) as -> by congruence.
      eexists. split; [exact Hrun | reflexivity].
Qed.

Lemma send_simulated_failed_never_throws_witness :
  (exists w',
      send unconfigured SMS "+911" (Plain "test") {| doc := tt; trace := [] |}
      = (Returned mockResult, w')
      /\ outcome_of mockResult = Simulated
      /\ net_calls (trace w') = net_calls [])
  /\ (exists w',
         send gateway_down WhatsApp "+911" (Plain "test") {| doc := tt; trace := [] |}
         = (Returned (failedResult "ETIMEDOUT"), w')
         /\ outcome_of (failedResult "ETIMEDOUT") = Failed (Some "ETIMEDOUT")).
Proof.
  split.
  - apply (proj1 (proj2 (proj2
             (send_simulated_failed_never_throws unconfigured SMS "+911"
                (Plain "test") {| doc := tt; trace := [] |})))).
    reflexivity.
  - apply (proj2 (proj2 (proj2
             (send_simulated_failed_never_throws gateway_down WhatsApp "+911"
                (Plain "test") {| doc := tt; trace := [] |})))
             (fun _ _ => inl "ETIMEDOUT") "ETIMEDOUT").
    + reflexivity.
    + reflexivity.
Defined.

(** C10. sendAlert always returns.  The entries of its result are, in order,
    those of the users it does not skip (a phone number, and opted into the
    type asked for); the deliveries it makes are, in order, to those users.
    So a skipped user has no entry and no delivery, the result is never
    longer than the list of users, and it is strictly shorter as soon as one
    user is skipped. *)
Theorem sendAlert_skips_silently :
  forall (D : Type) (this : TwilioService) (users : list User)
         (message : Message) (type : string) (w : World D),
  exists results d,
    sendAlert this users message type w
    = (Returned results, {| doc := doc w; trace := trace w ++ d |})
    /\ Forall2 (entry_for type) results (recipients type users)
    /\ Forall2 (delivery_for type) (deliveries d) (recipients type users)
    /\ (List.length results <= List.length users)%nat
    /\ (forall u, In u users -> skipped u type = true ->
                  (List.length results < List.length users)%nat).
Proof.
  intros D this users message type w.
  destruct (sendAlert_run this message type users w) as (results & d & Hrun & Hfan).
  exists results, d.
  pose proof (fans_out_entries Hfan) as Hentries.
  pose proof (Forall2_length Hentries) as Hlen.
  split; [exact Hrun |]. split; [exact Hentries |].
  split; [exact (fans_out_deliveries Hfan) |]. split.
  - rewrite Hlen. apply recipients_length.
  - intros u Hin Hskip. rewrite Hlen. eapply recipients_shorter; eauto.
Qed.

Lemma sendAlert_skips_silently_witness :
  exists results d,
    sendAlert unconfigured [both_channels; no_phone; sms_only] (Plain "test") "whatsapp"
      {| doc := tt; trace := [] |}
    = (Returned results, {| doc := tt; trace := [] ++ d |})
    /\ (List.length results < 3)%nat.
Proof.
  destruct (sendAlert_skips_silently unconfigured [both_channels; no_phone; sms_only]
              (Plain "test") "whatsapp" {| doc := tt; trace := [] |})
    as (results & d & Hrun & _ & _ & _ & Hshort).
  exists results, d. split; [exact Hrun |].
  apply (Hshort no_phone).
  - right. left. reflexivity.
  - reflexivity.
Defined.

(** ** The emission check *)

Lemma get_push_alert entry emission q :
  get (push_alert entry emission) q = get emission q.
Proof. destruct q; reflexivity. Qed.

Lemma alerts_of_push_alert entry emission :
  alerts_of (push_alert entry emission) = alerts_of emission ++ [entry].
Proof. reflexivity. Qed.

Lemma breaches_push_alert entry emission q :
  breaches (push_alert entry emission) q = breaches emission q.
Proof. unfold breaches. rewrite get_push_alert. reflexivity. Qed.

Lemma fans_out_count this type message t0 users rs d :
  fans_out this type message t0 users rs d ->
  List.length (deliveries d) = List.length (recipients type users).
Proof. intro H. exact (Forall2_length (fans_out_deliveries H)). Qed.

Lemma dispatched_count this users message t0 d :
  dispatched this users message t0 d ->
  List.length (deliveries d) = notified users.
Proof.
  intros (rs1 & d1 & rs2 & d2 & -> & H1 & H2).
  rewrite deliveries_app, length_app.
  rewrite (fans_out_count H1), (fans_out_count H2). reflexivity.
Qed.

Section EmissionFacts.

Variable this : TwilioService.
Variable persist : World Emission -> option Exn.
Variable users : list User.

(* a parameter that does not exceed its threshold is passed over *)
Lemma checkEmissionParam_quiet p (w : World Emission) :
  breaches (doc w) p = false ->
  checkEmissionParam this persist users p w = (Returned tt, w).
Proof.
  unfold breaches, checkEmissionParam, bind, gets. intro H.
  cbn beta iota. rewrite H. reflexivity.
Qed.

(* the guarded call of sendAlert in checkEmissionThresholds *)
Lemma guarded_sendAlert_run (l : list User) message type (w : World Emission) :
  exists rs d,
    when (0 <? List.length l)%nat (sendAlert this l message type ;; ret tt) w
    = (Returned tt, {| doc := doc w; trace := trace w ++ d |})
    /\ fans_out this type message (trace w) l rs d.
Proof.
  destruct l as [|u l'].
  - exists [], []. cbn. rewrite app_nil_r. destruct w. split; [reflexivity | constructor].
  - cbn [List.length Nat.ltb Nat.leb when].
    destruct (sendAlert_run this message type (u :: l') w) as (rs & d & Hrun & Hfan).
    exists rs, d. split; [| exact Hfan].
    rewrite (bind_returned _ _ _ Hrun). reflexivity.
Qed.

(* a parameter that exceeds its threshold: both fan-outs, then the push,
   then the save, which may throw *)
Lemma checkEmissionParam_alert p (w : World Emission) :
  breaches (doc w) p = true ->
  exists d,
    dispatched this users
      (generateAlertMessage_emission p (get (doc w) p) (doc w)) (trace w) d
    /\ checkEmissionParam this persist users p w
       = let w1 := {| doc := push_alert (alert_entry p (get (doc w) p)) (doc w);
                      trace := trace w ++ d |} in
         match persist w1 with
         | None =>
             (Returned tt,
              {| doc := doc w1;
                 trace := trace w1
                          ++ [Console (EmissionAlertSent p (value (get (doc w) p))
                                         (threshold (get (doc w) p)))] |})
         | Some e => (Thrown e, w1)
         end.
Proof.
  intro H. unfold breaches in H.
  set (message := generateAlertMessage_emission p (get (doc w) p) (doc w)).
  destruct (guarded_sendAlert_run
              (filter (fun u => sms (notifications u)) users) message "sms" w)
    as (rs1 & d1 & Hrun1 & Hfan1).
  destruct (guarded_sendAlert_run
              (filter (fun u => whatsapp (notifications u)) users) message "whatsapp"
              {| doc := doc w; trace := trace w ++ d1 |})
    as (rs2 & d2 & Hrun2 & Hfan2).
  cbn [doc trace] in Hrun2, Hfan2.
  exists (d1 ++ d2). split.
  - exists rs1, d1, rs2, d2. auto.
  - unfold checkEmissionParam.
    unfold bind at 1. unfold gets at 1. cbn beta iota. rewrite H. cbn [when].
    unfold bind at 1. unfold gets at 1. cbn beta iota. fold message.
    unfold bind at 1. cbn zeta. rewrite Hrun1.
    unfold bind at 1. rewrite Hrun2.
    unfold bind at 1. unfold update_doc, modify. cbn [doc trace].
    unfold bind at 1. unfold save. cbn [doc trace]. rewrite app_assoc.
    destruct (persist _); reflexivity.
Qed.

(* the check never touches the readings *)
Lemma checkEmissionParam_get p (w : World Emission) q :
  get (doc (snd (checkEmissionParam this persist users p w))) q = get (doc w) q.
Proof.
  destruct (breaches (doc w) p) eqn:Hb.
  - destruct (checkEmissionParam_alert p w Hb) as (d & _ & ->).
    cbn zeta. destruct (persist _); cbn; apply get_push_alert.
  - rewrite (checkEmissionParam_quiet p w Hb). reflexivity.
Qed.


Hypothesis persist_ok : forall w, persist w = None.

(* the loop over any list of parameters, when no save fails *)
Lemma for_of_params_run ps : forall (w : World Emission),
  exists e' d,
    for_of ps (checkEmissionParam this persist users) w
    = (Returned tt, {| doc := e'; trace := trace w ++ d |})
    /\ (forall q, get e' q = get (doc w) q)
    /\ alerts_of e'
       = alerts_of (doc w)
         ++ map (fun p => alert_entry p (get (doc w) p)) (filter (breaches (doc w)) ps)
    /\ List.length (deliveries d)
       = (List.length (filter (breaches (doc w)) ps) * notified users)%nat.
Proof.
  induction ps as [|p ps IH]; intro w.
  - exists (doc w), []. cbn. rewrite !app_nil_r. destruct w. auto.
  - cbn [for_of filter].
    destruct (breaches (doc w) p) eqn:Hb.
    + destruct (checkEmissionParam_alert p w Hb) as (d & Hd & Hrun).
      cbn zeta in Hrun. rewrite persist_ok in Hrun.
      rewrite (bind_returned _ _ _ Hrun). cbn [doc trace].
      match goal with
      | |- context [for_of ps _ ?w1] => destruct (IH w1) as (e' & d' & Hloop & Hget & Hal & Hn)
      end.
      cbn [doc trace] in Hloop, Hget, Hal, Hn.
      exists e'. eexists. split; [| split; [| split]].
      * rewrite Hloop. rewrite <- !app_assoc. reflexivity.
      * intro q. rewrite Hget. apply get_push_alert.
      * rewrite Hal. rewrite alerts_of_push_alert, <- app_assoc. reflexivity.
      * rewrite !deliveries_app, !length_app. rewrite Hn, (dispatched_count Hd).
        rewrite (filter_ext _ _ (breaches_push_alert _ _)). cbn. lia.
    + rewrite (bind_returned _ _ _ (checkEmissionParam_quiet p w Hb)).
      apply IH.
Qed.

Lemma checkEmissionThresholds_run (w : World Emission) :
  exists e' d,
    checkEmissionThresholds this persist users w
    = (Returned tt, {| doc := e'; trace := trace w ++ d |})
    /\ (forall q, get e' q = get (doc w) q)
    /\ alerts_of e' = alerts_of (doc w) ++ raised (doc w)
    /\ List.length (deliveries d)
       = (List.length (raised (doc w)) * notified users)%nat.
Proof.
  unfold checkEmissionThresholds, raised. rewrite length_map.
  apply for_of_params_run.
Qed.

End EmissionFacts.

Lemma Param_eqb_refl p : Param_eqb p p = true.
Proof. destruct p; reflexivity. Qed.

Lemma entries_for_app p l1 l2 :
  entries_for p (l1 ++ l2) = entries_for p l1 ++ entries_for p l2.
Proof. apply filter_app. Qed.

(* one evaluation raises exactly one entry for a parameter that exceeds *)
Lemma entries_for_raised emission p :
  entries_for p (raised emission)
  = if breaches emission p then [alert_entry p (get emission p)] else [].
Proof.
  unfold raised, entries_for. destruct p; cbn [filter map];
    destruct (breaches emission sox), (breaches emission nox), (breaches emission co2),
      (breaches emission pm), (breaches emission co); reflexivity.
Qed.

Lemma raised_length_pos emission p :
  breaches emission p = true -> (1 <= List.length (raised emission))%nat.
Proof.
  intro H. pose proof (entries_for_raised emission p) as E. rewrite H in E.
  assert (L : (List.length (entries_for p (raised emission))
               <= List.length (raised emission))%nat)
    by apply filter_length_le.
  rewrite E in L. exact L.
Qed.

(** ** Claims on the emission check *)


(** C1, as the code has it.  The check keeps no record of what it raised:
    when no save fails, every evaluation of a snapshot returns, leaves the
    readings as they were, adds exactly one more entry for each parameter [p]
    that exceeds its threshold, whatever the alert list already holds, and
    dispatches again, once per raised entry to every recipient. *)
Theorem reevaluation_raises_again :
  forall (this : TwilioService) (persist : World Emission -> option Exn)
         (users : list User) (w : World Emission) (p : Param),
    (forall w', persist w' = None) ->
    breaches (doc w) p = true ->
    exists e' d,
      checkEmissionThresholds this persist users w
      = (Returned tt, {| doc := e'; trace := trace w ++ d |})
      /\ (forall q, get e' q = get (doc w) q)
      /\ entries_for p (alerts_of e')
         = entries_for p (alerts_of (doc w)) ++ [alert_entry p (get (doc w) p)]
      /\ List.length (deliveries d)
         = (List.length (raised (doc w)) * notified users)%nat
      /\ (1 <= List.length (raised (doc w)))%nat.
Proof.
  intros this persist users w p Hok Hb.
  destruct (checkEmissionThresholds_run this persist users Hok w)
    as (e' & d & Hrun & Hget & Hal & Hn).
  exists e', d. split; [exact Hrun |]. split; [exact Hget |]. split; [| split].
  - rewrite Hal, entries_for_app, entries_for_raised, Hb. reflexivity.
  - exact Hn.
  - exact (raised_length_pos _ _ Hb).
Qed.

Lemma reevaluation_raises_again_witness :
  exists e' d,
    checkEmissionThresholds unconfigured never_rejects [both_channels]
      {| doc := emission_260; trace := [] |}
    = (Returned tt, {| doc := e'; trace := [] ++ d |})
    /\ (forall q, get e' q = get emission_260 q)
    /\ entries_for sox (alerts_of e')
       = entries_for sox (alerts_of emission_260)
         ++ [alert_entry sox (get emission_260 sox)]
    /\ List.length (deliveries d)
       = (List.length (raised emission_260) * notified [both_channels])%nat
    /\ (1 <= List.length (raised emission_260))%nat.
Proof.
  apply (reevaluation_raises_again unconfigured never_rejects [both_channels]
           {| doc := emission_260; trace := [] |} sox).
  - intro w'. reflexivity.
  - reflexivity.
Defined.

(** C1, as stated, fails.  The snapshot [emission_260] is evaluated once: sox
    is then annotated.  Evaluated again with the same readings, it holds two
    entries for sox, and the two deliveries of the first evaluation have been
    made a second time. *)
Lemma annotated_snapshot_raised_again :
  let w1 := snd (checkEmissionThresholds unconfigured never_rejects [both_channels]
                   {| doc := emission_260; trace := [] |}) in
  let w2 := snd (checkEmissionThresholds unconfigured never_rejects [both_channels] w1) in
  e_sox (doc w1) = e_sox emission_260
  /\ e_sox (doc w2) = e_sox emission_260
  /\ List.length (entries_for sox (alerts_of (doc w1))) = 1%nat
  /\ List.length (entries_for sox (alerts_of (doc w2))) = 2%nat
  /\ List.length (deliveries (trace w1)) = 2%nat
  /\ List.length (deliveries (trace w2)) = 4%nat.
Proof. vm_compute. repeat split. Qed.

Lemma gt_values (a b : Q) : Num.gt (Some a) (Some b) = Num.Qgtb a b.
Proof. reflexivity. Qed.




Section SeverityRule.

Variable this : TwilioService.
Variable persist : World Emission -> option Exn.
Variable users : list User.



End SeverityRule.



Section AbsentParameter.

Variable this : TwilioService.
Variable write : World Emission -> option Exn.
Variable users : list User.
Variable p : Param.

Lemma absent_not_breach emission :
  value (get emission p) = None -> breaches emission p = false.
Proof. unfold breaches. intros ->. reflexivity. Qed.

(* a snapshot without one of its required values does not pass validation,
   whatever is pushed to its alerts *)
Lemma absent_not_valid emission :
  value (get emission p) = None -> required_values_present emission = false.
Proof.
  intro H. unfold required_values_present. cbn [forallb get].
  destruct p; cbn [get] in H; rewrite H; cbn [andb];
    repeat match goal with
           | |- context [match ?x with Some _ => true | None => false end] =>
               destruct x
           end; reflexivity.
Qed.

Lemma save_refused entry (w : World Emission) d :
  value (get (doc w) p) = None ->
  Emission_save write {| doc := push_alert entry (doc w); trace := d |}
  = Some ValidationError.
Proof.
  intro H. unfold Emission_save. cbn [doc].
  rewrite absent_not_valid; [reflexivity |]. rewrite get_push_alert. exact H.
Qed.

(* the loop passes over what does not exceed, and ends at the save of the
   first parameter that does *)
Lemma for_of_until_save_refused ps q : forall (w : World Emission),
  value (get (doc w) p) = None ->
  find (breaches (doc w)) ps = Some q ->
  exists d,
    for_of ps (checkEmissionParam this (Emission_save write) users) w
    = (Thrown ValidationError,
       {| doc := push_alert (alert_entry q (get (doc w) q)) (doc w);
          trace := trace w ++ d |})
    /\ List.length (deliveries d) = notified users.
Proof.
  induction ps as [|q' ps IH]; intros w Habs Hfind; [discriminate |].
  cbn [find] in Hfind. cbn [for_of].
  destruct (breaches (doc w) q') eqn:Hb.
  - injection Hfind as <-.
    destruct (checkEmissionParam_alert this (Emission_save write) users q' w Hb)
      as (d & Hd & Hrun).
    cbn zeta in Hrun. rewrite (save_refused _ w _ Habs) in Hrun.
    exists d. split; [| exact (dispatched_count Hd)].
    rewrite (bind_thrown _ _ _ Hrun). reflexivity.
  - rewrite (bind_returned _ _ _
               (checkEmissionParam_quiet this (Emission_save write) users q' w Hb)).
    apply IH; assumption.
Qed.

Lemma for_of_nothing_exceeds ps : forall (w : World Emission),
  find (breaches (doc w)) ps = None ->
  for_of ps (checkEmissionParam this (Emission_save write) users) w = (Returned tt, w).
Proof.
  induction ps as [|q ps IH]; intros w Hfind; [reflexivity |].
  cbn [find] in Hfind. cbn [for_of].
  destruct (breaches (doc w) q) eqn:Hb; [discriminate |].
  rewrite (bind_returned _ _ _
             (checkEmissionParam_quiet this (Emission_save write) users q w Hb)).
  apply IH. exact Hfind.
Qed.

End AbsentParameter.

(** C9, as the code has it.  The save of a snapshot validates it against the
    schema, which requires the five values.  A parameter whose value is
    absent is skipped: its turn in the loop leaves the document and the trace
    as they were.  When no other parameter exceeds its threshold the
    evaluation returns with nothing raised, sent or saved.  When another
    parameter exceeds, the first such parameter [q] has its alert dispatched
    and its entry pushed, and then the save is refused because of the absent
    value: the check throws a ValidationError at [q], and the parameters
    after [q] are not evaluated. *)
Theorem absent_value_skipped_then_save_refused :
  forall (this : TwilioService) (write : World Emission -> option Exn)
         (users : list User) (p : Param) (w : World Emission),
    value (get (doc w) p) = None ->
    checkEmissionParam this (Emission_save write) users p w = (Returned tt, w)
    /\ (find (breaches (doc w)) [sox; nox; co2; pm; co] = None ->
        checkEmissionThresholds this (Emission_save write) users w = (Returned tt, w))
    /\ (forall q,
           find (breaches (doc w)) [sox; nox; co2; pm; co] = Some q ->
           q <> p
           /\ exists d,
                checkEmissionThresholds this (Emission_save write) users w
                = (Thrown ValidationError,
                   {| doc := push_alert (alert_entry q (get (doc w) q)) (doc w);
                      trace := trace w ++ d |})
                /\ List.length (deliveries d) = notified users).
Proof.
  intros this write users p w Habs. split; [| split].
  - apply checkEmissionParam_quiet. apply absent_not_breach. exact Habs.
  - intro Hfind. unfold checkEmissionThresholds. apply for_of_nothing_exceeds. exact Hfind.
  - intros q Hfind. split.
    + intros ->. apply find_some in Hfind as [_ Hb].
      rewrite (@absent_not_breach p (doc w) Habs) in Hb. discriminate.
    + unfold checkEmissionThresholds.
      exact (@for_of_until_save_refused this write users p _ q w Habs Hfind).
Qed.

Lemma absent_value_skipped_then_save_refused_witness :
  checkEmissionParam unconfigured (Emission_save never_rejects) [both_channels] sox
    {| doc := emission_no_sox; trace := [] |}
  = (Returned tt, {| doc := emission_no_sox; trace := [] |})
  /\ checkEmissionThresholds unconfigured (Emission_save never_rejects) [both_channels]
       {| doc := emission_no_sox; trace := [] |}
     = (Returned tt, {| doc := emission_no_sox; trace := [] |})
  /\ exists d,
       checkEmissionThresholds unconfigured (Emission_save never_rejects) [both_channels]
         {| doc := emission_no_sox_nox_350; trace := [] |}
       = (Thrown ValidationError,
          {| doc := push_alert (alert_entry nox (get emission_no_sox_nox_350 nox))
                      emission_no_sox_nox_350;
             trace := [] ++ d |})
       /\ List.length (deliveries d) = notified [both_channels].
Proof.
  destruct (absent_value_skipped_then_save_refused unconfigured never_rejects
              [both_channels] sox {| doc := emission_no_sox; trace := [] |} eq_refl)
    as (H1 & H2 & _).
  destruct (absent_value_skipped_then_save_refused unconfigured never_rejects
              [both_channels] sox {| doc := emission_no_sox_nox_350; trace := [] |}
              eq_refl)
    as (_ & _ & H3).
  split; [exact H1 |]. split; [apply H2; reflexivity |].
  exact (proj2 (H3 nox eq_refl)).
Defined.

(** C9, as stated, fails.  In [emission_no_sox_nox_350] the value of sox is
    absent, and nox and pm exceed their thresholds.  The evaluation does not
    complete: after the alert for nox has gone out (two deliveries) the save
    is refused, the check throws, and pm, which exceeds, gets no entry. *)
Lemma absent_value_fails_the_evaluation :
  let run := checkEmissionThresholds unconfigured (Emission_save never_rejects)
               [both_channels] {| doc := emission_no_sox_nox_350; trace := [] |} in
  value (e_sox emission_no_sox_nox_350) = None
  /\ breaches emission_no_sox_nox_350 nox = true
  /\ breaches emission_no_sox_nox_350 pm = true
  /\ fst run = Thrown ValidationError
  /\ List.length (deliveries (trace (snd run))) = 2%nat
  /\ List.length (entries_for nox (alerts_of (doc (snd run)))) = 1%nat
  /\ entries_for pm (alerts_of (doc (snd run))) = [].
Proof. vm_compute. repeat split. Qed.

(** ** Claims on the channels of an alert *)

Lemma whatsapp_address_differs (s : string) :
  (("whatsapp:" ++ s)%string =? s)%string = false.
Proof.
  apply String.eqb_neq. intro H. apply (f_equal String.length) in H.
  cbn in H. lia.
Qed.

Lemma whatsapp_address_differs' (s : string) :
  (s =? ("whatsapp:" ++ s)%string)%string = false.
Proof. rewrite String.eqb_sym. apply whatsapp_address_differs. Qed.

(* a send delivers to its address over its channel, and over no other *)
Lemma sends_delivers this c c' to message t0 r d :
  sends this c' to message t0 r d ->
  existsb (delivers c to) d = Channel_eqb c c'.
Proof.
  intro H. destruct H; destruct c, c'; cbn -[String.append];
    rewrite ?String.eqb_refl, ?whatsapp_address_differs, ?whatsapp_address_differs';
    reflexivity.
Qed.

Section OneRecipient.

Variable this : TwilioService.
Variable u : User.
Variable to : string.
Hypothesis u_phone : phone u = Some to.
Hypothesis to_nonempty : (to =? "")%string = false.

Lemma skipped_opted (c : Channel) :
  opted c u = true -> skipped u (type_of c) = false.
Proof.
  unfold skipped, truthy. rewrite u_phone, to_nonempty.
  destruct c; cbn; intros ->; cbn; rewrite ?andb_false_r; reflexivity.
Qed.

(* the fan-out of one type over the recipient, if opted in, or over nobody *)
Lemma fans_out_one (c c' : Channel) message t0 rs d :
  fans_out this (type_of c') message t0 (filter (opted c') [u]) rs d ->
  existsb (delivers c to) d = opted c' u && Channel_eqb c c'.
Proof.
  cbn [filter]. destruct (opted c' u) eqn:Hopt; intro H.
  - inversion H as [| ? ? ? ? ? Hskip | ? ? to' ? r d1 rs' d2 Hskip Hphone Hs Hrest]; subst.
    + rewrite (skipped_opted c' Hopt) in Hskip. discriminate.
    + inversion Hrest; subst. rewrite app_nil_r.
      assert (to' = to) as -> by congruence.
      assert (Hch : channel_of (type_of c') = c') by (destruct c'; reflexivity).
      rewrite Hch in Hs. rewrite (sends_delivers c Hs). reflexivity.
  - inversion H; subst. reflexivity.
Qed.

Lemma dispatched_one (c : Channel) message t0 d :
  dispatched this [u] message t0 d ->
  existsb (delivers c to) d = opted c u.
Proof.
  intros (rs1 & d1 & rs2 & d2 & -> & H1 & H2).
  rewrite existsb_app.
  rewrite (fans_out_one c SMS H1), (fans_out_one c WhatsApp H2).
  destruct c; cbn; rewrite ?andb_true_r, ?andb_false_r, ?orb_false_r; reflexivity.
Qed.

(* whatever the readings and the severity, the alert of a parameter that
   exceeds goes over the channels the recipient opted into *)
Lemma notify_trace_channels persist p emission :
  breaches emission p = true ->
  channels_used (notify_trace this persist u p emission) to = channels_opted u.
Proof.
  intro Hb. unfold notify_trace, channels_used, channels_opted.
  destruct (checkEmissionParam_alert this persist [u] p
              {| doc := emission; trace := [] |} Hb) as (d & Hd & ->).
  cbn zeta. cbn [doc trace app].
  apply filter_ext. intro c.
  destruct (persist _); cbn [snd trace].
  - exact (dispatched_one c Hd).
  - rewrite existsb_app, (dispatched_one c Hd). cbn. apply orb_false_r.
Qed.

End OneRecipient.

(* a recipient without a phone number gets nothing *)
Lemma notify_trace_no_phone this persist u p emission :
  truthy (phone u) = false ->
  breaches emission p = true ->
  deliveries (notify_trace this persist u p emission) = [].
Proof.
  intros Hphone Hb. unfold notify_trace.
  assert (Hskip : forall type, skipped u type = true).
  { intro type. unfold skipped. rewrite Hphone. reflexivity. }
  assert (Hfan : forall type f message t0 rs d,
             fans_out this type message t0 (filter f [u]) rs d -> d = []).
  { intros type f message t0 rs d. cbn [filter]. destruct (f u); intro H.
    - inversion H as [| ? ? ? ? ? Hs Hrest | ? ? ? ? ? ? ? ? Hs]; subst.
      + inversion Hrest. reflexivity.
      + rewrite Hskip in Hs. discriminate.
    - inversion H. reflexivity. }
  destruct (checkEmissionParam_alert this persist [u] p
              {| doc := emission; trace := [] |} Hb)
    as (d & (rs1 & d1 & rs2 & d2 & -> & H1 & H2) & ->).
  rewrite (Hfan _ _ _ _ _ _ H1), (Hfan _ _ _ _ _ _ H2).
  cbn zeta. cbn [doc trace app]. destruct (persist _); reflexivity.
Qed.

(** C7, as the code has it.  The dispatch of an alert does not look at its
    severity.  For a recipient with a phone number, the channels used are the
    channels opted into, for an alert of severity High (Critical) and for one
    of severity Medium (Warning) alike; a recipient without a phone number
    gets no delivery in either case.  So the channels of a Critical alert
    contain (in fact equal) those of a Warning alert. *)
Theorem critical_and_warning_same_channels :
  forall (this : TwilioService) (persist : World Emission -> option Exn)
         (u : User) (p : Param) (e_critical e_warning : Emission),
    breaches e_critical p = true ->
    severity (alert_entry p (get e_critical p)) = High ->
    breaches e_warning p = true ->
    severity (alert_entry p (get e_warning p)) = Medium ->
    (forall to, phone u = Some to -> (to =? "")%string = false ->
        channels_used (notify_trace this persist u p e_critical) to = channels_opted u
        /\ channels_used (notify_trace this persist u p e_warning) to = channels_opted u)
    /\ (truthy (phone u) = false ->
        deliveries (notify_trace this persist u p e_critical) = []
        /\ deliveries (notify_trace this persist u p e_warning) = []).
Proof.
  intros this persist u p ec ew Hbc _ Hbw _. split.
  - intros to Hphone Hto. split; apply notify_trace_channels; assumption.
  - intro Hphone. split; apply notify_trace_no_phone; assumption.
Qed.

Lemma critical_and_warning_same_channels_witness :
  channels_used (notify_trace gateway_up never_rejects both_channels sox emission_260)
    "+911" = channels_opted both_channels
  /\ channels_used (notify_trace gateway_up never_rejects both_channels sox emission_210)
       "+911" = channels_opted both_channels.
Proof.
  refine (proj1 (critical_and_warning_same_channels gateway_up never_rejects
                   both_channels sox emission_260 emission_210 _ _ _ _) "+911" _ _);
    reflexivity.
Defined.

(** C7, as stated, fails.  For a recipient opted into both channels, the
    alert for sox at 210 against 200 has severity Medium (Warning) and is
    delivered over SMS and over WhatsApp, not over one channel. *)
Lemma warning_uses_every_channel :
  severity (alert_entry sox (get emission_210 sox)) = Medium
  /\ channels_used (notify_trace unconfigured never_rejects both_channels sox
                      emission_210) "+911" = [SMS; WhatsApp]
  /\ channels_used (notify_trace gateway_up never_rejects both_channels sox
                      emission_210) "+911" = [SMS; WhatsApp].
Proof. vm_compute. repeat split. Qed.

(** ** Claims on the equipment check *)

(* every delivery of a fan-out carries the message of the fan-out *)
Lemma sends_message this c to message t0 r d :
  sends this c to message t0 r d ->
  Forall (fun e => is_delivery e = true -> message_of e = Some message) d.
Proof.
  intro H. destruct H; destruct c; repeat constructor; cbn; congruence.
Qed.

Lemma fans_out_message this type message t0 users rs d :
  fans_out this type message t0 users rs d ->
  Forall (fun e => is_delivery e = true -> message_of e = Some message) d.
Proof.
  induction 1 as [t0 | t0 user rest rs d Hskip _ IH
                 | t0 user to rest r d1 rs d2 Hskip Hphone Hs _ IH].
  - constructor.
  - exact IH.
  - apply Forall_app. split; [exact (sends_message Hs) | exact IH].
Qed.

Lemma dispatched_message this users message t0 d :
  dispatched this users message t0 d ->
  Forall (fun e => is_delivery e = true -> message_of e = Some message) d.
Proof.
  intros (rs1 & d1 & rs2 & d2 & -> & H1 & H2).
  apply Forall_app. split; eapply fans_out_message; eassumption.
Qed.

Section MaintenanceFacts.

Variable this : TwilioService.
Variable persist : World Maintenance -> option Exn.
Variable users : list User.

Lemma checkMaintenanceThresholds_quiet (w : World Maintenance) :
  criticalIssues_of (doc w) = [] ->
  checkMaintenanceThresholds this persist users w = (Returned tt, w).
Proof.
  intro H. unfold checkMaintenanceThresholds, bind, gets. cbn beta iota.
  rewrite H. reflexivity.
Qed.

(* some issue: both fan-outs, then the anomalies, then the save *)
Lemma checkMaintenanceThresholds_alert (w : World Maintenance) :
  criticalIssues_of (doc w) <> [] ->
  exists d,
    dispatched this users
      (generateAlertMessage_maintenance (doc w) (criticalIssues_of (doc w))) (trace w) d
    /\ checkMaintenanceThresholds this persist users w
       = let w1 := {| doc := push_anomalies (criticalIssues_of (doc w)) (doc w);
                      trace := trace w ++ d |} in
         match persist w1 with
         | None =>
             (Returned tt,
              {| doc := doc w1;
                 trace := trace w1
                          ++ [Console (MaintenanceAlertSent (eq_name (equipment (doc w)))
                                         (List.length (criticalIssues_of (doc w))))] |})
         | Some e => (Thrown e, w1)
         end.
Proof.
  intro H.
  set (issues := criticalIssues_of (doc w)) in *.
  set (message := generateAlertMessage_maintenance (doc w) issues).
  destruct (sendAlert_run this message "sms"
              (filter (fun u => sms (notifications u)) users) w)
    as (rs1 & d1 & Hrun1 & Hfan1).
  destruct (sendAlert_run this message "whatsapp"
              (filter (fun u => whatsapp (notifications u)) users)
              {| doc := doc w; trace := trace w ++ d1 |})
    as (rs2 & d2 & Hrun2 & Hfan2).
  cbn [doc trace] in Hrun2, Hfan2.
  exists (d1 ++ d2). split.
  - exists rs1, d1, rs2, d2. auto.
  - unfold checkMaintenanceThresholds.
    unfold bind at 1. unfold gets at 1. cbn beta iota. fold issues.
    destruct issues as [|i issues'] eqn:Hi; [contradiction H; reflexivity |].
    cbn [List.length Nat.ltb Nat.leb when].
    unfold bind at 1. unfold gets at 1. cbn beta iota. fold message.
    unfold bind at 1. cbn zeta. unfold bind at 1. rewrite Hrun1.
    unfold bind at 1. rewrite Hrun2. unfold bind at 1. unfold ret at 1.
    unfold bind at 1. unfold update_doc, modify. cbn [doc trace].
    unfold bind at 1. unfold save. cbn [doc trace]. rewrite app_assoc.
    destruct (persist _); reflexivity.
Qed.

(* temperature 600 against 550 and nothing else out of range *)
Lemma temperature_600_only (w : World Maintenance) :
  temperature (parameters (doc w)) = Some 600 ->
  max (t_temperature (thresholds (doc w))) = 550 ->
  Num.gt (vibration (parameters (doc w)))
      (Some (max (t_vibration (thresholds (doc w))))) = false ->
  Num.gt (pressure (parameters (doc w)))
      (Some (max (t_pressure (thresholds (doc w))))) = false ->
  Num.lt (efficiency (parameters (doc w)))
      (Some (min (t_efficiency (thresholds (doc w))))) = false ->
  criticalIssues_of (doc w) = [TemperatureIssue (Some 600) 550].
Proof.
  intros Ht Hmax Hv Hp He. unfold criticalIssues_of.
  rewrite Ht, Hmax, Hv, Hp, He. reflexivity.
Qed.

End MaintenanceFacts.

(** C8, as the code has it.  An equipment snapshot with temperature 600
    against the maximum 550, nothing else out of range, has exactly one issue,
    the temperature.  The check has no factor 1.2 and no Warning: the message
    it builds carries the risk level High whatever the issues are, every
    delivery the check makes carries that message, and the anomaly it records
    for the temperature carries no severity. *)
Theorem temperature_600_one_issue_high_risk :
  forall (this : TwilioService) (persist : World Maintenance -> option Exn)
         (users : list User) (w : World Maintenance),
    temperature (parameters (doc w)) = Some 600 ->
    max (t_temperature (thresholds (doc w))) = 550 ->
    Num.gt (vibration (parameters (doc w)))
      (Some (max (t_vibration (thresholds (doc w))))) = false ->
    Num.gt (pressure (parameters (doc w)))
      (Some (max (t_pressure (thresholds (doc w))))) = false ->
    Num.lt (efficiency (parameters (doc w)))
      (Some (min (t_efficiency (thresholds (doc w))))) = false ->
    criticalIssues_of (doc w) = [TemperatureIssue (Some 600) 550]
    /\ (forall issues,
           riskLevel_of (generateAlertMessage_maintenance (doc w) issues) = Some High)
    /\ (exists d,
           trace (snd (checkMaintenanceThresholds this persist users w)) = trace w ++ d
           /\ Forall (fun e =>
                        is_delivery e = true ->
                        message_of e
                        = Some (MaintenanceMessage (eq_name (equipment (doc w))) High
                                  [TemperatureIssue (Some 600) 550])) d)
    /\ anomalies_of (doc (snd (checkMaintenanceThresholds this persist users w)))
       = anomalies_of (doc w) ++ [ {| an_parameter := "Temperature" |} ].
Proof.
  intros this persist users w Ht Hmax Hv Hp He.
  pose proof (temperature_600_only w Ht Hmax Hv Hp He) as Hissues.
  assert (Hne : criticalIssues_of (doc w) <> []) by (rewrite Hissues; discriminate).
  destruct (checkMaintenanceThresholds_alert this persist users w Hne) as (d & Hd & Hrun).
  rewrite Hissues in Hd, Hrun. cbn zeta in Hrun.
  split; [exact Hissues |]. split; [reflexivity |]. split.
  - pose proof (dispatched_message Hd) as Hmsg. rewrite Hrun.
    destruct (persist _); cbn [snd trace doc].
    + exists d. split; [reflexivity | exact Hmsg].
    + eexists. split; [symmetry; apply app_assoc |].
      apply Forall_app. split; [exact Hmsg |].
      constructor; [discriminate | constructor].
  - rewrite Hrun. destruct (persist _); reflexivity.
Qed.

Lemma temperature_600_one_issue_high_risk_witness :
  criticalIssues_of maintenance_600 = [TemperatureIssue (Some 600) 550]
  /\ anomalies_of (doc (snd (checkMaintenanceThresholds unconfigured never_rejects
                               [both_channels]
                               {| doc := maintenance_600; trace := [] |})))
     = anomalies_of maintenance_600 ++ [ {| an_parameter := "Temperature" |} ].
Proof.
  destruct (temperature_600_one_issue_high_risk unconfigured never_rejects
              [both_channels] {| doc := maintenance_600; trace := [] |})
    as (H1 & _ & _ & H4); try reflexivity.
  split; [exact H1 | exact H4].
Defined.

(** C8, as stated, fails.  For temperature 600 against 550 the check finds
    one issue, and 600 is indeed not above 550 * 1.2; yet the alert goes out
    with risk level High, not Medium: the recipient is sent the message
    marked High over both channels. *)
Lemma temperature_600_sent_as_high :
  criticalIssues_of maintenance_600 = [TemperatureIssue (Some 600) 550]
  /\ XNum.gt (Finite 600) (Double.mul (Finite 550) (Finite one_point_two)) = false
  /\ riskLevel_of (generateAlertMessage_maintenance maintenance_600
                     (criticalIssues_of maintenance_600)) = Some High
  /\ trace (snd (checkMaintenanceThresholds unconfigured never_rejects [both_channels]
                   {| doc := maintenance_600; trace := [] |}))
     = [Console (MockSMS "+911"
                   (MaintenanceMessage "Boiler-1" High
                      [TemperatureIssue (Some 600) 550]));
        Console (MockWhatsApp "+911"
                   (MaintenanceMessage "Boiler-1" High
                      [TemperatureIssue (Some 600) 550]));
        Console (MaintenanceAlertSent "Boiler-1" 1)].
Proof. vm_compute. repeat split. Qed.

(** ** Claims on the cycle and the scheduler *)

Section CycleFacts.

Variables Load Ash : Type.
Variable twilioService : TwilioService.
Variable persist_emission : World Emission -> option Exn.
Variable persist_maintenance : World Maintenance -> option Exn.
Variable Emission_findOne : M (World unit) (option Emission).
Variable Maintenance_findOne : M (World unit) (option Maintenance).
Variable Load_findOne : M (World unit) (option Load).
Variable Ash_findOne : M (World unit) (option Ash).
Variable User_find : (User -> bool) -> M (World unit) (list User).
Variable checkLoadThresholds : Load -> list User -> M (World unit) unit.
Variable checkAshThresholds : Ash -> list User -> M (World unit) unit.
Variable generateMockData : M (World unit) unit.

Let check : M (World unit) unit :=
  checkThresholds twilioService persist_emission persist_maintenance
    Emission_findOne Maintenance_findOne Load_findOne Ash_findOne User_find
    checkLoadThresholds checkAshThresholds.

Let callback : M (World unit) unit :=
  cron_callback twilioService persist_emission persist_maintenance
    Emission_findOne Maintenance_findOne Load_findOne Ash_findOne User_find
    checkLoadThresholds checkAshThresholds generateMockData.

Let run_ticks (n : nat) : M (World unit) unit :=
  ticks twilioService persist_emission persist_maintenance
    Emission_findOne Maintenance_findOne Load_findOne Ash_findOne User_find
    checkLoadThresholds checkAshThresholds generateMockData n.

Let sched_step : Scheduler -> Event -> Scheduler :=
  step twilioService persist_emission persist_maintenance
    Emission_findOne Maintenance_findOne Load_findOne Ash_findOne User_find
    checkLoadThresholds checkAshThresholds generateMockData.

Let sched_run : Scheduler -> list Event -> Scheduler :=
  run_events twilioService persist_emission persist_maintenance
    Emission_findOne Maintenance_findOne Load_findOne Ash_findOne User_find
    checkLoadThresholds checkAshThresholds generateMockData.

Let next : Place -> World unit -> option Place * World unit :=
  advance twilioService persist_emission persist_maintenance
    Emission_findOne Maintenance_findOne Load_findOne Ash_findOne User_find
    checkLoadThresholds checkAshThresholds generateMockData.

Let resume : nat -> list Place -> World unit -> list Place * World unit :=
  resume_at twilioService persist_emission persist_maintenance
    Emission_findOne Maintenance_findOne Load_findOne Ash_findOne User_find
    checkLoadThresholds checkAshThresholds generateMockData.

Lemma checkThresholds_returns (w : World unit) : returns check w.
Proof. apply try_catch_returns. intros e s'. apply console_returns. Qed.

Lemma cron_callback_returns (w : World unit) : returns callback w.
Proof. apply try_catch_returns. intros e s'. apply console_returns. Qed.

Lemma ticks_returns (n : nat) : forall w : World unit, returns (run_ticks n) w.
Proof.
  induction n as [|n IH]; intro w.
  - exists tt, w. reflexivity.
  - destruct (cron_callback_returns w) as (a & w' & Hrun).
    destruct (IH w') as (b & w'' & Hrest).
    exists b, w''. unfold run_ticks. cbn [ticks].
    fold callback. rewrite (bind_returned _ _ _ Hrun). exact Hrest.
Qed.

(* a store read that throws ends the check in its catch: logged, returned *)
Lemma checkThresholds_logs_failed_read (w w' : World unit) (e : Exn) :
  Emission_findOne w = (Thrown e, w') ->
  check w = (Returned tt,
             {| doc := doc w';
                trace := trace w' ++ [Console (ErrorCheckingThresholds e)] |}).
Proof.
  intro H. unfold check, checkThresholds, try_catch.
  rewrite (bind_thrown _ _ _ H). reflexivity.
Qed.

(* a tick starts an invocation, whatever is in flight *)
Lemma tick_starts_invocation (s : Scheduler) :
  in_flight (sched_step s Tick) = in_flight s ++ [AtGenerateMockData]
  /\ world (sched_step s Tick) = world s.
Proof. split; reflexivity. Qed.

Lemma ticks_accumulate (k : nat) : forall s : Scheduler,
  List.length (in_flight (sched_run s (repeat Tick k)))
  = (List.length (in_flight s) + k)%nat.
Proof.
  unfold sched_run, run_events.
  induction k as [|k IH]; intro s; cbn [repeat fold_left].
  - lia.
  - rewrite IH. cbn [step in_flight]. rewrite length_app. cbn. lia.
Qed.

(* an invocation left alone does what the callback does *)
Lemma lone_invocation_is_callback (w : World unit) :
  sched_run {| world := w; in_flight := [] |} [Tick; Resume 0; Resume 0]
  = {| world := snd (callback w); in_flight := [] |}.
Proof.
  unfold sched_run, run_events, callback, cron_callback. cbn [fold_left].
  unfold step at 3. cbn [in_flight world app].
  unfold step at 2. cbn [in_flight world resume_at advance].
  unfold try_catch, bind.
  destruct (generateMockData w) as [[[] | e] w1].
  - unfold step. cbn [in_flight world resume_at advance].
    fold check.
    destruct (check w1) as [[[] | e] w2]; reflexivity.
  - reflexivity.
Qed.

(* resuming the invocation at place [i] runs its next part on the world as
   it is, and leaves the other invocations where they are *)
Lemma resume_at_nth (l : list Place) : forall (i : nat) (p : Place) (w : World unit),
  nth_error l i = Some p ->
  resume i l w
  = (firstn i l ++ rest_of (fst (next p w)) ++ skipn (S i) l, snd (next p w)).
Proof.
  unfold resume, next.
  induction l as [|x l IH]; intros i p w H; destruct i as [|i]; try discriminate.
  - cbn in H. injection H as ->. cbn [resume_at firstn skipn app].
    destruct (advance _ _ _ _ _ _ _ _ _ _ _ p w) as [[p' |] w']; reflexivity.
  - cbn in H. cbn [resume_at]. rewrite (IH i p w H). reflexivity.
Qed.

Lemma resume_at_beyond (l : list Place) : forall (i : nat) (w : World unit),
  (List.length l <= i)%nat -> resume i l w = (l, w).
Proof.
  unfold resume.
  induction l as [|x l IH]; intros i w H; [destruct i; reflexivity |].
  destruct i as [|i]; [cbn in H; lia |].
  cbn [resume_at]. rewrite IH by (cbn in H; lia). reflexivity.
Qed.

Lemma resume_newest (l : list Place) (p : Place) (w : World unit) :
  resume (List.length l) (l ++ [p]) w
  = (l ++ rest_of (fst (next p w)), snd (next p w)).
Proof.
  rewrite (@resume_at_nth (l ++ [p]) (List.length l) p w).
  - rewrite firstn_app, Nat.sub_diag, firstn_all. cbn [firstn].
    rewrite app_nil_r.
    rewrite skipn_all2 by (rewrite length_app; cbn; lia).
    rewrite app_nil_r. reflexivity.
  - rewrite nth_error_app2 by lia. rewrite Nat.sub_diag. reflexivity.
Qed.

(* an invocation started while others are in flight does what the callback
   does, on the world as it is; the others stay where they are *)
Lemma overlapping_invocation_is_callback (s : Scheduler) :
  sched_run s [Tick; Resume (List.length (in_flight s));
               Resume (List.length (in_flight s))]
  = {| world := snd (callback (world s)); in_flight := in_flight s |}.
Proof.
  destruct s as [w l].
  unfold sched_run, run_events, callback, cron_callback. cbn [fold_left in_flight world].
  unfold step at 3. cbn [in_flight world].
  unfold step at 2. cbn [in_flight world]. fold resume.
  rewrite resume_newest. unfold next at 1 2. cbn [advance].
  unfold try_catch, bind.
  destruct (generateMockData w) as [[[] | e] w1]; cbn [fst snd rest_of].
  - unfold step. cbn [in_flight world]. fold resume.
    rewrite resume_newest. unfold next. cbn [advance]. fold check.
    destruct (check w1) as [[[] | e] w2]; cbn [fst snd rest_of];
      rewrite app_nil_r; reflexivity.
  - unfold step. cbn [in_flight world]. fold resume.
    rewrite app_nil_r. rewrite resume_at_beyond by lia. reflexivity.
Qed.

End CycleFacts.

(** C4. Whatever the store, the gateway, the saves, the load and ash checks
    and the data generator do, checkThresholds returns: an exception thrown
    in its body (a store read that throws is the first case) ends in its
    catch, which logs it.  The cron callback returns as well, and so does any
    number of ticks run one after the other: every tick is run. *)
Theorem cycle_never_throws :
  forall (Load Ash : Type) (twilioService : TwilioService)
         (persist_emission : World Emission -> option Exn)
         (persist_maintenance : World Maintenance -> option Exn)
         (Emission_findOne : M (World unit) (option Emission))
         (Maintenance_findOne : M (World unit) (option Maintenance))
         (Load_findOne : M (World unit) (option Load))
         (Ash_findOne : M (World unit) (option Ash))
         (User_find : (User -> bool) -> M (World unit) (list User))
         (checkLoadThresholds : Load -> list User -> M (World unit) unit)
         (checkAshThresholds : Ash -> list User -> M (World unit) unit)
         (generateMockData : M (World unit) unit)
         (w : World unit),
    returns (checkThresholds twilioService persist_emission persist_maintenance
               Emission_findOne Maintenance_findOne Load_findOne Ash_findOne
               User_find checkLoadThresholds checkAshThresholds) w
    /\ returns (cron_callback twilioService persist_emission persist_maintenance
                  Emission_findOne Maintenance_findOne Load_findOne Ash_findOne
                  User_find checkLoadThresholds checkAshThresholds
                  generateMockData) w
    /\ (forall n,
           returns (ticks twilioService persist_emission persist_maintenance
                      Emission_findOne Maintenance_findOne Load_findOne Ash_findOne
                      User_find checkLoadThresholds checkAshThresholds
                      generateMockData n) w)
    /\ (forall e w',
           Emission_findOne w = (Thrown e, w') ->
           checkThresholds twilioService persist_emission persist_maintenance
             Emission_findOne Maintenance_findOne Load_findOne Ash_findOne
             User_find checkLoadThresholds checkAshThresholds w
           = (Returned tt,
              {| doc := doc w';
                 trace := trace w' ++ [Console (ErrorCheckingThresholds e)] |})).
Proof.
  intros. split; [| split; [| split]].
  - apply checkThresholds_returns.
  - apply cron_callback_returns.
  - intro n. apply ticks_returns.
  - intros e w' H. apply checkThresholds_logs_failed_read. exact H.
Qed.

Lemma cycle_never_throws_witness :
  checkThresholds (Load:=unit) (Ash:=unit) unconfigured never_rejects never_rejects
    (throw "store unreachable") (ret None) (ret None) (ret None)
    (directory_of [both_channels]) (fun _ _ => ret tt) (fun _ _ => ret tt)
    {| doc := tt; trace := [] |}
  = (Returned tt,
     {| doc := tt;
        trace := [] ++ [Console (ErrorCheckingThresholds "store unreachable")] |}).
Proof.
  refine (proj2 (proj2 (proj2
            (cycle_never_throws (Load:=unit) (Ash:=unit) unconfigured never_rejects
               never_rejects (throw "store unreachable") (ret None) (ret None)
               (ret None) (directory_of [both_channels]) (fun _ _ => ret tt)
               (fun _ _ => ret tt) (ret tt) {| doc := tt; trace := [] |})))
            "store unreachable" {| doc := tt; trace := [] |} _).
  reflexivity.
Defined.

(** C5, as the code has it.  The callback given to cron.schedule tests no
    flag: a tick starts an invocation whatever is in flight and leaves the
    world as it is, so [k] ticks in a row leave [k] more invocations in
    flight.  An invocation that runs alone does what the callback does, and
    so does an invocation started while others are in flight: resumed to its
    end it has run generateMockData and checkThresholds on the world as it
    then is, reading the latest snapshot and dispatching for it, and the other
    invocations are where they were.  Resuming any invocation runs its next
    part on the current world. *)
Theorem tick_always_starts_a_cycle :
  forall (Load Ash : Type) (twilioService : TwilioService)
         (persist_emission : World Emission -> option Exn)
         (persist_maintenance : World Maintenance -> option Exn)
         (Emission_findOne : M (World unit) (option Emission))
         (Maintenance_findOne : M (World unit) (option Maintenance))
         (Load_findOne : M (World unit) (option Load))
         (Ash_findOne : M (World unit) (option Ash))
         (User_find : (User -> bool) -> M (World unit) (list User))
         (checkLoadThresholds : Load -> list User -> M (World unit) unit)
         (checkAshThresholds : Ash -> list User -> M (World unit) unit)
         (generateMockData : M (World unit) unit)
         (s : Scheduler),
    in_flight (step twilioService persist_emission persist_maintenance
                 Emission_findOne Maintenance_findOne Load_findOne Ash_findOne
                 User_find checkLoadThresholds checkAshThresholds
                 generateMockData s Tick)
    = in_flight s ++ [AtGenerateMockData]
    /\ world (step twilioService persist_emission persist_maintenance
                Emission_findOne Maintenance_findOne Load_findOne Ash_findOne
                User_find checkLoadThresholds checkAshThresholds
                generateMockData s Tick)
       = world s
    /\ (forall k,
           List.length
             (in_flight (run_events twilioService persist_emission persist_maintenance
                           Emission_findOne Maintenance_findOne Load_findOne
                           Ash_findOne User_find checkLoadThresholds
                           checkAshThresholds generateMockData s (repeat Tick k)))
           = (List.length (in_flight s) + k)%nat)
    /\ (forall w,
           run_events twilioService persist_emission persist_maintenance
             Emission_findOne Maintenance_findOne Load_findOne Ash_findOne
             User_find checkLoadThresholds checkAshThresholds generateMockData
             {| world := w; in_flight := [] |} [Tick; Resume 0; Resume 0]
           = {| world := snd (cron_callback twilioService persist_emission
                                persist_maintenance Emission_findOne
                                Maintenance_findOne Load_findOne Ash_findOne
                                User_find checkLoadThresholds checkAshThresholds
                                generateMockData w);
                in_flight := [] |})
    /\ run_events twilioService persist_emission persist_maintenance
         Emission_findOne Maintenance_findOne Load_findOne Ash_findOne
         User_find checkLoadThresholds checkAshThresholds generateMockData
         s [Tick; Resume (List.length (in_flight s)); Resume (List.length (in_flight s))]
       = {| world := snd (cron_callback twilioService persist_emission
                            persist_maintenance Emission_findOne
                            Maintenance_findOne Load_findOne Ash_findOne
                            User_find checkLoadThresholds checkAshThresholds
                            generateMockData (world s));
            in_flight := in_flight s |}
    /\ (forall i p,
           nth_error (in_flight s) i = Some p ->
           let after := advance twilioService persist_emission persist_maintenance
                          Emission_findOne Maintenance_findOne Load_findOne
                          Ash_findOne User_find checkLoadThresholds
                          checkAshThresholds generateMockData p (world s) in
           step twilioService persist_emission persist_maintenance
             Emission_findOne Maintenance_findOne Load_findOne Ash_findOne
             User_find checkLoadThresholds checkAshThresholds generateMockData
             s (Resume i)
           = {| world := snd after;
                in_flight := firstn i (in_flight s) ++ rest_of (fst after)
                             ++ skipn (S i) (in_flight s) |}).
Proof.
  intros. split; [| split; [| split; [| split; [| split]]]].
  - reflexivity.
  - reflexivity.
  - intro k. apply ticks_accumulate.
  - intro w. apply lone_invocation_is_callback.
  - apply overlapping_invocation_is_callback.
  - intros i p Hnth. cbn zeta. unfold step.
    erewrite resume_at_nth; [reflexivity | exact Hnth].
Qed.

Lemma tick_always_starts_a_cycle_witness :
  let s1 := sample_step idle Tick in
  in_flight (sample_step s1 Tick) = in_flight s1 ++ [AtGenerateMockData]
  /\ fold_left sample_step [Tick; Resume 1; Resume 1] s1
     = {| world := snd (cron_callback (Load:=unit) (Ash:=unit) unconfigured
                          never_rejects never_rejects
                          (ret (Some emission_260)) (ret None) (ret None) (ret None)
                          (directory_of [both_channels])
                          (fun _ _ => ret tt) (fun _ _ => ret tt) (ret tt)
                          (world s1));
          in_flight := in_flight s1 |}
  /\ sample_step s1 (Resume 0)
     = {| world := world s1; in_flight := [AtCheckThresholds] |}.
Proof.
  intro s1.
  destruct (@tick_always_starts_a_cycle unit unit unconfigured
              never_rejects never_rejects
              (ret (Some emission_260)) (ret None) (ret None) (ret None)
              (directory_of [both_channels])
              (fun _ _ => ret tt) (fun _ _ => ret tt) (ret tt) s1)
    as (H1 & _ & _ & _ & H5 & H6).
  split; [exact H1 |]. split; [exact H5 |].
  exact (H6 0%nat AtGenerateMockData eq_refl).
Defined.

(** C5, as stated, fails.  A first tick leaves the scheduler running; the
    second tick is not skipped: two invocations are in flight.  Run to their
    end, both have read the same snapshot and each has made the two
    deliveries of its alert: four deliveries where one cycle makes two. *)
Lemma tick_while_running_not_skipped :
  let s1 := sample_step idle Tick in
  let once := fold_left sample_step [Tick; Resume 0; Resume 0] idle in
  let twice := fold_left sample_step
                 [Tick; Tick; Resume 0; Resume 1; Resume 0; Resume 0] idle in
  is_running s1 = true
  /\ sample_step s1 Tick <> s1
  /\ in_flight (sample_step s1 Tick) = [AtGenerateMockData; AtGenerateMockData]
  /\ in_flight once = []
  /\ List.length (deliveries (trace (world once))) = 2%nat
  /\ in_flight twice = []
  /\ List.length (deliveries (trace (world twice))) = 4%nat.
Proof.
  cbv zeta. split; [reflexivity |]. split; [discriminate |].
  vm_compute. repeat split.
Qed.

(** ** Claims on the summaries *)

Lemma count_complement {A} (p : A -> bool) (l : list A) :
  (count p l + count (fun x => negb (p x)) l = List.length l)%nat.
Proof.
  unfold count. induction l as [|x l IH]; [reflexivity|].
  cbn [filter]. destruct (p x); cbn [negb List.length]; lia.
Qed.

Lemma count_success_not rs :
  (count_success rs + count_not_success rs = List.length rs)%nat.
Proof. exact (count_complement (fun r => success (r_result r)) rs). Qed.

Lemma count_success_split rs :
  Forall mock_ok rs ->
  count_success rs = (count is_live_success rs + count is_simulated rs)%nat.
Proof.
  unfold count_success, count, is_live_success, is_simulated.
  induction 1 as [|r rs Hr _ IH]; [reflexivity|].
  cbn [filter]. unfold mock_ok in Hr.
  destruct (success (r_result r)) eqn:Hs, (mock (r_result r)) eqn:Hm;
    cbn [andb negb List.length]; try lia.
Qed.

Lemma results_partition rs :
  Forall mock_ok rs ->
  List.length rs
  = (count is_live_success rs + count is_failure rs + count is_simulated rs)%nat.
Proof.
  intro H. rewrite <- (count_success_not rs), (count_success_split H).
  unfold count_not_success, count, is_failure. lia.
Qed.

Lemma mock_ok_with_type type rs :
  Forall mock_ok rs -> Forall mock_ok (map (with_type type) rs).
Proof.
  induction 1; cbn [map]; constructor; auto.
Qed.

Section RouteFacts.

Variable this : TwilioService.
Variable User_find : (User -> bool) -> M (World unit) (list User).

(* the handler of /send-sms and /send-whatsapp once the request is valid and
   the query has found users *)
Lemma send_to_users_sent (flag : Notifications -> bool) (type sent : string)
    (userIds : list string) (message : string) (urgent : bool)
    (w w1 : World unit) (users : list User) :
  userIds <> [] ->
  message <> ""%string ->
  User_find (fun u => existsb (String.eqb (_id u)) userIds
                      && isActive u && flag (notifications u)) w
  = (Returned users, w1) ->
  users <> [] ->
  exists results d,
    fans_out this type (if urgent then Urgent message else Plain message)
      (trace w1) users results d
    /\ send_to_users this User_find flag type sent userIds message urgent w
       = (Returned (Sent sent results (summary_of users results)),
          {| doc := doc w1; trace := trace w1 ++ d |}).
Proof.
  intros Hids Hmsg Hfind Husers.
  destruct (sendAlert_run this (if urgent then Urgent message else Plain message)
              type users w1) as (results & d & Hrun & Hfan).
  exists results, d. split; [exact Hfan |].
  unfold send_to_users, try_catch.
  destruct userIds as [|i ids]; [contradiction Hids; reflexivity |].
  cbn [List.length Nat.eqb].
  destruct (String.eqb_spec message ""); [contradiction |].
  rewrite (bind_returned _ _ _ Hfind).
  destruct users as [|u us]; [contradiction Husers; reflexivity |].
  cbn [List.length Nat.eqb]. cbn zeta.
  rewrite (bind_returned _ _ _ Hrun). reflexivity.
Qed.

(* one of the two blocks of /broadcast *)
Lemma broadcast_block (requested : bool) (l : list User) message type (w : World unit) :
  exists rs d,
    (if requested
     then if (0 <? List.length l)%nat
          then rs <- sendAlert this l message type ;; ret (map (with_type type) rs)
          else ret []
     else ret []) w
    = (Returned rs, {| doc := doc w; trace := trace w ++ d |})
    /\ Forall mock_ok rs.
Proof.
  destruct requested; [destruct (0 <? List.length l)%nat |].
  - destruct (sendAlert_run this message type l w) as (rs & d & Hrun & Hfan).
    exists (map (with_type type) rs), d. split.
    + rewrite (bind_returned _ _ _ Hrun). reflexivity.
    + apply mock_ok_with_type. exact (fans_out_mock_success Hfan).
  - exists [], []. rewrite app_nil_r. destruct w. split; [reflexivity | constructor].
  - exists [], []. rewrite app_nil_r. destruct w. split; [reflexivity | constructor].
Qed.

(* what /broadcast answers *)
Lemma broadcast_answer message type urgent departments (w : World unit) :
  exists resp w',
    broadcast this User_find message type urgent departments w = (Returned resp, w')
    /\ match resp with
       | BroadcastSent results summary =>
           Forall mock_ok results
           /\ exists users, summary = broadcast_summary_of users results
       | Sent _ _ _ => False
       | _ => True
       end.
Proof.
  unfold broadcast, try_catch.
  destruct (message =? "")%string.
  { eexists. eexists. split; [reflexivity | exact I]. }
  unfold bind at 1.
  destruct (User_find _ w) as [[users | e] w1].
  2:{ eexists. eexists. split; [reflexivity | exact I]. }
  destruct (Nat.eqb (List.length users) 0).
  { eexists. eexists. split; [reflexivity | exact I]. }
  cbn zeta.
  set (finalMessage := if urgent then UrgentBroadcast message else Broadcast message).
  destruct (broadcast_block ((type =? "sms")%string || (type =? "both")%string)
              (filter (fun u => sms (notifications u)) users) finalMessage "sms" w1)
    as (rs1 & d1 & Hrun1 & Hok1).
  destruct (broadcast_block ((type =? "whatsapp")%string || (type =? "both")%string)
              (filter (fun u => whatsapp (notifications u)) users) finalMessage
              "whatsapp" {| doc := doc w1; trace := trace w1 ++ d1 |})
    as (rs2 & d2 & Hrun2 & Hok2).
  rewrite (bind_returned _ _ _ Hrun1), (bind_returned _ _ _ Hrun2).
  eexists. eexists. split; [reflexivity |]. split.
  - apply Forall_app. split; assumption.
  - exists users. reflexivity.
Qed.

End RouteFacts.

(** X24.  The counts of a fan-out.  The summaries report two counts of
    outcomes, successful and failed; a mocked delivery is counted among the
    successful.  For every fan-out the number of entries, one per delivery
    made, is the live successes plus the failures plus the mocked deliveries,
    and successful + failed is that number.  /broadcast reports that number
    as attempted.  In /send-sms and /send-whatsapp attempted is successful +
    failed whenever none of the users found is skipped. *)
Theorem summary_counts :
  (forall (D : Type) (this : TwilioService) (users : list User)
          (message : Message) (type : string) (w : World D),
      exists results w',
        sendAlert this users message type w = (Returned results, w')
        /\ List.length results
           = (count is_live_success results + count is_failure results
              + count is_simulated results)%nat
        /\ count_success results
           = (count is_live_success results + count is_simulated results)%nat
        /\ (count_success results + count_not_success results
            = List.length results)%nat)
  /\ (forall (this : TwilioService)
             (User_find : (User -> bool) -> M (World unit) (list User))
             (message type : string) (urgent : bool) (departments : list string)
             (w : World unit),
         exists resp w',
           broadcast this User_find message type urgent departments w
           = (Returned resp, w')
           /\ forall results summary,
                resp = BroadcastSent results summary ->
                b_attempted summary = (b_successful summary + b_failed summary)%nat
                /\ b_attempted summary
                   = (count is_live_success results + count is_failure results
                      + count is_simulated results)%nat)
  /\ (forall (this : TwilioService)
             (User_find : (User -> bool) -> M (World unit) (list User))
             (flag : Notifications -> bool) (type sent : string)
             (userIds : list string) (message : string) (urgent : bool)
             (w w1 : World unit) (users : list User),
         userIds <> [] ->
         message <> ""%string ->
         User_find (fun u => existsb (String.eqb (_id u)) userIds
                             && isActive u && flag (notifications u)) w
         = (Returned users, w1) ->
         users <> [] ->
         forallb (fun u => negb (skipped u type)) users = true ->
         exists results w',
           send_to_users this User_find flag type sent userIds message urgent w
           = (Returned (Sent sent results (summary_of users results)), w')
           /\ attempted (summary_of users results)
              = (successful (summary_of users results)
                 + failed (summary_of users results))%nat
           /\ attempted (summary_of users results)
              = (count is_live_success results + count is_failure results
                 + count is_simulated results)%nat).
Proof.
  split; [| split].
  - intros D this users message type w.
    destruct (sendAlert_run this message type users w) as (results & d & Hrun & Hfan).
    pose proof (fans_out_mock_success Hfan) as Hok.
    exists results. eexists. split; [exact Hrun |].
    split; [exact (results_partition Hok) |].
    split; [exact (count_success_split Hok) | apply count_success_not].
  - intros this User_find message type urgent departments w.
    destruct (broadcast_answer this User_find message type urgent departments w)
      as (resp & w' & Hrun & Hresp).
    exists resp, w'. split; [exact Hrun |].
    intros results summary ->. destruct Hresp as (Hok & users & ->).
    cbn [b_attempted b_successful b_failed broadcast_summary_of]. split.
    + symmetry. apply count_success_not.
    + exact (results_partition Hok).
  - intros this User_find flag type sent userIds message urgent w w1 users
           Hids Hmsg Hfind Husers Hall.
    destruct (@send_to_users_sent this User_find flag type sent userIds message
                urgent w w1 users Hids Hmsg Hfind Husers)
      as (results & d & Hfan & Hrun).
    exists results. eexists. split; [exact Hrun |].
    pose proof (Forall2_length (fans_out_entries Hfan)) as Hlen.
    rewrite (recipients_all _ _ Hall) in Hlen.
    cbn [attempted successful failed summary_of]. rewrite <- Hlen. split.
    + symmetry. apply count_success_not.
    + exact (results_partition (fans_out_mock_success Hfan)).
Qed.

Lemma summary_counts_witness :
  exists results w',
    send_to_users unconfigured (directory_of [both_channels; sms_only]) sms "sms"
      "SMS notifications sent" ["u1"; "u2"] "test" false {| doc := tt; trace := [] |}
    = (Returned (Sent "SMS notifications sent" results
                   (summary_of [both_channels; sms_only] results)), w')
    /\ attempted (summary_of [both_channels; sms_only] results)
       = (successful (summary_of [both_channels; sms_only] results)
          + failed (summary_of [both_channels; sms_only] results))%nat
    /\ attempted (summary_of [both_channels; sms_only] results)
       = (count is_live_success results + count is_failure results
          + count is_simulated results)%nat.
Proof.
  apply (proj2 (proj2 summary_counts) unconfigured
           (directory_of [both_channels; sms_only]) sms "sms"
           "SMS notifications sent" ["u1"; "u2"] "test" false
           {| doc := tt; trace := [] |} {| doc := tt; trace := [] |}
           [both_channels; sms_only]).
  - discriminate.
  - discriminate.
  - reflexivity.
  - discriminate.
  - reflexivity.
Defined.

(** C6.  The code at the input where it breaks the equation.  The one user
    found has opted into SMS and has no phone number: sendAlert skips them and
    no delivery is attempted.  /send-sms reports attempted 1, the number of
    users found, with successful 0 and failed 0, and nothing was mocked.
    /broadcast, on the same directory, reports the number of entries:
    attempted 0. *)
Theorem send_sms_counts_skipped_user :
  send_sms unconfigured (directory_of [no_phone]) ["u3"] "test" false
    {| doc := tt; trace := [] |}
  = (Returned (Sent "SMS notifications sent" []
                 {| attempted := 1; successful := 0; failed := 0 |}),
     {| doc := tt; trace := [] |})
  /\ (attempted {| attempted := 1; successful := 0; failed := 0 |}
      <> successful {| attempted := 1; successful := 0; failed := 0 |}
         + failed {| attempted := 1; successful := 0; failed := 0 |}
         + count is_simulated [])%nat
  /\ broadcast unconfigured (directory_of [no_phone]) "test" "sms" false []
       {| doc := tt; trace := [] |}
     = (Returned (BroadcastSent []
                    {| totalUsers := 1; b_attempted := 0; b_successful := 0;
                       b_failed := 0 |}),
        {| doc := tt; trace := [] |}).
Proof.
  split; [vm_compute; reflexivity |]. split; [discriminate | vm_compute; reflexivity].
Qed.

(** ** The model of doubles against the primitive floats *)

Module Binary64Facts.

Import PrimFloat.

(* the rounded operations of [Double] are those of the floats, on the samples:
   products that round up and down, ties, subnormal results, overflow *)
Lemma rounding_agrees_with_binary64 :
  forallb (Binary64.agree mul Qmult) Binary64.samples = true
  /\ forallb (Binary64.agree div Qdiv) Binary64.samples = true
  /\ forallb (Binary64.agree add Qplus) Binary64.samples = true.
Proof. vm_compute. repeat split. Qed.

#[warnings="-inexact-float"]
Lemma binary64_scenarios :
  Binary64.alert 260 200 = Some High
  /\ Binary64.alert 210 200 = Some Medium
  /\ Binary64.alert 240 200 = Some Medium
  /\ Binary64.alert 200 200 = None
  /\ Binary64.alert 3.6 3 = Some High
  /\ Binary64.alert 8.4 7 = Some Medium
  /\ Binary64.severity 600 550 = Medium.
Proof. vm_compute. repeat split. Qed.

(* the same scenarios in the model *)
Lemma model_scenarios :
  map severity (raised (emission_with (reading 260 200))) = [High]
  /\ map severity (raised (emission_with (reading 210 200))) = [Medium]
  /\ map severity (raised (emission_with (reading 240 200))) = [Medium]
  /\ raised (emission_with (reading 200 200)) = []
  /\ map severity (raised (emission_with (reading (Double.nearest (36 # 10)) 3)))
     = [High]
  /\ map severity (raised (emission_with (reading (Double.nearest (84 # 10)) 7)))
     = [Medium].
Proof. vm_compute. repeat split. Qed.

End Binary64Facts.

(** * Further properties *)

(** ** The fan-out with and without a gateway *)



Lemma all_mock_count_success rs :
  Forall (fun r => r_result r = mockResult) rs ->
  count_success rs = List.length rs.
Proof.
  unfold count_success. induction 1 as [|r rs Hr _ IH]; [reflexivity|].
  cbn [filter]. rewrite Hr. cbn. rewrite IH. reflexivity.
Qed.

(** X1. Without a client, a fan-out of any size makes no call to the
    gateway; every user that is not skipped gets an entry, every entry is the
    mocked success, and all of them count as successful. *)
Theorem fanout_without_client_is_all_mocked :
  forall (D : Type) (this : TwilioService) (users : list User)
         (message : Message) (type : string) (w : World D),
    client this = None ->
    exists results d,
      sendAlert this users message type w
      = (Returned results, {| doc := doc w; trace := trace w ++ d |})
      /\ net_calls d = []
      /\ Forall (fun r => r_result r = mockResult) results
      /\ List.length results = List.length (recipients type users)
      /\ count_success results = List.length results.
Proof.
  intros D this users message type w Hc.
  destruct (sendAlert_run this message type users w) as (results & d & Hrun & Hfan).
  destruct (fans_out_unconfigured Hc Hfan) as [Hn Hall].
  exists results, d. split; [exact Hrun |]. split; [exact Hn |].
  split; [exact Hall |]. split.
  - exact (Forall2_length (fans_out_entries Hfan)).
  - exact (all_mock_count_success Hall).
Qed.

Lemma fanout_without_client_is_all_mocked_witness :
  exists results d,
    sendAlert unconfigured [both_channels; no_phone; sms_only] (Plain "drill") "sms"
      {| doc := tt; trace := [] |}
    = (Returned results, {| doc := tt; trace := [] ++ d |})
    /\ net_calls d = []
    /\ Forall (fun r => r_result r = mockResult) results
    /\ List.length results
       = List.length (recipients "sms" [both_channels; no_phone; sms_only])
    /\ count_success results = List.length results.
Proof.
  apply (fanout_without_client_is_all_mocked unconfigured
           [both_channels; no_phone; sms_only] (Plain "drill") "sms"
           {| doc := tt; trace := [] |}).
  reflexivity.
Defined.



(** ** The send routes *)

Section MoreRouteFacts.

Variable this : TwilioService.
Variable User_find : (User -> bool) -> M (World unit) (list User).

Lemma broadcast_block_count (requested : bool) (l : list User) message type
    (w : World unit) :
  exists rs d,
    (if requested
     then if (0 <? List.length l)%nat
          then rs <- sendAlert this l message type ;; ret (map (with_type type) rs)
          else ret []
     else ret []) w
    = (Returned rs, {| doc := doc w; trace := trace w ++ d |})
    /\ List.length rs
       = (if requested then List.length (recipients type l) else 0)%nat
    /\ List.length (deliveries d)
       = (if requested then List.length (recipients type l) else 0)%nat.
Proof.
  destruct requested; [destruct l as [|u l'] |].
  - exists [], []. rewrite app_nil_r. destruct w. repeat split.
  - cbn [List.length Nat.ltb Nat.leb].
    destruct (sendAlert_run this message type (u :: l') w) as (rs & d & Hrun & Hfan).
    exists (map (with_type type) rs), d. split; [| split].
    + rewrite (bind_returned _ _ _ Hrun). reflexivity.
    + rewrite length_map. exact (Forall2_length (fans_out_entries Hfan)).
    + exact (fans_out_count Hfan).
  - exists [], []. rewrite app_nil_r. destruct w. repeat split.
Qed.

Lemma broadcast_run message type urgent departments (w w1 : World unit) users :
  message <> ""%string ->
  User_find (fun u => isActive u
                      && (Nat.eqb (List.length departments) 0
                          || existsb (String.eqb (department u)) departments)) w
  = (Returned users, w1) ->
  users <> [] ->
  exists results d,
    broadcast this User_find message type urgent departments w
    = (Returned (BroadcastSent results (broadcast_summary_of users results)),
       {| doc := doc w1; trace := trace w1 ++ d |})
    /\ List.length results
       = ((if (type =? "sms")%string || (type =? "both")%string
           then List.length (recipients "sms"
                               (filter (fun u => sms (notifications u)) users))
           else 0)
          + (if (type =? "whatsapp")%string || (type =? "both")%string
             then List.length (recipients "whatsapp"
                                 (filter (fun u => whatsapp (notifications u)) users))
             else 0))%nat
    /\ List.length (deliveries d) = List.length results.
Proof.
  intros Hmsg Hfind Husers.
  unfold broadcast, try_catch.
  destruct (String.eqb_spec message ""); [contradiction |].
  rewrite (bind_returned _ _ _ Hfind).
  destruct users as [|u0 us] eqn:Hu; [contradiction Husers; reflexivity |].
  rewrite <- Hu in *. assert (Hlen : Nat.eqb (List.length users) 0 = false)
    by (rewrite Hu; reflexivity).
  rewrite Hlen. cbn zeta.
  set (finalMessage := if urgent then UrgentBroadcast message else Broadcast message).
  destruct (broadcast_block_count ((type =? "sms")%string || (type =? "both")%string)
              (filter (fun u => sms (notifications u)) users) finalMessage "sms" w1)
    as (rs1 & d1 & Hrun1 & Hn1 & Hd1).
  destruct (broadcast_block_count
              ((type =? "whatsapp")%string || (type =? "both")%string)
              (filter (fun u => whatsapp (notifications u)) users) finalMessage
              "whatsapp" {| doc := doc w1; trace := trace w1 ++ d1 |})
    as (rs2 & d2 & Hrun2 & Hn2 & Hd2).
  rewrite (bind_returned _ _ _ Hrun1), (bind_returned _ _ _ Hrun2).
  exists (rs1 ++ rs2), (d1 ++ d2). cbn [doc trace]. split; [| split].
  - rewrite <- app_assoc. reflexivity.
  - rewrite length_app, Hn1, Hn2. reflexivity.
  - rewrite deliveries_app, !length_app, Hd1, Hd2, Hn1, Hn2. reflexivity.
Qed.

End MoreRouteFacts.

(** X3. /send-sms and /send-whatsapp answer 400 for an empty list of ids and
    for an empty message, without asking the directory; 404 when the
    directory finds nobody; 500 with the error when the directory throws.  In
    none of these cases is anything sent: the world is as the request, or the
    directory, left it. *)
Theorem send_route_rejects_without_sending :
  forall (this : TwilioService)
         (User_find : (User -> bool) -> M (World unit) (list User))
         (flag : Notifications -> bool) (type sent : string)
         (userIds : list string) (message : string) (urgent : bool)
         (w : World unit),
    (userIds = [] ->
     send_to_users this User_find flag type sent userIds message urgent w
     = (Returned (Status400 "User IDs array required"), w))
    /\ (userIds <> [] -> message = ""%string ->
        send_to_users this User_find flag type sent userIds message urgent w
        = (Returned (Status400 "Message content required"), w))
    /\ (forall w1,
           userIds <> [] -> message <> ""%string ->
           User_find (fun u => existsb (String.eqb (_id u)) userIds
                               && isActive u && flag (notifications u)) w
           = (Returned [], w1) ->
           send_to_users this User_find flag type sent userIds message urgent w
           = (Returned (Status404 "No eligible users found"), w1))
    /\ (forall e w1,
           userIds <> [] -> message <> ""%string ->
           User_find (fun u => existsb (String.eqb (_id u)) userIds
                               && isActive u && flag (notifications u)) w
           = (Thrown e, w1) ->
           send_to_users this User_find flag type sent userIds message urgent w
           = (Returned (Status500 e), w1)).
Proof.
  intros this User_find flag type sent userIds message urgent w.
  unfold send_to_users, try_catch. split; [| split; [| split]].
  - intros ->. reflexivity.
  - intros Hids ->. destruct userIds; [contradiction Hids; reflexivity | reflexivity].
  - intros w1 Hids Hmsg Hfind.
    destruct userIds; [contradiction Hids; reflexivity |]. cbn [List.length Nat.eqb].
    destruct (String.eqb_spec message ""); [contradiction |].
    rewrite (bind_returned _ _ _ Hfind). reflexivity.
  - intros e w1 Hids Hmsg Hfind.
    destruct userIds; [contradiction Hids; reflexivity |]. cbn [List.length Nat.eqb].
    destruct (String.eqb_spec message ""); [contradiction |].
    rewrite (bind_thrown _ _ _ Hfind). reflexivity.
Qed.

Lemma send_route_rejects_without_sending_witness :
  send_to_users unconfigured (fun _ => throw "directory down") sms "sms"
    "SMS notifications sent" ["u1"] "drill" false {| doc := tt; trace := [] |}
  = (Returned (Status500 "directory down"), {| doc := tt; trace := [] |}).
Proof.
  refine (proj2 (proj2 (proj2
            (send_route_rejects_without_sending unconfigured
               (fun _ => throw "directory down") sms "sms" "SMS notifications sent"
               ["u1"] "drill" false {| doc := tt; trace := [] |})))
            "directory down" {| doc := tt; trace := [] |} _ _ _).
  - discriminate.
  - discriminate.
  - reflexivity.
Defined.

(** X4. When /broadcast has a message and the directory finds users, it
    answers with the summary of what it sent: one entry, and one delivery,
    for each user opted into SMS that sendAlert does not skip when the type
    is 'sms' or 'both', and likewise for WhatsApp when the type is 'whatsapp'
    or 'both'.  With 'both', attempted counts a user opted into both twice,
    so it can exceed totalUsers. *)
Theorem broadcast_counts_per_channel :
  forall (this : TwilioService)
         (User_find : (User -> bool) -> M (World unit) (list User))
         (message type : string) (urgent : bool) (departments : list string)
         (w w1 : World unit) (users : list User),
    message <> ""%string ->
    User_find (fun u => isActive u
                        && (Nat.eqb (List.length departments) 0
                            || existsb (String.eqb (department u)) departments)) w
    = (Returned users, w1) ->
    users <> [] ->
    exists results d,
      broadcast this User_find message type urgent departments w
      = (Returned (BroadcastSent results (broadcast_summary_of users results)),
         {| doc := doc w1; trace := trace w1 ++ d |})
      /\ totalUsers (broadcast_summary_of users results) = List.length users
      /\ b_attempted (broadcast_summary_of users results)
         = ((if (type =? "sms")%string || (type =? "both")%string
             then List.length (recipients "sms"
                                 (filter (fun u => sms (notifications u)) users))
             else 0)
            + (if (type =? "whatsapp")%string || (type =? "both")%string
               then List.length (recipients "whatsapp"
                                   (filter (fun u => whatsapp (notifications u)) users))
               else 0))%nat
      /\ List.length (deliveries d)
         = b_attempted (broadcast_summary_of users results).
Proof.
  intros this User_find message type urgent departments w w1 users Hmsg Hfind Husers.
  destruct (@broadcast_run this User_find message type urgent departments w w1 users
              Hmsg Hfind Husers) as (results & d & Hrun & Hn & Hd).
  exists results, d. split; [exact Hrun |]. split; [reflexivity |].
  split; [exact Hn | exact Hd].
Qed.

Lemma broadcast_counts_per_channel_witness :
  exists results d,
    broadcast unconfigured (directory_of [both_channels; sms_only]) "drill" "both"
      false [] {| doc := tt; trace := [] |}
    = (Returned (BroadcastSent results
                   (broadcast_summary_of [both_channels; sms_only] results)),
       {| doc := tt; trace := [] ++ d |})
    /\ totalUsers (broadcast_summary_of [both_channels; sms_only] results) = 2%nat
    /\ b_attempted (broadcast_summary_of [both_channels; sms_only] results) = 3%nat
    /\ List.length (deliveries d)
       = b_attempted (broadcast_summary_of [both_channels; sms_only] results).
Proof.
  apply (@broadcast_counts_per_channel unconfigured
           (directory_of [both_channels; sms_only]) "drill" "both" false []
           {| doc := tt; trace := [] |} {| doc := tt; trace := [] |}
           [both_channels; sms_only]).
  - discriminate.
  - reflexivity.
  - discriminate.
Defined.

(** X5. A /broadcast whose type is none of 'sms', 'whatsapp' and 'both' is
    not refused: when the directory finds users it answers as sent, with no
    entry, attempted 0, and nothing delivered. *)
Theorem broadcast_of_unknown_type_sends_nothing :
  forall (this : TwilioService)
         (User_find : (User -> bool) -> M (World unit) (list User))
         (message type : string) (urgent : bool) (departments : list string)
         (w w1 : World unit) (users : list User),
    message <> ""%string ->
    type <> "sms"%string -> type <> "whatsapp"%string -> type <> "both"%string ->
    User_find (fun u => isActive u
                        && (Nat.eqb (List.length departments) 0
                            || existsb (String.eqb (department u)) departments)) w
    = (Returned users, w1) ->
    users <> [] ->
    broadcast this User_find message type urgent departments w
    = (Returned (BroadcastSent []
                   {| totalUsers := List.length users; b_attempted := 0;
                      b_successful := 0; b_failed := 0 |}),
       w1).
Proof.
  intros this User_find message type urgent departments w w1 users
         Hmsg Hsms Hwa Hboth Hfind Husers.
  unfold broadcast, try_catch.
  destruct (String.eqb_spec message ""); [contradiction |].
  rewrite (bind_returned _ _ _ Hfind).
  destruct users as [|u0 us]; [contradiction Husers; reflexivity |].
  cbn [List.length Nat.eqb]. cbn zeta.
  destruct (String.eqb_spec type "sms"); [contradiction |].
  destruct (String.eqb_spec type "whatsapp"); [contradiction |].
  destruct (String.eqb_spec type "both"); [contradiction |].
  reflexivity.
Qed.

Lemma broadcast_of_unknown_type_sends_nothing_witness :
  broadcast unconfigured (directory_of [both_channels; sms_only]) "drill" "email"
    false [] {| doc := tt; trace := [] |}
  = (Returned (BroadcastSent []
                 {| totalUsers := 2; b_attempted := 0;
                    b_successful := 0; b_failed := 0 |}),
     {| doc := tt; trace := [] |}).
Proof.
  apply (@broadcast_of_unknown_type_sends_nothing unconfigured
           (directory_of [both_channels; sms_only]) "drill" "email" false []
           {| doc := tt; trace := [] |} {| doc := tt; trace := [] |}
           [both_channels; sms_only]).
  - discriminate.
  - discriminate.
  - discriminate.
  - discriminate.
  - reflexivity.
  - discriminate.
Defined.

(** X10. /test answers 400, and sends nothing, when the request has no phone
    number.  Otherwise it never fails: it makes exactly one delivery to that
    number, over WhatsApp when the type is 'whatsapp' and over SMS for any
    other type, whether or not anyone has opted in, and reports the success
    flag of the result. *)
Theorem test_route_sends_exactly_once :
  forall (this : TwilioService) (testMessage : string) (phone : option string)
         (type : string) (w : World unit),
    (truthy phone = false ->
     test_notification this testMessage phone type w
     = (Returned (TestBadRequest "Phone number required for test"), w))
    /\ (forall to,
           phone = Some to -> to <> ""%string ->
           exists result d e,
             test_notification this testMessage phone type w
             = (Returned (TestSent type result to (success result)),
                {| doc := doc w; trace := trace w ++ d |})
             /\ deliveries d = [e]
             /\ delivers (channel_of type) to e = true).
Proof.
  intros this testMessage phone type w. unfold test_notification, try_catch. split.
  - unfold truthy. destruct phone as [to|]; [| reflexivity].
    destruct (to =? "")%string; [reflexivity | discriminate].
  - intros to -> Hto. destruct (String.eqb_spec to ""); [contradiction |].
    destruct (send_run this (D:=unit) (channel_of type) to (Plain testMessage) w)
      as (result & d & Hrun & Hs).
    destruct (sends_deliveries Hs) as (e & He & Hd).
    exists result, d, e. split; [| split; assumption].
    assert (Hchoice :
      (if (type =? "whatsapp")%string
       then sendWhatsApp this (D:=unit) to (Plain testMessage)
       else sendSMS this (D:=unit) to (Plain testMessage))
      = send this (D:=unit) (channel_of type) to (Plain testMessage)).
    { unfold channel_of. destruct (type =? "whatsapp")%string; reflexivity. }
    rewrite Hchoice, (bind_returned _ _ _ Hrun). reflexivity.
Qed.

Lemma test_route_sends_exactly_once_witness :
  exists result d e,
    test_notification gateway_down "drill" (Some "+911") "whatsapp"
      {| doc := tt; trace := [] |}
    = (Returned (TestSent "whatsapp" result "+911" (success result)),
       {| doc := tt; trace := [] ++ d |})
    /\ deliveries d = [e]
    /\ delivers (channel_of "whatsapp") "+911" e = true.
Proof.
  apply (proj2 (test_route_sends_exactly_once gateway_down "drill" (Some "+911")
                  "whatsapp" {| doc := tt; trace := [] |}) "+911").
  - reflexivity.
  - discriminate.
Defined.

(** ** More on the emission and the equipment check *)

(** X6. A snapshot in which no parameter exceeds its threshold is left
    alone: the check returns with the document and the trace as they were
    (no message, no entry, no save, no log). *)
Theorem quiet_snapshot_is_untouched :
  forall (this : TwilioService) (persist : World Emission -> option Exn)
         (users : list User) (w : World Emission),
    (forall p, breaches (doc w) p = false) ->
    checkEmissionThresholds this persist users w = (Returned tt, w).
Proof.
  intros this persist users w H. unfold checkEmissionThresholds. cbn [for_of].
  rewrite (bind_returned _ _ _ (checkEmissionParam_quiet this persist users sox w (H sox))).
  rewrite (bind_returned _ _ _ (checkEmissionParam_quiet this persist users nox w (H nox))).
  rewrite (bind_returned _ _ _ (checkEmissionParam_quiet this persist users co2 w (H co2))).
  rewrite (bind_returned _ _ _ (checkEmissionParam_quiet this persist users pm w (H pm))).
  rewrite (bind_returned _ _ _ (checkEmissionParam_quiet this persist users co w (H co))).
  reflexivity.
Qed.

Lemma quiet_snapshot_is_untouched_witness :
  checkEmissionThresholds gateway_up never_rejects [both_channels]
    {| doc := emission_with (reading 150 200); trace := [] |}
  = (Returned tt, {| doc := emission_with (reading 150 200); trace := [] |}).
Proof.
  apply (quiet_snapshot_is_untouched gateway_up never_rejects [both_channels]
           {| doc := emission_with (reading 150 200); trace := [] |}).
  intro p. destruct p; reflexivity.
Defined.

Section SaveFails.

Variable this : TwilioService.
Variable persist : World Emission -> option Exn.
Variable users : list User.
Variable e : Exn.
Hypothesis persist_fails : forall w, persist w = Some e.

Lemma for_of_stops_at_first_breach ps p : forall (w : World Emission),
  find (breaches (doc w)) ps = Some p ->
  exists d,
    for_of ps (checkEmissionParam this persist users) w
    = (Thrown e, {| doc := push_alert (alert_entry p (get (doc w) p)) (doc w);
                    trace := trace w ++ d |})
    /\ List.length (deliveries d) = notified users.
Proof.
  induction ps as [|q ps IH]; intros w Hfind; [discriminate |].
  cbn [find] in Hfind. cbn [for_of].
  destruct (breaches (doc w) q) eqn:Hb.
  - injection Hfind as <-.
    destruct (checkEmissionParam_alert this persist users q w Hb) as (d & Hd & Hrun).
    cbn zeta in Hrun. rewrite persist_fails in Hrun.
    exists d. split; [| exact (dispatched_count Hd)].
    rewrite (bind_thrown _ _ _ Hrun). reflexivity.
  - rewrite (bind_returned _ _ _ (checkEmissionParam_quiet this persist users q w Hb)).
    apply IH. exact Hfind.
Qed.

End SaveFails.

(** X7. The alert is dispatched before the document is saved.  When the
    store rejects the save, the check throws at the first parameter [p] that
    exceeds its threshold: the recipients have already been sent the alert
    for [p], the document in memory holds the entry for [p], and the
    parameters after [p] are never looked at. *)
Theorem rejected_save_stops_after_dispatch :
  forall (this : TwilioService) (persist : World Emission -> option Exn)
         (users : list User) (e : Exn) (p : Param) (w : World Emission),
    (forall w', persist w' = Some e) ->
    find (breaches (doc w)) [sox; nox; co2; pm; co] = Some p ->
    exists d,
      checkEmissionThresholds this persist users w
      = (Thrown e, {| doc := push_alert (alert_entry p (get (doc w) p)) (doc w);
                      trace := trace w ++ d |})
      /\ List.length (deliveries d) = notified users.
Proof.
  intros this persist users e p w Hfail Hfind.
  unfold checkEmissionThresholds.
  exact (@for_of_stops_at_first_breach this persist users e Hfail _ p w Hfind).
Qed.

Lemma rejected_save_stops_after_dispatch_witness :
  exists d,
    checkEmissionThresholds unconfigured (fun _ => Some "write refused")
      [both_channels] {| doc := emission_260; trace := [] |}
    = (Thrown "write refused",
       {| doc := push_alert (alert_entry sox (get emission_260 sox)) emission_260;
          trace := [] ++ d |})
    /\ List.length (deliveries d) = notified [both_channels].
Proof.
  apply (rejected_save_stops_after_dispatch unconfigured
           (fun _ => Some "write refused") [both_channels] (e := "write refused")
           (p := sox) {| doc := emission_260; trace := [] |}).
  - intro w'. reflexivity.
  - reflexivity.
Defined.

(** X9. An equipment snapshot with several issues gives one alert, not one
    per issue: when no save fails the check returns, every recipient is sent
    one message, which lists all the issues under risk level High, and one
    anomaly is recorded per issue, at most four. *)
Theorem equipment_alert_once_for_all_issues :
  forall (this : TwilioService) (persist : World Maintenance -> option Exn)
         (users : list User) (w : World Maintenance),
    criticalIssues_of (doc w) <> [] ->
    (forall w', persist w' = None) ->
    exists d,
      checkMaintenanceThresholds this persist users w
      = (Returned tt,
         {| doc := push_anomalies (criticalIssues_of (doc w)) (doc w);
            trace := trace w ++ d |})
      /\ List.length (deliveries d) = notified users
      /\ Forall (fun e =>
                   is_delivery e = true ->
                   message_of e
                   = Some (MaintenanceMessage (eq_name (equipment (doc w))) High
                             (criticalIssues_of (doc w)))) d
      /\ List.length (anomalies_of (push_anomalies (criticalIssues_of (doc w)) (doc w)))
         = (List.length (anomalies_of (doc w))
            + List.length (criticalIssues_of (doc w)))%nat
      /\ (List.length (criticalIssues_of (doc w)) <= 4)%nat.
Proof.
  intros this persist users w Hne Hok.
  destruct (checkMaintenanceThresholds_alert this persist users w Hne) as (d & Hd & Hrun).
  cbn zeta in Hrun. rewrite Hok in Hrun. cbn [doc trace] in Hrun.
  eexists. split; [rewrite Hrun, <- app_assoc; reflexivity |].
  split; [| split; [| split]].
  - rewrite deliveries_app, length_app. cbn. rewrite (dispatched_count Hd). lia.
  - apply Forall_app. split.
    + exact (dispatched_message Hd).
    + constructor; [discriminate | constructor].
  - unfold push_anomalies, anomalies_of at 1. cbn [anomalies].
    rewrite length_app, length_map. reflexivity.
  - unfold criticalIssues_of.
    repeat match goal with |- context [if ?b then _ else _] => destruct b end;
      cbn; lia.
Qed.

Lemma equipment_alert_once_for_all_issues_witness :
  exists d,
    checkMaintenanceThresholds gateway_up never_rejects [both_channels; sms_only]
      {| doc := maintenance_600; trace := [] |}
    = (Returned tt,
       {| doc := push_anomalies (criticalIssues_of maintenance_600) maintenance_600;
          trace := [] ++ d |})
    /\ List.length (deliveries d) = notified [both_channels; sms_only].
Proof.
  destruct (equipment_alert_once_for_all_issues gateway_up never_rejects
              [both_channels; sms_only] {| doc := maintenance_600; trace := [] |})
    as (d & Hrun & Hn & _).
  - discriminate.
  - intro w'. reflexivity.
  - exists d. split; [exact Hrun | exact Hn].
Defined.

(** X8. The four domains share one try block.  When the emission check
    throws, checkThresholds logs the error and returns at once: the equipment,
    load and ash checks of that cycle are not run, whatever their latest
    documents hold. *)
Theorem emission_failure_skips_other_domains :
  forall (Load Ash : Type) (this : TwilioService)
         (persist_emission : World Emission -> option Exn)
         (persist_maintenance : World Maintenance -> option Exn)
         (emission : Emission) (latestMaintenance : option Maintenance)
         (latestLoad : option Load) (latestAsh : option Ash) (users : list User)
         (checkLoadThresholds : Load -> list User -> M (World unit) unit)
         (checkAshThresholds : Ash -> list User -> M (World unit) unit)
         (w : World unit) (e : Exn) (stopped : World Emission),
    checkEmissionThresholds this persist_emission users
      {| doc := emission; trace := trace w |} = (Thrown e, stopped) ->
    checkThresholds this persist_emission persist_maintenance
      (ret (Some emission)) (ret latestMaintenance) (ret latestLoad) (ret latestAsh)
      (fun _ => ret users) checkLoadThresholds checkAshThresholds w
    = (Returned tt,
       {| doc := doc w;
          trace := trace stopped ++ [Console (ErrorCheckingThresholds e)] |}).
Proof.
  intros Load Ash this pe pm emission lm ll la users cL cA w e stopped Hthrown.
  unfold checkThresholds, try_catch.
  unfold bind at 1. unfold ret at 1. unfold bind at 1. unfold ret at 1.
  unfold bind at 1. unfold ret at 1. unfold bind at 1. unfold ret at 1.
  unfold bind at 1. unfold ret at 1.
  unfold bind at 1. cbn [if_found]. unfold with_doc. rewrite Hthrown.
  reflexivity.
Qed.

Lemma emission_failure_skips_other_domains_witness :
  exists stopped : World Emission,
    checkThresholds (Load:=unit) (Ash:=unit) unconfigured
      (fun _ => Some "write refused") never_rejects
      (ret (Some emission_260)) (ret (Some maintenance_600)) (ret None) (ret None)
      (fun _ => ret [both_channels]) (fun _ _ => ret tt) (fun _ _ => ret tt)
      {| doc := tt; trace := [] |}
    = (Returned tt,
       {| doc := tt;
          trace := trace stopped ++ [Console (ErrorCheckingThresholds "write refused")] |})
    /\ List.length (deliveries (trace stopped)) = 2%nat.
Proof.
  eexists. split.
  - apply (emission_failure_skips_other_domains (Load:=unit) (Ash:=unit) unconfigured
             (fun _ => Some "write refused") never_rejects emission_260
             (Some maintenance_600) None None [both_channels]
             (fun _ _ => ret tt) (fun _ _ => ret tt) {| doc := tt; trace := [] |}
             (e := "write refused")).
    reflexivity.
  - reflexivity.
Defined.

(** ** The load and the ash check *)

(* a larger level over the same positive capacity is a larger percentage *)
Lemma percentage_mono (v1 v2 c : Q) :
  (0 < c)%Q -> (v1 <= v2)%Q ->
  XNum.le (percentage (Some v1) c) (percentage (Some v2) c).
Proof.
  intros Hc H. unfold percentage. cbn [XNum.of_num].
  apply DoubleFacts.mul_pos_mono; [reflexivity |].
  apply DoubleFacts.div_pos_mono; assumption.
Qed.

Lemma percentage_not_above (v vmax c bound : Q) :
  (0 < c)%Q -> (v <= vmax)%Q ->
  XNum.gt (percentage (Some vmax) c) (Finite bound) = false ->
  XNum.gt (percentage (Some v) c) (Finite bound) = false.
Proof.
  intros Hc H. apply DoubleFacts.gt_below. apply percentage_mono; assumption.
Qed.

Lemma percentage_above (v vmin c bound : Q) :
  (0 < c)%Q -> (vmin <= v)%Q ->
  XNum.gt (percentage (Some vmin) c) (Finite bound) = true ->
  XNum.gt (percentage (Some v) c) (Finite bound) = true.
Proof.
  intros Hc H. apply DoubleFacts.gt_above. apply percentage_mono; assumption.
Qed.

Lemma percentage_absent (c : Q) : percentage None c = NaN.
Proof. reflexivity. Qed.


Section LoadFacts.

Variable this : TwilioService.
Variable persist : World (Logged Load) -> option Exn.
Variable users : list User.

Lemma checkLoadThresholds_quiet (w : World (Logged Load)) :
  XNum.gt (loadPercentage (subject (doc w))) (Finite 95) = false ->
  checkLoadThresholds this persist users w = (Returned tt, w).
Proof.
  intro H. unfold checkLoadThresholds, bind, gets. cbn beta iota.
  rewrite H. reflexivity.
Qed.

(* above 95: both fan-outs, then the push, which throws *)
Lemma checkLoadThresholds_alert (w : World (Logged Load)) :
  XNum.gt (loadPercentage (subject (doc w))) (Finite 95) = true ->
  exists d,
    dispatched this users
      (LoadMessage (d_current (demand (subject (doc w))))
                      (d_capacity (demand (subject (doc w))))
                      "Critical - Near Capacity")
      (trace w) d
    /\ checkLoadThresholds this persist users w
       = (Thrown CastError, {| doc := doc w; trace := trace w ++ d |}).
Proof.
  intro H.
  set (message := LoadMessage (d_current (demand (subject (doc w))))
                      (d_capacity (demand (subject (doc w))))
                      "Critical - Near Capacity").
  destruct (sendAlert_run this message "sms"
              (filter (fun u => sms (notifications u)) users) w)
    as (rs1 & d1 & Hrun1 & Hfan1).
  destruct (sendAlert_run this message "whatsapp"
              (filter (fun u => whatsapp (notifications u)) users)
              {| doc := doc w; trace := trace w ++ d1 |})
    as (rs2 & d2 & Hrun2 & Hfan2).
  cbn [doc trace] in Hrun2, Hfan2.
  exists (d1 ++ d2). split.
  - exists rs1, d1, rs2, d2. auto.
  - unfold checkLoadThresholds.
    unfold bind at 1. unfold gets at 1. cbn beta iota. rewrite H. cbn [when].
    unfold bind at 1. unfold gets at 1. cbn beta iota. fold message.
    unfold bind at 1. cbn zeta. unfold bind at 1. rewrite Hrun1.
    unfold bind at 1. rewrite Hrun2. unfold bind at 1. unfold ret at 1.
    unfold bind at 1. unfold push_load_alert, throw. cbn [doc trace].
    rewrite app_assoc. reflexivity.
Qed.

End LoadFacts.

(** X11.  The load check.  When the percentage it computes is above 95,
    every recipient is sent the alert once, a load message with the demand,
    the capacity and 'Critical - Near Capacity', and then the push of the alert
    object onto load.alerts, an array of strings by its schema, throws a
    CastError: the check throws with the document as it was, and nothing is
    saved or logged, whatever the store would answer.  Otherwise the check
    leaves the document and the trace as they were.  Against the default
    capacity 2100, a demand of at most 1995 raises nothing and a demand of
    1996 or more takes the alert branch. *)
Theorem load_alert_sent_then_cast_error :
  forall (this : TwilioService) (persist : World (Logged Load) -> option Exn)
         (users : list User)
         (w : World (Logged Load)),
    (XNum.gt (loadPercentage (subject (doc w))) (Finite 95) = true ->
     exists d,
       checkLoadThresholds this persist users w
       = (Thrown CastError, {| doc := doc w; trace := trace w ++ d |})
       /\ List.length (deliveries d) = notified users
       /\ Forall (fun e =>
                    is_delivery e = true ->
                    message_of e
                    = Some (LoadMessage (d_current (demand (subject (doc w))))
                      (d_capacity (demand (subject (doc w))))
                      "Critical - Near Capacity")) d)
    /\ (XNum.gt (loadPercentage (subject (doc w))) (Finite 95) = false ->
        checkLoadThresholds this persist users w = (Returned tt, w))
    /\ (forall v,
           d_current (demand (subject (doc w))) = Some v ->
           d_capacity (demand (subject (doc w))) = 2100 ->
           ((v <= 1995)%Q ->
            XNum.gt (loadPercentage (subject (doc w))) (Finite 95) = false)
           /\ ((1996 <= v)%Q ->
               XNum.gt (loadPercentage (subject (doc w))) (Finite 95) = true)).
Proof.
  intros this persist users w. split; [| split].
  - intro H.
    destruct (checkLoadThresholds_alert this persist users w H)
      as (d & Hd & Hrun).
    exists d. split; [exact Hrun |].
    split; [exact (dispatched_count Hd) | exact (dispatched_message Hd)].
  - apply checkLoadThresholds_quiet.
  - intros v Hv Hc. unfold loadPercentage. rewrite Hv, Hc. split; intro H.
    + apply (DoubleFacts.gt_below (percentage (Some v) 2100)
               (percentage (Some 1995) 2100) 95).
      * apply percentage_mono; [reflexivity | exact H].
      * vm_compute. reflexivity.
    + apply (DoubleFacts.gt_above (percentage (Some 1996) 2100)
               (percentage (Some v) 2100) 95).
      * apply percentage_mono; [reflexivity | exact H].
      * vm_compute. reflexivity.
Qed.

Lemma load_alert_sent_then_cast_error_witness :
  (exists d,
      checkLoadThresholds gateway_up never_rejects [both_channels]
        {| doc := load_with (Some 2050) 2100; trace := [] |}
      = (Thrown CastError, {| doc := load_with (Some 2050) 2100; trace := [] ++ d |})
      /\ List.length (deliveries d) = notified [both_channels]
      /\ Forall (fun e =>
                   is_delivery e = true ->
                   message_of e
                   = Some (LoadMessage (Some 2050) 2100 "Critical - Near Capacity")) d)
  /\ checkLoadThresholds gateway_up never_rejects [both_channels]
       {| doc := load_with (Some 1900) 2100; trace := [] |}
     = (Returned tt, {| doc := load_with (Some 1900) 2100; trace := [] |}).
Proof.
  split.
  - destruct (proj1 (load_alert_sent_then_cast_error gateway_up never_rejects [both_channels]
                       {| doc := load_with (Some 2050) 2100; trace := [] |}))
      as (d & Hrun & Hn & Hm).
    + vm_compute. reflexivity.
    + exists d. split; [exact Hrun |]. split; [exact Hn | exact Hm].
  - apply (proj1 (proj2 (load_alert_sent_then_cast_error gateway_up never_rejects [both_channels]
                           {| doc := load_with (Some 1900) 2100; trace := [] |}))).
    vm_compute. reflexivity.
Defined.



Section AshFacts.

Variable this : TwilioService.
Variable persist : World (Logged Ash) -> option Exn.
Variable users : list User.

Lemma checkAshThresholds_quiet (w : World (Logged Ash)) :
  over_90 (subject (doc w)) = false ->
  checkAshThresholds this persist users w = (Returned tt, w).
Proof.
  intro H. unfold over_90 in H. unfold checkAshThresholds, bind, gets.
  cbn beta iota. rewrite H. reflexivity.
Qed.

(* a store above 90: both fan-outs, then the push, which throws *)
Lemma checkAshThresholds_alert (w : World (Logged Ash)) :
  over_90 (subject (doc w)) = true ->
  exists d,
    dispatched this users
      (AshMessage (criticalType (subject (doc w)))
                      (toFixed (level (subject (doc w))) 1)
                      "Immediate disposal required")
      (trace w) d
    /\ checkAshThresholds this persist users w
       = (Thrown CastError, {| doc := doc w; trace := trace w ++ d |}).
Proof.
  intro H. unfold over_90 in H.
  set (message := AshMessage (criticalType (subject (doc w)))
                      (toFixed (level (subject (doc w))) 1)
                      "Immediate disposal required").
  destruct (sendAlert_run this message "sms"
              (filter (fun u => sms (notifications u)) users) w)
    as (rs1 & d1 & Hrun1 & Hfan1).
  destruct (sendAlert_run this message "whatsapp"
              (filter (fun u => whatsapp (notifications u)) users)
              {| doc := doc w; trace := trace w ++ d1 |})
    as (rs2 & d2 & Hrun2 & Hfan2).
  cbn [doc trace] in Hrun2, Hfan2.
  exists (d1 ++ d2). split.
  - exists rs1, d1, rs2, d2. auto.
  - unfold checkAshThresholds.
    unfold bind at 1. unfold gets at 1. cbn beta iota.
    unfold bind at 1. unfold gets at 1. cbn beta iota. rewrite H. cbn [when].
    unfold bind at 1. unfold gets at 1. cbn beta iota.
    unfold bind at 1. unfold gets at 1. cbn beta iota.
    unfold bind at 1. cbn zeta. fold message. unfold bind at 1. rewrite Hrun1.
    unfold bind at 1. rewrite Hrun2. unfold bind at 1. unfold ret at 1.
    unfold bind at 1. unfold push_ash_alert, throw. cbn [doc trace].
    rewrite app_assoc. reflexivity.
Qed.

End AshFacts.

(** X13.  The ash check.  When the percentage of the fly ash or of the
    bottom ash store is above 90, every recipient is sent one alert, which
    names Fly Ash only when the fly ash percentage is strictly above the
    other (Bottom Ash on a tie) and carries the larger of the two as
    toFixed(1) writes it; then the
    push of the alert object onto ash.alerts, an array of strings by its
    schema, throws a CastError: the check throws with the document as it was
    and nothing is saved or logged.  When neither is above 90 the check
    leaves the document and the trace as they were.  Against the default
    capacities 50000 and 15000, levels of at most 45000 and 13500 raise
    nothing, and a fly ash level of 45001 or more takes the alert branch. *)
Theorem ash_alert_names_the_fuller_store :
  forall (this : TwilioService) (persist : World (Logged Ash) -> option Exn)
         (users : list User)
         (w : World (Logged Ash)),
    (over_90 (subject (doc w)) = true ->
     exists d,
       checkAshThresholds this persist users w
       = (Thrown CastError, {| doc := doc w; trace := trace w ++ d |})
       /\ List.length (deliveries d) = notified users
       /\ Forall (fun e =>
                    is_delivery e = true ->
                    message_of e
                    = Some (AshMessage (criticalType (subject (doc w)))
                      (toFixed (level (subject (doc w))) 1)
                      "Immediate disposal required")) d)
    /\ (forall f b,
           storagePercentage (flyAsh (subject (doc w))) = Finite f ->
           storagePercentage (bottomAsh (subject (doc w))) = Finite b ->
           (criticalType (subject (doc w)) = FlyAsh <-> (b < f)%Q)
           /\ level (subject (doc w)) = Finite (if Num.Qgtb f b then f else b))
    /\ (over_90 (subject (doc w)) = false ->
        checkAshThresholds this persist users w = (Returned tt, w))
    /\ (forall fv bv,
           s_current (storage (flyAsh (subject (doc w)))) = Some fv ->
           s_capacity (storage (flyAsh (subject (doc w)))) = 50000 ->
           s_current (storage (bottomAsh (subject (doc w)))) = Some bv ->
           s_capacity (storage (bottomAsh (subject (doc w)))) = 15000 ->
           ((fv <= 45000)%Q -> (bv <= 13500)%Q -> over_90 (subject (doc w)) = false)
           /\ ((45001 <= fv)%Q -> over_90 (subject (doc w)) = true)).
Proof.
  intros this persist users w. split; [| split; [| split]].
  - intro H.
    destruct (checkAshThresholds_alert this persist users w H)
      as (d & Hd & Hrun).
    exists d. split; [exact Hrun |].
    split; [exact (dispatched_count Hd) | exact (dispatched_message Hd)].
  - intros f b Hf Hb. unfold criticalType, level. rewrite Hf, Hb.
    cbn [XNum.gt XNum.max]. split.
    + destruct (Num.Qgtb f b) eqn:E.
      * apply Qgtb_lt in E. split; [intros _; exact E | reflexivity].
      * apply Qgtb_le in E. split; [discriminate |].
        intro H. exfalso. exact (Qlt_not_le _ _ H E).
    + destruct (Num.Qgtb f b); reflexivity.
  - apply checkAshThresholds_quiet.
  - intros fv bv Hfv Hfc Hbv Hbc. unfold over_90, storagePercentage.
    rewrite Hfv, Hfc, Hbv, Hbc. split.
    + intros H1 H2. apply orb_false_iff. split.
      * apply (DoubleFacts.gt_below (percentage (Some fv) 50000)
                 (percentage (Some 45000) 50000) 90).
        -- apply percentage_mono; [reflexivity | exact H1].
        -- vm_compute. reflexivity.
      * apply (DoubleFacts.gt_below (percentage (Some bv) 15000)
                 (percentage (Some 13500) 15000) 90).
        -- apply percentage_mono; [reflexivity | exact H2].
        -- vm_compute. reflexivity.
    + intro H. apply orb_true_iff. left.
      apply (DoubleFacts.gt_above (percentage (Some 45001) 50000)
               (percentage (Some fv) 50000) 90).
      * apply percentage_mono; [reflexivity | exact H].
      * vm_compute. reflexivity.
Qed.

Lemma ash_alert_names_the_fuller_store_witness :
  let ash := ash_with (Some 46000) 50000 (Some 13800) 15000 in
  criticalType (subject ash) = BottomAsh
  /\ toFixed (level (subject ash)) 1 = Digits false 920 1
  /\ exists d,
       checkAshThresholds gateway_up never_rejects [both_channels]
         {| doc := ash; trace := [] |}
       = (Thrown CastError, {| doc := ash; trace := [] ++ d |})
       /\ List.length (deliveries d) = notified [both_channels]
       /\ Forall (fun e =>
                    is_delivery e = true ->
                    message_of e
                    = Some (AshMessage (criticalType (subject ash))
                              (toFixed (level (subject ash)) 1)
                              "Immediate disposal required")) d.
Proof.
  intro ash.
  split; [vm_compute; reflexivity |]. split; [vm_compute; reflexivity |].
  destruct (proj1 (ash_alert_names_the_fuller_store gateway_up never_rejects
                     [both_channels] {| doc := ash; trace := [] |}))
    as (d & Hrun & Hn & Hm).
  - vm_compute. reflexivity.
  - exists d. split; [exact Hrun |]. split; [exact Hn | exact Hm].
Defined.

(** X14.  A store level that was never stored.  When the fly ash store is
    above 90% and the level of the bottom ash store is absent, the alert
    branch is taken, and the alert names Bottom Ash with the level 'NaN': a
    comparison with NaN is false, Math.max of NaN is NaN and toFixed writes
    it as NaN.  The recipients are sent that alert, and the check throws the
    CastError. *)
Theorem ash_alert_with_absent_level :
  forall (this : TwilioService) (persist : World (Logged Ash) -> option Exn)
         (users : list User)
         (w : World (Logged Ash)),
    XNum.gt (storagePercentage (flyAsh (subject (doc w)))) (Finite 90) = true ->
    s_current (storage (bottomAsh (subject (doc w)))) = None ->
    criticalType (subject (doc w)) = BottomAsh
    /\ level (subject (doc w)) = NaN
    /\ exists d,
         checkAshThresholds this persist users w
         = (Thrown CastError, {| doc := doc w; trace := trace w ++ d |})
         /\ List.length (deliveries d) = notified users
         /\ Forall (fun e =>
                      is_delivery e = true ->
                      message_of e
                      = Some (AshMessage BottomAsh TextNaN
                                "Immediate disposal required")) d.
Proof.
  intros this persist users w Hover Hbv.
  assert (Hb : storagePercentage (bottomAsh (subject (doc w))) = NaN).
  { unfold storagePercentage. rewrite Hbv. reflexivity. }
  assert (Htype : criticalType (subject (doc w)) = BottomAsh).
  { unfold criticalType. rewrite Hb.
    destruct (storagePercentage (flyAsh (subject (doc w)))); reflexivity. }
  assert (Hlevel : level (subject (doc w)) = NaN).
  { unfold level. rewrite Hb.
    destruct (storagePercentage (flyAsh (subject (doc w)))); reflexivity. }
  split; [exact Htype |]. split; [exact Hlevel |].
  assert (H : over_90 (subject (doc w)) = true).
  { unfold over_90. rewrite Hover. reflexivity. }
  destruct (checkAshThresholds_alert this persist users w H) as (d & Hd & Hrun).
  rewrite Htype, Hlevel in Hd.
  exists d. split; [exact Hrun |].
  split; [exact (dispatched_count Hd) | exact (dispatched_message Hd)].
Qed.

Lemma ash_alert_with_absent_level_witness :
  criticalType (subject (ash_with (Some 48000) 50000 None 15000)) = BottomAsh
  /\ level (subject (ash_with (Some 48000) 50000 None 15000)) = NaN
  /\ exists d,
       checkAshThresholds unconfigured never_rejects [both_channels]
         {| doc := ash_with (Some 48000) 50000 None 15000; trace := [] |}
       = (Thrown CastError,
          {| doc := ash_with (Some 48000) 50000 None 15000; trace := [] ++ d |})
       /\ List.length (deliveries d) = notified [both_channels]
       /\ Forall (fun e =>
                    is_delivery e = true ->
                    message_of e
                    = Some (AshMessage BottomAsh TextNaN
                              "Immediate disposal required")) d.
Proof.
  destruct (ash_alert_with_absent_level unconfigured never_rejects
              [both_channels]
              {| doc := ash_with (Some 48000) 50000 None 15000; trace := [] |})
    as (H1 & H2 & d & Hrun & Hn & Hm).
  - vm_compute. reflexivity.
  - reflexivity.
  - split; [exact H1 |]. split; [exact H2 |].
    exists d. split; [exact Hrun |]. split; [exact Hn | exact Hm].
Defined.



(** ** The data generator *)

Lemma Math_round_within (x : Q) (lo hi : Z) :
  (inject_Z lo <= x)%Q -> (x <= inject_Z hi)%Q ->
  (inject_Z lo <= MockData.Math_round x /\ MockData.Math_round x <= inject_Z hi)%Q.
Proof.
  intros Hlo Hhi. unfold MockData.Math_round. split.
  - rewrite <- Zle_Qle. rewrite <- (Qfloor_Z lo). apply Qfloor_resp_le. lra.
  - rewrite <- Zle_Qle. apply Z.lt_succ_r. rewrite Zlt_Qlt.
    apply Qle_lt_trans with (x + (1 # 2))%Q; [apply Qfloor_le |].
    unfold Z.succ. rewrite inject_Z_plus. unfold inject_Z at 2. lra.
Qed.

(* a + r * b on doubles, for a draw r, lies between a and a + b *)
Lemma sum_within (a b : Z) (r : Q) :
  (0 <= b)%Z -> (Z.abs a < 2 ^ 53)%Z -> (b < 2 ^ 53)%Z -> (Z.abs (a + b) < 2 ^ 53)%Z ->
  MockData.draw r ->
  (inject_Z a <= MockData.add (inject_Z a) (MockData.mul r (inject_Z b))
   /\ MockData.add (inject_Z a) (MockData.mul r (inject_Z b)) <= inject_Z (a + b))%Q.
Proof.
  intros Hb Ha Hb' Hab [Hr0 Hr1].
  assert (B0 : (0 <= inject_Z b)%Q)
    by (change 0%Q with (inject_Z 0); rewrite <- Zle_Qle; exact Hb).
  assert (P : (inject_Z 0 <= MockData.mul r (inject_Z b)
               /\ MockData.mul r (inject_Z b) <= inject_Z b)%Q).
  { apply DoubleFacts.nearest_within; try lia.
    - change (inject_Z 0) with 0%Q. apply Qmult_le_0_compat; assumption.
    - rewrite <- (Qmult_1_l (inject_Z b)) at 2.
      apply Qmult_le_compat_r; [apply Qlt_le_weak; exact Hr1 | exact B0]. }
  destruct P as [P0 P1]. change (inject_Z 0) with 0%Q in P0.
  apply DoubleFacts.nearest_within; try assumption.
  - lra.
  - rewrite inject_Z_plus. lra.
Qed.

(* Math.round(a + Math.random() * b) lies between a and a + b *)
Lemma generated_within (a b : Z) (r : Q) :
  (0 <= b)%Z -> (Z.abs a < 2 ^ 53)%Z -> (b < 2 ^ 53)%Z -> (Z.abs (a + b) < 2 ^ 53)%Z ->
  MockData.draw r ->
  (inject_Z a
   <= MockData.Math_round (MockData.add (inject_Z a) (MockData.mul r (inject_Z b)))
   /\ MockData.Math_round (MockData.add (inject_Z a) (MockData.mul r (inject_Z b)))
      <= inject_Z (a + b))%Q.
Proof.
  intros Hb Ha Hb' Hab Hr.
  destruct (@sum_within a b r Hb Ha Hb' Hab Hr) as [H1 H2].
  apply Math_round_within; assumption.
Qed.

(* Math.round((1 + Math.random() * 5) * 10) / 10 lies between 1 and 6 *)
Lemma vibration_within (r : Q) :
  MockData.draw r ->
  (1 <= MockData.div (MockData.Math_round
                        (MockData.mul (MockData.add 1 (MockData.mul r 5)) 10)) 10
   /\ MockData.div (MockData.Math_round
                      (MockData.mul (MockData.add 1 (MockData.mul r 5)) 10)) 10 <= 6)%Q.
Proof.
  intro Hr.
  destruct (@sum_within 1 5 r ltac:(lia) ltac:(reflexivity) ltac:(reflexivity)
              ltac:(reflexivity) Hr) as [S1 S2].
  change (inject_Z 1) with 1%Q in S1, S2. change (inject_Z 5) with 5%Q in S1, S2.
  change (inject_Z (1 + 5)) with 6%Q in S2.
  set (x := MockData.add 1 (MockData.mul r 5)) in *.
  assert (T : (inject_Z 10 <= MockData.mul x 10 /\ MockData.mul x 10 <= inject_Z 60)%Q).
  { apply DoubleFacts.nearest_within; try reflexivity; unfold inject_Z; lra. }
  destruct T as [T1 T2].
  destruct (@Math_round_within _ 10 60 T1 T2) as [M1 M2].
  set (m := MockData.Math_round (MockData.mul x 10)) in *.
  unfold inject_Z in M1, M2.
  change 1%Q with (inject_Z 1). change 6%Q with (inject_Z 6).
  apply DoubleFacts.nearest_within; try reflexivity; unfold inject_Z.
  - apply Qle_shift_div_l; [reflexivity | lra].
  - apply Qle_shift_div_r; [reflexivity | lra].
Qed.

(** X15. The readings generateMockData builds stay within the ranges its
    comments give, whatever Math.random draws: sox 120-280, nox 180-380, co2
    850-1000, pm 15-40, co 40-120; temperature 400-600, vibration 1-6,
    pressure 120-200, efficiency 85-97, runtime 6000-8000. *)
Theorem generated_readings_within_documented_ranges :
  forall r1 r2 r3 r4 r5 : Q,
    MockData.draw r1 -> MockData.draw r2 -> MockData.draw r3 ->
    MockData.draw r4 -> MockData.draw r5 ->
    (let d := MockData.emissionData r1 r2 r3 r4 r5 in
     (120 <= MockData.g_value (MockData.d_sox d) <= 280)%Q
     /\ (180 <= MockData.g_value (MockData.d_nox d) <= 380)%Q
     /\ (850 <= MockData.g_value (MockData.d_co2 d) <= 1000)%Q
     /\ (15 <= MockData.g_value (MockData.d_pm d) <= 40)%Q
     /\ (40 <= MockData.g_value (MockData.d_co d) <= 120)%Q)
    /\ (exists t v p e h,
           MockData.generated_parameters r1 r2 r3 r4 r5
           = {| temperature := Some t; vibration := Some v; pressure := Some p;
                efficiency := Some e; runtime := Some h |}
           /\ (400 <= t <= 600)%Q /\ (1 <= v <= 6)%Q /\ (120 <= p <= 200)%Q
           /\ (85 <= e <= 97)%Q /\ (6000 <= h <= 8000)%Q).
Proof.
  intros r1 r2 r3 r4 r5 D1 D2 D3 D4 D5. split.
  - cbn zeta. unfold MockData.emissionData. cbn [MockData.g_value MockData.d_sox
      MockData.d_nox MockData.d_co2 MockData.d_pm MockData.d_co].
    split; [| split; [| split; [| split]]].
    + exact (@generated_within 120 160 r1 ltac:(lia) eq_refl eq_refl eq_refl D1).
    + exact (@generated_within 180 200 r2 ltac:(lia) eq_refl eq_refl eq_refl D2).
    + exact (@generated_within 850 150 r3 ltac:(lia) eq_refl eq_refl eq_refl D3).
    + exact (@generated_within 15 25 r4 ltac:(lia) eq_refl eq_refl eq_refl D4).
    + exact (@generated_within 40 80 r5 ltac:(lia) eq_refl eq_refl eq_refl D5).
  - unfold MockData.generated_parameters.
    do 5 eexists. split; [reflexivity |].
    split; [| split; [| split; [| split]]].
    + exact (@generated_within 400 200 r1 ltac:(lia) eq_refl eq_refl eq_refl D1).
    + exact (@vibration_within r2 D2).
    + exact (@generated_within 120 80 r3 ltac:(lia) eq_refl eq_refl eq_refl D3).
    + exact (@generated_within 85 12 r4 ltac:(lia) eq_refl eq_refl eq_refl D4).
    + exact (@generated_within 6000 2000 r5 ltac:(lia) eq_refl eq_refl eq_refl D5).
Qed.

Lemma half_is_a_draw : MockData.draw (1 # 2).
Proof. split; [discriminate | reflexivity]. Qed.

Lemma generated_readings_within_documented_ranges_witness :
  (let d := MockData.emissionData (1 # 2) (1 # 2) (1 # 2) (1 # 2) (1 # 2) in
   (120 <= MockData.g_value (MockData.d_sox d) <= 280)%Q
   /\ (180 <= MockData.g_value (MockData.d_nox d) <= 380)%Q
   /\ (850 <= MockData.g_value (MockData.d_co2 d) <= 1000)%Q
   /\ (15 <= MockData.g_value (MockData.d_pm d) <= 40)%Q
   /\ (40 <= MockData.g_value (MockData.d_co d) <= 120)%Q)
  /\ (exists t v p e h,
         MockData.generated_parameters (1 # 2) (1 # 2) (1 # 2) (1 # 2) (1 # 2)
         = {| temperature := Some t; vibration := Some v; pressure := Some p;
              efficiency := Some e; runtime := Some h |}
         /\ (400 <= t <= 600)%Q /\ (1 <= v <= 6)%Q /\ (120 <= p <= 200)%Q
         /\ (85 <= e <= 97)%Q /\ (6000 <= h <= 8000)%Q).
Proof.
  apply (generated_readings_within_documented_ranges
           (r1 := 1 # 2) (r2 := 1 # 2) (r3 := 1 # 2) (r4 := 1 # 2) (r5 := 1 # 2));
    split; (discriminate || reflexivity).
Defined.

Lemma breaches_new_Emission (d : MockData.EmissionData) :
  breaches (MockData.new_Emission d) sox
  = Num.Qgtb (MockData.g_value (MockData.d_sox d)) (MockData.g_threshold (MockData.d_sox d))
  /\ breaches (MockData.new_Emission d) nox
     = Num.Qgtb (MockData.g_value (MockData.d_nox d)) (MockData.g_threshold (MockData.d_nox d))
  /\ breaches (MockData.new_Emission d) co2
     = Num.Qgtb (MockData.g_value (MockData.d_co2 d)) (MockData.g_threshold (MockData.d_co2 d))
  /\ breaches (MockData.new_Emission d) pm
     = Num.Qgtb (MockData.g_value (MockData.d_pm d)) (MockData.g_threshold (MockData.d_pm d))
  /\ breaches (MockData.new_Emission d) co
     = Num.Qgtb (MockData.g_value (MockData.d_co d)) (MockData.g_threshold (MockData.d_co d)).
Proof. repeat split. Qed.

Lemma raised_nonempty_iff (emission : Emission) :
  raised emission <> [] <-> exists p, breaches emission p = true.
Proof.
  split.
  - intro H. unfold raised in H. cbn [filter] in H.
    destruct (breaches emission sox) eqn:E1; [exists sox; exact E1 |].
    destruct (breaches emission nox) eqn:E2; [exists nox; exact E2 |].
    destruct (breaches emission co2) eqn:E3; [exists co2; exact E3 |].
    destruct (breaches emission pm) eqn:E4; [exists pm; exact E4 |].
    destruct (breaches emission co) eqn:E5; [exists co; exact E5 |].
    contradiction H. reflexivity.
  - intros [p Hp] H.
    pose proof (raised_length_pos emission p Hp) as L. rewrite H in L.
    cbn in L. lia.
Qed.

Lemma exceedsThreshold_iff (d : MockData.EmissionData) :
  MockData.exceedsThreshold d = true
  <-> exists p, breaches (MockData.new_Emission d) p = true.
Proof.
  destruct (breaches_new_Emission d) as (B1 & B2 & B3 & B4 & B5).
  unfold MockData.exceedsThreshold, MockData.values. cbn [existsb].
  rewrite <- B1, <- B2, <- B3, <- B4, <- B5. split.
  - intro H. repeat (apply orb_true_iff in H; destruct H as [H | H]);
      [exists sox | exists nox | exists co2 | exists pm | exists co | discriminate H];
      exact H.
  - intros [p Hp]. destruct p; rewrite Hp; rewrite ?orb_true_r; reflexivity.
Qed.

Lemma status_critical_iff_exceeds (d : MockData.EmissionData) :
  MockData.emission_status d = MockData.Critical
  <-> MockData.exceedsThreshold d = true.
Proof.
  unfold MockData.emission_status.
  destruct (MockData.exceedsThreshold d); [tauto |].
  destruct (existsb _ _); split; discriminate.
Qed.

(** X16. The status the generator stores with an emission snapshot agrees
    with the alert service: for any readings and thresholds, the status is
    'Critical' exactly when the emission check finds a parameter above its
    threshold, that is exactly when an evaluation of the stored snapshot
    raises at least one alert.  (The check's own severities High and Medium
    play no part in the status.) *)
Theorem status_critical_iff_alert_raised :
  forall d : MockData.EmissionData,
    (MockData.emission_status d = MockData.Critical
     <-> exists p, breaches (MockData.new_Emission d) p = true)
    /\ (MockData.emission_status d = MockData.Critical
        <-> raised (MockData.new_Emission d) <> []).
Proof.
  intro d. split.
  - rewrite status_critical_iff_exceeds. apply exceedsThreshold_iff.
  - rewrite status_critical_iff_exceeds, exceedsThreshold_iff.
    symmetry. apply raised_nonempty_iff.
Qed.

(** X17. Whatever Math.random draws, a generated emission snapshot never has
    the status 'Normal': its co2 reading, at least 850, is always above 80%
    of the threshold 950.  And its co2 and co readings, at most 1000 and 120,
    are never above 1.2 times their thresholds 950 and 100: an alert for co2
    or co on generated data can only have severity Medium. *)
Theorem generated_emission_is_never_normal :
  forall r1 r2 r3 r4 r5 : Q,
    MockData.draw r1 -> MockData.draw r2 -> MockData.draw r3 ->
    MockData.draw r4 -> MockData.draw r5 ->
    let d := MockData.emissionData r1 r2 r3 r4 r5 in
    MockData.emission_status d <> MockData.Normal
    /\ severity (alert_entry co2 (get (MockData.new_Emission d) co2)) = Medium
    /\ severity (alert_entry co (get (MockData.new_Emission d) co)) = Medium.
Proof.
  intros r1 r2 r3 r4 r5 D1 D2 D3 D4 D5 d.
  assert (Hco2 : (850 <= MockData.g_value (MockData.d_co2 d) <= 1000)%Q)
    by exact (@generated_within 850 150 r3 ltac:(lia) eq_refl eq_refl eq_refl D3).
  assert (Hco : (40 <= MockData.g_value (MockData.d_co d) <= 120)%Q)
    by exact (@generated_within 40 80 r5 ltac:(lia) eq_refl eq_refl eq_refl D5).
  destruct Hco2 as [Hco2 Hco2']. destruct Hco as [Hco Hco'].
  split; [| split].
  - unfold MockData.emission_status.
    destruct (MockData.exceedsThreshold d); [discriminate |].
    assert (E : existsb (fun param =>
                           Num.Qgtb (MockData.g_value param)
                             (MockData.mul (MockData.g_threshold param)
                                MockData.zero_point_eight))
                        (MockData.values d) = true).
    { apply existsb_exists. exists (MockData.d_co2 d). split.
      - unfold MockData.values. cbn. tauto.
      - apply Qgtb_lt.
        change (MockData.g_threshold (MockData.d_co2 d)) with 950%Q.
        assert (C : (MockData.mul 950 MockData.zero_point_eight < 850)%Q)
          by (vm_compute; reflexivity).
        eapply Qlt_le_trans; eassumption. }
    rewrite E. discriminate.
  - unfold alert_entry. cbn [severity].
    change (XNum.of_num (value (get (MockData.new_Emission d) co2)))
      with (Finite (MockData.g_value (MockData.d_co2 d))).
    change (threshold_times_1_2 (get (MockData.new_Emission d) co2))
      with (threshold_times_1_2 (reading 0 950)).
    assert (E : XNum.gt (Finite (MockData.g_value (MockData.d_co2 d)))
                  (threshold_times_1_2 (reading 0 950)) = false).
    { apply (DoubleFacts.gt_first_below _ 1000); [exact Hco2' |].
      vm_compute. reflexivity. }
    rewrite E. reflexivity.
  - unfold alert_entry. cbn [severity].
    change (XNum.of_num (value (get (MockData.new_Emission d) co)))
      with (Finite (MockData.g_value (MockData.d_co d))).
    change (threshold_times_1_2 (get (MockData.new_Emission d) co))
      with (threshold_times_1_2 (reading 0 100)).
    assert (E : XNum.gt (Finite (MockData.g_value (MockData.d_co d)))
                  (threshold_times_1_2 (reading 0 100)) = false).
    { apply (DoubleFacts.gt_first_below _ 120); [exact Hco' |].
      vm_compute. reflexivity. }
    rewrite E. reflexivity.
Qed.

Lemma generated_emission_is_never_normal_witness :
  let d := MockData.emissionData (1 # 2) (1 # 2) (1 # 2) (1 # 2) (1 # 2) in
  MockData.emission_status d <> MockData.Normal
  /\ severity (alert_entry co2 (get (MockData.new_Emission d) co2)) = Medium
  /\ severity (alert_entry co (get (MockData.new_Emission d) co)) = Medium.
Proof.
  apply (generated_emission_is_never_normal
           (r1 := 1 # 2) (r2 := 1 # 2) (r3 := 1 # 2) (r4 := 1 # 2) (r5 := 1 # 2));
    split; (discriminate || reflexivity).
Defined.

(** X18. The status the generator stores with an equipment snapshot agrees
    with the alert service under the thresholds the schema gives by default:
    for any readings the status is 'Critical' exactly when the equipment check
    finds an issue.  On generated readings the efficiency, never below 85, is
    never among the issues. *)
Theorem equipment_status_critical_iff_issue :
  (forall (eq : Equipment) (readings : Parameters) (recorded : option (list Anomaly)),
      MockData.maintenance_status readings = MockData.MCritical
      <-> criticalIssues_of {| equipment := eq; parameters := readings;
                               thresholds := default_thresholds;
                               anomalies := recorded |} <> [])
  /\ (forall r1 r2 r3 r4 r5 : Q,
         MockData.draw r4 ->
         Num.lt (efficiency (MockData.generated_parameters r1 r2 r3 r4 r5))
                (Some (min (t_efficiency default_thresholds))) = false).
Proof.
  split.
  - intros eq readings recorded.
    unfold MockData.maintenance_status, criticalIssues_of.
    cbn [parameters thresholds default_thresholds t_temperature t_vibration
         t_pressure t_efficiency max min].
    destruct (Num.gt (temperature readings) (Some 550));
      destruct (Num.gt (vibration readings) (Some (45 # 10)));
      destruct (Num.gt (pressure readings) (Some 180));
      destruct (Num.lt (efficiency readings) (Some 85));
      cbn [orb app]; split; intro H; try discriminate; try reflexivity;
      try (contradiction H; reflexivity).
    all: destruct (_ || _); discriminate.
  - intros r1 r2 r3 r4 r5 D4.
    unfold MockData.generated_parameters. cbn [efficiency default_thresholds
      t_efficiency min].
    unfold Num.lt. rewrite gt_values. apply Qgtb_le.
    exact (proj1 (@generated_within 85 12 r4 ltac:(lia) eq_refl eq_refl eq_refl D4)).
Qed.

Lemma equipment_status_critical_iff_issue_witness :
  Num.lt (efficiency (MockData.generated_parameters 0 0 0 0 0))
         (Some (min (t_efficiency default_thresholds))) = false.
Proof.
  apply (proj2 equipment_status_critical_iff_issue 0 0 0 0 0).
  split; [discriminate | reflexivity].
Defined.

(** X19. On generated data the ash alert can never fire.  The fly ash store
    holds at most 45000 of 50000 tonnes, which is 90% and not above it, and
    the bottom ash store at most 13000 of 15000: the status is never
    'Critical' and the ash check leaves the document and the trace as they
    were. *)
Theorem generated_ash_never_alerts :
  forall (r_fq r_bq r_fly r_bottom : Q),
    MockData.draw r_fly -> MockData.draw r_bottom ->
    MockData.ash_status (MockData.generated_ash r_fq r_bq r_fly r_bottom)
    <> MockData.ACritical
    /\ forall (this : TwilioService) (persist : World (Logged Ash) -> option Exn)
              (users : list User)
              (lines : list DomainLine) (t : Trace),
         checkAshThresholds this persist users
           {| doc := {| subject := MockData.generated_ash r_fq r_bq r_fly r_bottom;
                        logged := lines |};
              trace := t |}
         = (Returned tt,
            {| doc := {| subject := MockData.generated_ash r_fq r_bq r_fly r_bottom;
                         logged := lines |};
               trace := t |}).
Proof.
  intros r_fq r_bq r_fly r_bottom Dfly Dbottom.
  set (ash := MockData.generated_ash r_fq r_bq r_fly r_bottom).
  assert (Hfly : XNum.gt (storagePercentage (flyAsh ash)) (Finite 90) = false).
  { unfold storagePercentage, ash, MockData.generated_ash.
    cbn [flyAsh storage s_current s_capacity].
    apply (@percentage_not_above _ 45000); [reflexivity | | vm_compute; reflexivity].
    exact (proj2 (@generated_within 25000 20000 r_fly ltac:(lia) eq_refl eq_refl
                    eq_refl Dfly)). }
  assert (Hbottom : XNum.gt (storagePercentage (bottomAsh ash)) (Finite 90) = false).
  { unfold storagePercentage, ash, MockData.generated_ash.
    cbn [bottomAsh storage s_current s_capacity].
    apply (@percentage_not_above _ 13000); [reflexivity | | vm_compute; reflexivity].
    exact (proj2 (@generated_within 8000 5000 r_bottom ltac:(lia) eq_refl eq_refl
                    eq_refl Dbottom)). }
  split.
  - unfold MockData.ash_status. fold ash. cbn zeta. rewrite Hfly, Hbottom. cbn [orb].
    destruct (_ || _); discriminate.
  - intros this persist users lines t.
    apply checkAshThresholds_quiet. cbn [doc subject]. fold ash.
    unfold over_90. rewrite Hfly, Hbottom. reflexivity.
Qed.

Lemma generated_ash_never_alerts_witness :
  MockData.ash_status (MockData.generated_ash (1 # 2) (1 # 2) (999 # 1000) (999 # 1000))
  <> MockData.ACritical.
Proof.
  apply (generated_ash_never_alerts (1 # 2) (1 # 2)
           (r_fly := 999 # 1000) (r_bottom := 999 # 1000));
    split; (discriminate || reflexivity).
Defined.

(** X20. The status the generator stores with a load snapshot is 'Critical
    Load' exactly when the load check would raise its alert.  Outside the
    peak hours 9, 10, 11, 18, 19 and 20 the generated demand is at most 1800
    of 2100 MW: the status is never 'Critical Load' and the load check leaves
    the document and the trace as they were. *)
Theorem generated_load_alerts_only_at_peak :
  (forall demand : Demand,
      MockData.load_status demand = MockData.CriticalLoad
      <-> XNum.gt (loadPercentage (MockData.new_Load demand)) (Finite 95) = true)
  /\ (forall (hour : nat) (r : Q),
         MockData.draw r ->
         existsb (Nat.eqb hour) MockData.peakHours = false ->
         MockData.load_status (MockData.generated_demand hour r)
         <> MockData.CriticalLoad
         /\ forall (this : TwilioService) (persist : World (Logged Load) -> option Exn)
                   (users : list User)
                   (lines : list DomainLine) (t : Trace),
              checkLoadThresholds this persist users
                {| doc := {| subject :=
                               MockData.new_Load (MockData.generated_demand hour r);
                             logged := lines |};
                   trace := t |}
              = (Returned tt,
                 {| doc := {| subject :=
                                MockData.new_Load (MockData.generated_demand hour r);
                              logged := lines |};
                    trace := t |})).
Proof.
  assert (Hagree : forall dem : Demand,
             MockData.load_status dem = MockData.CriticalLoad
             <-> XNum.gt (loadPercentage (MockData.new_Load dem)) (Finite 95) = true).
  { intro dem. unfold MockData.load_status, loadPercentage, MockData.new_Load.
    cbn [demand]. cbn zeta.
    destruct (XNum.gt _ (Finite 95)); [tauto |].
    destruct (XNum.gt _ (Finite 85)); split; discriminate. }
  split; [exact Hagree |].
  intros hour r Hr Hoff.
  assert (Hquiet : XNum.gt (loadPercentage
                              (MockData.new_Load (MockData.generated_demand hour r)))
                           (Finite 95) = false).
  { unfold loadPercentage, MockData.new_Load, MockData.generated_demand.
    cbn [demand d_current d_capacity].
    unfold MockData.baseLoad. rewrite Hoff.
    apply (@percentage_not_above _ 1800); [reflexivity | | vm_compute; reflexivity].
    exact (proj2 (@generated_within 1400 400 r ltac:(lia) eq_refl eq_refl eq_refl Hr)). }
  split.
  - intro H. apply Hagree in H. congruence.
  - intros this persist users lines t.
    apply checkLoadThresholds_quiet. exact Hquiet.
Qed.

Lemma generated_load_alerts_only_at_peak_witness :
  MockData.load_status (MockData.generated_demand 14 (999 # 1000))
  <> MockData.CriticalLoad.
Proof.
  apply (proj2 generated_load_alerts_only_at_peak 14%nat (999 # 1000)).
  - split; [discriminate | reflexivity].
  - reflexivity.
Defined.

(** ** The prediction service *)

Module GeminiFacts.

Import Ascii.
Import Gemini.
Local Open Scope string_scope.

Lemma from_open_skips (pre rest : string) :
  has_char "{"%char pre = false ->
  from_open (pre ++ String "{"%char rest) = Some (String "{"%char rest).
Proof.
  induction pre as [|c pre IH]; cbn [has_char String.append from_open]; intro H.
  - reflexivity.
  - apply orb_false_iff in H as [Hc Hpre]. rewrite Hc. apply IH. exact Hpre.
Qed.

Lemma from_open_none (s : string) :
  has_char "{"%char s = false -> from_open s = None.
Proof.
  induction s as [|c s IH]; cbn [has_char from_open]; intro H; [reflexivity |].
  apply orb_false_iff in H as [Hc Hs]. rewrite Hc. apply IH. exact Hs.
Qed.

Lemma upto_close_none (s : string) :
  has_char "}"%char s = false -> upto_close s = None.
Proof.
  induction s as [|c s IH]; cbn [has_char upto_close]; intro H; [reflexivity |].
  apply orb_false_iff in H as [Hc Hs]. rewrite (IH Hs), Hc. reflexivity.
Qed.

Lemma upto_close_last (body post : string) :
  has_char "}"%char post = false ->
  upto_close (body ++ String "}"%char post) = Some (body ++ String "}"%char EmptyString).
Proof.
  intro H. induction body as [|c body IH]; cbn [String.append upto_close].
  - rewrite (upto_close_none _ H). reflexivity.
  - rewrite IH. reflexivity.
Qed.

(* the match keeps the object and drops the text around it *)
Lemma match_object_found (pre body post : string) :
  has_char "{"%char pre = false ->
  has_char "}"%char post = false ->
  match_object (pre ++ String "{"%char (body ++ String "}"%char post))
  = Some (String "{"%char (body ++ String "}"%char EmptyString)).
Proof.
  intros Hpre Hpost. unfold match_object.
  rewrite (from_open_skips _ _ Hpre), (upto_close_last _ _ Hpost). reflexivity.
Qed.

Lemma match_object_none (s : string) :
  has_char "{"%char s = false \/ has_char "}"%char s = false ->
  match_object s = None.
Proof.
  unfold match_object. intros [H | H].
  - rewrite (from_open_none _ H). reflexivity.
  - destruct (from_open s) as [[|c rest]|] eqn:E; try reflexivity.
    assert (Hrest : has_char "}"%char rest = false).
    { clear - E H. revert c rest E.
      induction s as [|a s IH]; cbn [from_open has_char] in *; intros c rest E;
        [discriminate |].
      apply orb_false_iff in H as [Ha Hs].
      destruct (Ascii.eqb a "{"%char).
      - injection E as -> ->. exact Hs.
      - exact (IH Hs c rest E). }
    rewrite (upto_close_none _ Hrest). reflexivity.
Qed.

Section ServiceFacts.

Variable this : GeminiService.
Variables Prediction Data : Type.
Variable buildPrompt : Data -> string -> string.
Variable getMockPrediction : string -> World -> Prediction.
Variable JSON_parse : string -> Exn + Prediction.
Variable axios_post : list Request -> Request -> Exn + option string.

(* parsePrediction returns, and posts nothing *)
Lemma parsePrediction_returns response type (w : World) :
  exists prediction w',
    parsePrediction getMockPrediction JSON_parse response type w = (Returned prediction, w')
    /\ posted w' = posted w.
Proof.
  unfold parsePrediction, bind, try_catch, mockPrediction, gets, log, modify, throw, ret.
  destruct response as [text|]; cbn.
  - destruct (match_object text) as [jsonMatch|].
    + destruct (JSON_parse jsonMatch) as [e | prediction]; cbn;
        eexists; eexists; split; reflexivity.
    + eexists; eexists; split; reflexivity.
  - eexists; eexists; split; reflexivity.
Qed.

Lemma parsePrediction_of_object pre body post type (w : World) :
  has_char "{"%char pre = false ->
  has_char "}"%char post = false ->
  parsePrediction getMockPrediction JSON_parse
    (Some (pre ++ String "{"%char (body ++ String "}"%char post))) type w
  = match JSON_parse (String "{"%char (body ++ String "}"%char EmptyString)) with
    | inr prediction => (Returned prediction, w)
    | inl e =>
        let w' := {| posted := posted w; console := (console w ++ [ParseError e])%list |} in
        (Returned (getMockPrediction type w'), w')
    end.
Proof.
  intros Hpre Hpost.
  unfold parsePrediction, bind, try_catch.
  rewrite (match_object_found _ _ _ Hpre Hpost).
  destruct (JSON_parse _) as [e | prediction]; reflexivity.
Qed.

(* an answer with no text, or with no object in it: the mock prediction *)
Lemma parsePrediction_fallback response type (w : World) :
  match response with
  | None => True
  | Some text => has_char "{"%char text = false \/ has_char "}"%char text = false
  end ->
  exists w',
    parsePrediction getMockPrediction JSON_parse response type w
    = (Returned (getMockPrediction type w'), w')
    /\ posted w' = posted w.
Proof.
  unfold parsePrediction, bind, try_catch.
  destruct response as [text|]; intro H.
  - rewrite (match_object_none _ H). eexists. split; reflexivity.
  - eexists. split; reflexivity.
Qed.

(* with a key, the run is the post followed by the parse, or the handler *)
Lemma generatePrediction_with_key data type (w : World) :
  truthy (apiKey this) = true ->
  exists request,
    let w1 := {| posted := (posted w ++ [request])%list; console := console w |} in
    prompt request = buildPrompt data type
    /\ generatePrediction this buildPrompt getMockPrediction JSON_parse axios_post data type w
       = match axios_post (posted w) request with
         | inr text => parsePrediction getMockPrediction JSON_parse text type w1
         | inl e =>
             let w2 := {| posted := posted w1; console := (console w ++ [ApiError e])%list |} in
             (Returned (getMockPrediction type w2), w2)
         end.
Proof.
  intro Hkey. unfold generatePrediction. rewrite Hkey.
  match goal with |- context [post _ ?r] => exists r end.
  cbv zeta. split; [reflexivity |].
  unfold try_catch, bind, post.
  destruct (axios_post (posted w) _) as [e | text]; [reflexivity |].
  match goal with
  | |- context [parsePrediction _ _ text type ?w1] =>
      destruct (parsePrediction_returns text type w1) as (prediction & w' & Hrun & _)
  end.
  rewrite Hrun. reflexivity.
Qed.

End ServiceFacts.

End GeminiFacts.

Import Ascii.

(** X21.  Asking for a prediction never throws, whatever the remote call and
    the JSON parser do.  Without an API key no request is posted and the
    warning is the only line written; with a key exactly one request is
    posted, carrying the prompt built for the data. *)
Theorem prediction_never_throws_one_post_at_most
  (this : Gemini.GeminiService) (Prediction Data : Type)
  (buildPrompt : Data -> string -> string)
  (getMockPrediction : string -> Gemini.World -> Prediction)
  (JSON_parse : string -> Exn + Prediction)
  (axios_post : list Gemini.Request -> Gemini.Request -> Exn + option string)
  (data : Data) (type : string) (w : Gemini.World) :
  exists prediction w',
    Gemini.generatePrediction this buildPrompt getMockPrediction JSON_parse axios_post
      data type w = (Returned prediction, w')
    /\ if truthy (Gemini.apiKey this)
       then exists request,
              Gemini.posted w' = Gemini.posted w ++ [request]
              /\ Gemini.prompt request = buildPrompt data type
       else Gemini.posted w' = Gemini.posted w
            /\ Gemini.console w' = Gemini.console w ++ [Gemini.WarnNoKey]
            /\ prediction = getMockPrediction type w'.
Proof.
  destruct (truthy (Gemini.apiKey this)) eqn:Hkey.
  - destruct (GeminiFacts.generatePrediction_with_key this buildPrompt getMockPrediction
                JSON_parse axios_post data type w Hkey) as (request & Hprompt & Hrun).
    cbv zeta in Hrun. rewrite Hrun.
    destruct (axios_post (Gemini.posted w) request) as [e | text].
    + eexists. eexists. split; [reflexivity |].
      exists request. split; [reflexivity | exact Hprompt].
    + destruct (GeminiFacts.parsePrediction_returns getMockPrediction JSON_parse text type
                  {| Gemini.posted := Gemini.posted w ++ [request];
                     Gemini.console := Gemini.console w |})
        as (prediction & w' & Hparse & Hposted).
      rewrite Hparse. exists prediction, w'. split; [reflexivity |].
      exists request. split; [exact Hposted | exact Hprompt].
  - unfold Gemini.generatePrediction. rewrite Hkey.
    eexists. eexists. split; [reflexivity |].
    cbn. repeat split.
Qed.

(** X22.  When the remote call answers with a text that holds one JSON
    object, the text before its opening brace and after its closing brace is
    ignored: the prediction returned is what the parser makes of the object
    alone, and nothing is written to the console. *)
Theorem prediction_read_from_the_object_alone
  (this : Gemini.GeminiService) (Prediction Data : Type)
  (buildPrompt : Data -> string -> string)
  (getMockPrediction : string -> Gemini.World -> Prediction)
  (JSON_parse : string -> Exn + Prediction)
  (axios_post : list Gemini.Request -> Gemini.Request -> Exn + option string)
  (data : Data) (type : string) (w : Gemini.World)
  (pre body post : string) (prediction : Prediction)
  (Hkey : truthy (Gemini.apiKey this) = true)
  (Hpre : Gemini.has_char "{"%char pre = false)
  (Hpost : Gemini.has_char "}"%char post = false)
  (Hanswer : forall request,
      axios_post (Gemini.posted w) request
      = inr (Some (pre ++ String "{"%char (body ++ String "}"%char post))%string))
  (Hparse : JSON_parse (String "{"%char (body ++ String "}"%char EmptyString))%string
            = inr prediction) :
  exists w',
    Gemini.generatePrediction this buildPrompt getMockPrediction JSON_parse axios_post
      data type w = (Returned prediction, w')
    /\ Gemini.console w' = Gemini.console w.
Proof.
  destruct (GeminiFacts.generatePrediction_with_key this buildPrompt getMockPrediction
              JSON_parse axios_post data type w Hkey) as (request & _ & Hrun).
  cbv zeta in Hrun. rewrite Hrun, (Hanswer request).
  rewrite (GeminiFacts.parsePrediction_of_object getMockPrediction JSON_parse
             pre body post type _ Hpre Hpost), Hparse.
  eexists. split; reflexivity.
Qed.

Lemma prediction_read_from_the_object_alone_witness :
  exists w',
    Gemini.generatePrediction
      {| Gemini.apiKey := Some "k"%string; Gemini.baseUrl := "u"%string |}
      (fun (_ : unit) (_ : string) => "p"%string)
      (fun _ _ => "mock"%string)
      (fun s => inr s)
      (fun _ _ => inr (Some "Sure: {a} done"%string))
      tt "load"%string {| Gemini.posted := []; Gemini.console := [] |}
    = (Returned "{a}"%string, w')
    /\ Gemini.console w' = [].
Proof.
  apply (@prediction_read_from_the_object_alone
           {| Gemini.apiKey := Some "k"%string; Gemini.baseUrl := "u"%string |}
           string unit
           (fun (_ : unit) (_ : string) => "p"%string)
           (fun _ _ => "mock"%string)
           (fun s => inr s)
           (fun _ _ => inr (Some "Sure: {a} done"%string))
           tt "load"%string {| Gemini.posted := []; Gemini.console := [] |}
           "Sure: "%string "a"%string " done"%string "{a}"%string);
    reflexivity.
Defined.

(** X23.  With a key, the mock prediction is what is returned whenever the
    remote call is rejected, answers without a text, answers with a text
    that holds no opening or no closing brace, or answers with an object
    the parser rejects; at most one line is written to the console. *)
Theorem prediction_falls_back_on_the_mock
  (this : Gemini.GeminiService) (Prediction Data : Type)
  (buildPrompt : Data -> string -> string)
  (getMockPrediction : string -> Gemini.World -> Prediction)
  (JSON_parse : string -> Exn + Prediction)
  (axios_post : list Gemini.Request -> Gemini.Request -> Exn + option string)
  (data : Data) (type : string) (w : Gemini.World)
  (answer : Exn + option string)
  (Hkey : truthy (Gemini.apiKey this) = true)
  (Hanswer : forall request, axios_post (Gemini.posted w) request = answer)
  (Hbad : match answer with
          | inl _ => True
          | inr None => True
          | inr (Some text) =>
              Gemini.has_char "{"%char text = false
              \/ Gemini.has_char "}"%char text = false
              \/ exists pre body post e,
                   text = (pre ++ String "{"%char (body ++ String "}"%char post))%string
                   /\ Gemini.has_char "{"%char pre = false
                   /\ Gemini.has_char "}"%char post = false
                   /\ JSON_parse (String "{"%char (body ++ String "}"%char EmptyString))%string
                      = inl e
          end) :
  exists w',
    Gemini.generatePrediction this buildPrompt getMockPrediction JSON_parse axios_post
      data type w = (Returned (getMockPrediction type w'), w')
    /\ (List.length (Gemini.console w') <= S (List.length (Gemini.console w)))%nat.
Proof.
  destruct (GeminiFacts.generatePrediction_with_key this buildPrompt getMockPrediction
              JSON_parse axios_post data type w Hkey) as (request & _ & Hrun).
  cbv zeta in Hrun. rewrite Hrun, (Hanswer request). clear Hrun Hanswer.
  destruct answer as [e | [text|]].
  - eexists. split; [reflexivity |]. cbn. rewrite length_app. cbn. lia.
  - destruct Hbad as [H | [H | (pre & body & post & e & -> & Hpre & Hpost & Hparse)]].
    + unfold Gemini.parsePrediction, bind, try_catch.
      rewrite (GeminiFacts.match_object_none _ (or_introl H)).
      eexists. split; [reflexivity |]. cbn. lia.
    + unfold Gemini.parsePrediction, bind, try_catch.
      rewrite (GeminiFacts.match_object_none _ (or_intror H)).
      eexists. split; [reflexivity |]. cbn. lia.
    + rewrite (GeminiFacts.parsePrediction_of_object getMockPrediction JSON_parse
                 pre body post type _ Hpre Hpost), Hparse.
      eexists. split; [reflexivity |]. cbn. rewrite length_app. cbn. lia.
  - eexists. split; [reflexivity |]. cbn. rewrite length_app. cbn. lia.
Qed.

Lemma prediction_falls_back_on_the_mock_witness :
  exists w',
    Gemini.generatePrediction
      {| Gemini.apiKey := Some "k"%string; Gemini.baseUrl := "u"%string |}
      (fun (_ : unit) (_ : string) => "p"%string)
      (fun _ _ => "mock"%string)
      (fun s => inr s)
      (fun _ _ => inr (Some "no object here"%string))
      tt "load"%string {| Gemini.posted := []; Gemini.console := [] |}
    = (Returned "mock"%string, w')
    /\ (List.length (Gemini.console w') <= 1)%nat.
Proof.
  apply (@prediction_falls_back_on_the_mock
           {| Gemini.apiKey := Some "k"%string; Gemini.baseUrl := "u"%string |}
           string unit
           (fun (_ : unit) (_ : string) => "p"%string)
           (fun _ _ => "mock"%string)
           (fun s => inr s)
           (fun _ _ => inr (Some "no object here"%string))
           tt "load"%string {| Gemini.posted := []; Gemini.console := [] |}
           (inr (Some "no object here"%string))).
  - reflexivity.
  - intro request. reflexivity.
  - left. reflexivity.
Defined.
